(** * WellTrack: state synchronisation and side-effect aggregation

    A shallow embedding of the parts of the wellness tracker that carry
    invariants: the string normaliser, the side-effect resolver, the
    aggregation engine and the state updates of the client
    (the React component file), and the persistent store and the
    side-effect route of the server (server.js).

    JavaScript values are modelled as follows.
    - A string is the list of its UTF-16 code units ([list N]).  Equality,
      [length], [<] and [>=] on strings are those of the code-unit lists, as
      in the language.
    - An object used as a dictionary keeps its own keys; a bracket read
      [obj[k]] that finds no own key falls through to [Object.prototype],
      which is modelled by [inheritedKey].
    - A promise that rejects, or a statement that throws, is an explicit
      [Thrown] (or [None]) result.
    - Calls that leave the process (fetch, the file system, the collation
      used by [localeCompare], JSON text) are Section variables. *)

From Stdlib Require Import NArith ZArith Ascii String List Lia Permutation Sorted.
From stdpp Require Import gmap list.

Set Warnings "-register-all".

Open Scope N_scope.

(* ================================================================== *)
(** * Part I: definitions                                              *)
(* ================================================================== *)

(** ** Strings as UTF-16 code units *)

Abbreviation jsstring := (list N).

(** A source literal; every literal of the program that is embedded this
    way is plain ASCII, one byte per code unit. *)
Definition js (s : String.string) : jsstring :=
  N_of_ascii <$> list_ascii_of_string s.

Definition between (lo hi c : N) : bool := (lo <=? c) && (c <=? hi).

(** The regular-expression class [\s], which is also the set removed by
    [String.prototype.trim]: WhiteSpace and LineTerminator of ECMA-262. *)
Definition isSpace (c : N) : bool :=
  between 9 13 c || (c =? 32) || (c =? 160) || (c =? 5760)
  || between 8192 8202 c || (c =? 8232) || (c =? 8233) || (c =? 8239)
  || (c =? 8287) || (c =? 12288) || (c =? 65279).

(** Unicode lower-case mapping of one code unit.  The table is transcribed
    for Basic Latin and Latin-1 Supplement (U+0000..U+00FF) and for the two
    capitals that upper-casing a Latin-1 letter can produce (U+0178,
    U+039C); other code units are left as they are, which is where this
    model stops being the engine's [toLowerCase]. *)
Definition lowerUnit (c : N) : N :=
  if between 65 90 c then c + 32
  else if between 192 222 c && negb (c =? 215) then c + 32
  else if c =? 376 then 255
  else if c =? 924 then 956
  else c.

(** Unicode full upper-case mapping of one code unit, same range.  U+00DF
    (sharp s) has no single upper-case code unit: it becomes "SS". *)
Definition upperUnit (c : N) : jsstring :=
  if between 97 122 c then [c - 32]
  else if c =? 181 then [924]
  else if c =? 223 then [83; 83]
  else if between 224 254 c && negb (c =? 247) then [c - 32]
  else if c =? 255 then [376]
  else if c =? 956 then [924]
  else [c].

Definition toLowerCase (s : jsstring) : jsstring := lowerUnit <$> s.

(** [s.replace(/(?:^|\s)\S/g, c => c.toUpperCase())].  A match is one
    non-space code unit that stands at the start of the string or right
    after a space, together with that space; matches cannot overlap, since
    each ends in a non-space.  [atBoundary] says whether the unit about to
    be read is at the start or follows a space.  [c.toUpperCase()] on a
    match leaves the space as it is and maps the other unit by
    [upperUnit]. *)
Fixpoint capitalizeWords (atBoundary : bool) (s : jsstring) : jsstring :=
  match s with
  | [] => []
  | c :: rest =>
      if isSpace c then c :: capitalizeWords true rest
      else (if atBoundary then upperUnit c else [c]) ++ capitalizeWords false rest
  end.

(** [toTitleCase] of the client; the server's copy (server.js) is the same
    expression. *)
Definition toTitleCase (str : jsstring) : jsstring :=
  capitalizeWords true (toLowerCase str).

Fixpoint dropSpaces (s : jsstring) : jsstring :=
  match s with
  | [] => []
  | c :: rest => if isSpace c then dropSpaces rest else s
  end.

(** [s.trim()] *)
Definition trimStart (s : jsstring) : jsstring := dropSpaces s.
Definition trimEnd (s : jsstring) : jsstring := rev (dropSpaces (rev s)).
Definition trim (s : jsstring) : jsstring := trimEnd (trimStart s).

(** [a < b] on two strings (IsLessThan of ECMA-262): code-unit
    lexicographic order, a proper prefix being smaller. *)
Fixpoint strLt (a b : jsstring) : bool :=
  match a, b with
  | _, [] => false
  | [], _ :: _ => true
  | x :: a', y :: b' => if x =? y then strLt a' b' else x <? y
  end.

(** [a >= b] on two strings: the negation of [a < b]. *)
Definition strGe (a b : jsstring) : bool := negb (strLt a b).

(** Truthiness of a string: only the empty string is falsy. *)
Definition truthy (s : jsstring) : bool :=
  match s with [] => false | _ => true end.

(** The property names every object literal inherits from
    [Object.prototype].  All of them read as a truthy value (a function,
    or the prototype object itself for [__proto__]). *)
Definition objectPrototypeKeys : list jsstring :=
  [ js "constructor"; js "hasOwnProperty"; js "isPrototypeOf";
    js "propertyIsEnumerable"; js "toLocaleString"; js "toString";
    js "valueOf"; js "__proto__"; js "__defineGetter__";
    js "__defineSetter__"; js "__lookupGetter__"; js "__lookupSetter__" ].

Definition inheritedKey (k : jsstring) : bool :=
  bool_decide (k ∈ objectPrototypeKeys).

(** The outcome of reading [obj[k]] on an object literal used as a
    dictionary with values of type [V]. *)
Inductive Lookup (V : Type) : Type :=
| Own (v : V)      (* an own property *)
| Inherited        (* no own property; a member of Object.prototype *)
| Absent.          (* undefined *)
Arguments Own {V} v.
Arguments Inherited {V}.
Arguments Absent {V}.

(** [obj[k]] for a dictionary given by its own entries in creation order. *)
Fixpoint assocGet {V : Type} (entries : list (jsstring * V)) (k : jsstring) : option V :=
  match entries with
  | [] => None
  | (k', v) :: rest => if decide (k' = k) then Some v else assocGet rest k
  end.

Definition jsGet {V : Type} (entries : list (jsstring * V)) (k : jsstring) : Lookup V :=
  match assocGet entries k with
  | Some v => Own v
  | None => if inheritedKey k then Inherited else Absent
  end.

(** A call that either returns a value or throws (for an async function:
    a promise that fulfils or rejects). *)
Inductive Outcome (A : Type) : Type :=
| Returned (a : A)
| Thrown.
Arguments Returned {A} a.
Arguments Thrown {A}.

(** [Array.prototype.sort(cmp)]: ECMA-262 requires a stable sort, and for a
    consistent comparator the stable sorted permutation is unique; it is
    computed here by insertion, an element going in front of the first
    later element it does not compare greater than. *)
Section ArraySort.
Context {A : Type} (cmp : A → A → Z).

Fixpoint insertSorted (x : A) (l : list A) : list A :=
  match l with
  | [] => [x]
  | y :: rest => if (cmp x y <=? 0)%Z then x :: l else y :: insertSorted x rest
  end.

Definition arraySort (l : list A) : list A := foldr insertSorted [] l.
End ArraySort.

(** ** Data model (client) *)

(** A side-effect record as stored on a medication: the legacy bare
    string, or the object [{name, description}].  A field that is absent
    is the empty string here: both are falsy, and the program only ever
    reads these fields through [se.name ? ... : ...] and
    [se.description || ""]. *)
Inductive SideEffect : Type :=
| Legacy (s : jsstring)
| Structured (name description : jsstring).

Record Medication : Type := {
  medId : jsstring;
  medName : jsstring;
  dosage : jsstring;
  startDate : jsstring;
  endDate : jsstring;            (* "" when still being taken *)
  sideEffects : list SideEffect  (* [m.sideEffects || []] *)
}.

(** One value of the aggregation map: [{ meds, count, description }]. *)
Record Entry : Type := {
  meds : list jsstring;
  count : N;
  description : jsstring
}.

(** ** Aggregation engine: [activeMeds] and [allSideEffects] *)

(** [!m.endDate || m.endDate >= selectedDate] *)
Definition isActive (selectedDate : jsstring) (m : Medication) : bool :=
  negb (truthy (endDate m)) || strGe (endDate m) selectedDate.

Definition activeMeds (medications : list Medication) (selectedDate : jsstring)
  : list Medication :=
  List.filter (isActive selectedDate) medications.

(** [typeof se === "string" ? se : (se && se.name ? se.name : String(se))] *)
Definition effectName (se : SideEffect) : jsstring :=
  match se with
  | Legacy s => s
  | Structured name _ => if truthy name then name else js "[object Object]"
  end.

(** [typeof se === "object" && se !== null ? (se.description || "") : ""] *)
Definition effectDescription (se : SideEffect) : jsstring :=
  match se with
  | Legacy _ => []
  | Structured _ description => description
  end.

(** [!name || name === "undefined"] *)
Definition skipped (name : jsstring) : bool :=
  negb (truthy name) || bool_decide (name = js "undefined").

(** The three statements that follow the creation of [map[name]]:
    push the medication's name, count one more, keep the longer
    description. *)
Definition contribute (med desc : jsstring) (e : Entry) : Entry :=
  {| meds := meds e ++ [med];
     count := count e + 1;
     description :=
       if truthy desc && (length (description e) <? length desc)%nat
       then desc else description e |}.

Fixpoint assocUpdate {V : Type} (k : jsstring) (f : V → V)
    (entries : list (jsstring * V)) : list (jsstring * V) :=
  match entries with
  | [] => []
  | (k', v) :: rest =>
      if decide (k' = k) then (k', f v) :: rest
      else (k', v) :: assocUpdate k f rest
  end.

(** The body of the inner [forEach].  [map[name]] is read with bracket
    notation on an object literal: for a name that is not an own key but a
    member of [Object.prototype] the test [!map[name]] is false, no entry
    is created, and [map[name].meds.push] throws a TypeError. *)
Definition addEffect (med : jsstring) (map : list (jsstring * Entry))
    (se : SideEffect) : option (list (jsstring * Entry)) :=
  let name := effectName se in
  let desc := effectDescription se in
  if skipped name then Some map
  else match jsGet map name with
       | Own _ => Some (assocUpdate name (contribute med desc) map)
       | Absent =>
           Some (map ++ [(name, contribute med desc
                                  {| meds := []; count := 0; description := desc |})])
       | Inherited => None
       end.

(** [forEach] with a body that may throw. *)
Fixpoint forEach {A S : Type} (body : S → A → option S) (l : list A) (s : S)
  : option S :=
  match l with
  | [] => Some s
  | x :: rest =>
      match body s x with
      | Some s' => forEach body rest s'
      | None => None
      end
  end.

Definition addMedication (map : list (jsstring * Entry)) (m : Medication)
  : option (list (jsstring * Entry)) :=
  forEach (addEffect (medName m)) (sideEffects m) map.

Definition aggregate (active : list Medication) : option (list (jsstring * Entry)) :=
  forEach addMedication active [].

(** Array indices among property keys: canonical decimal strings below
    2^32 - 1.  [Object.entries] lists them first, in numeric order. *)
Fixpoint digitsValue (acc : N) (s : jsstring) : option N :=
  match s with
  | [] => Some acc
  | c :: rest =>
      if between 48 57 c then digitsValue (10 * acc + (c - 48)) rest else None
  end.

Definition arrayIndex (k : jsstring) : option N :=
  match k with
  | [] => None
  | c :: rest =>
      if (c =? 48) && negb (bool_decide (rest = [])) then None
      else match digitsValue 0 k with
           | Some n => if n <? 4294967295 then Some n else None
           | None => None
           end
  end.

Definition byIndex {V : Type} (a b : jsstring * V) : Z :=
  (Z.of_N (default 0%N (arrayIndex (fst a)))
   - Z.of_N (default 0%N (arrayIndex (fst b))))%Z.

(** [Object.entries(map)]: integer-like keys in ascending numeric order,
    then the other keys in the order they were created. *)
Definition objectEntries {V : Type} (entries : list (jsstring * V))
  : list (jsstring * V) :=
  arraySort byIndex (List.filter (λ e, bool_decide (is_Some (arrayIndex (fst e)))) entries)
  ++ List.filter (λ e, negb (bool_decide (is_Some (arrayIndex (fst e))))) entries.

Section Aggregation.
(** [String.prototype.localeCompare] with the host's default locale. *)
Variable localeCompare : jsstring → jsstring → Z.

(** The comparator of the final sort. *)
Definition byCountThenName (a b : jsstring * Entry) : Z :=
  if negb (count (snd b) =? count (snd a))
  then (Z.of_N (count (snd b)) - Z.of_N (count (snd a)))%Z
  else localeCompare (fst a) (fst b).

(** [allSideEffects] for the medications of the state and the selected
    date; [None] when building the map throws. *)
Definition allSideEffects (medications : list Medication) (selectedDate : jsstring)
  : option (list (jsstring * Entry)) :=
  match aggregate (activeMeds medications selectedDate) with
  | Some map => Some (arraySort byCountThenName (objectEntries map))
  | None => None
  end.
End Aggregation.

(** ** Lookup table (client): [EXCLUDED_TERMS], [DESCRIPTIONS], [FALLBACK_SIDE_EFFECTS] *)

(** Terms of the reporting service that are not side effects (a [Set];
    the server declares the same one). *)
Definition EXCLUDED_TERMS : list jsstring :=
  [
    js "drug ineffective"; js "off label use";
    js "product substitution issue"; js "therapeutic response unexpected";
    js "drug interaction"; js "drug exposure during pregnancy";
    js "intentional product misuse"; js "product use issue";
    js "no adverse event"; js "condition aggravated"; js "death";
    js "completed suicide"; js "self injury"; js "drug dependence";
    js "drug abuse"; js "intentional overdose"; js "accidental overdose";
    js "product quality issue"; js "product complaint";
    js "therapeutic response decreased";
    js "therapeutic response increased"; js "medication error";
    js "wrong drug administered"; js "drug dose omission";
    js "inappropriate schedule of drug administration"
  ].

(** Patient-friendly descriptions, keyed by lower-case term. *)
Definition DESCRIPTIONS : list (jsstring * jsstring) :=
  [
    (js "nausea",
     js "A queasy feeling in the stomach that may cause an urge to vomit.");
    (js "headache",
     js "Pain or pressure in the head, ranging from mild to severe.");
    (js "dizziness",
     js "A sensation of lightheadedness or feeling unsteady on your feet.");
    (js "fatigue",
     js "Persistent tiredness or exhaustion that doesn't improve with rest.");
    (js "diarrhoea",
     js "Frequent loose or watery bowel movements.");
    (js "diarrhea",
     js "Frequent loose or watery bowel movements.");
    (js "vomiting",
     js "Forceful emptying of the stomach contents through the mouth.");
    (js "insomnia",
     js "Difficulty falling asleep, staying asleep, or waking too early.");
    (js "somnolence",
     js "Excessive drowsiness or sleepiness during the day.");
    (js "dry mouth",
     js "Reduced saliva production causing a parched feeling in the mouth.");
    (js "constipation",
     js "Infrequent or difficult bowel movements.");
    (js "abdominal pain",
     js "Discomfort or cramping felt between the chest and pelvis.");
    (js "rash",
     js "A noticeable change in the color or texture of the skin.");
    (js "anxiety",
     js "Feelings of worry, nervousness, or unease.");
    (js "weight increased",
     js "Noticeable gain in body weight since starting medication.");
    (js "weight decreased",
     js "Noticeable loss in body weight since starting medication.");
    (js "tremor",
     js "Involuntary shaking or trembling, often in the hands.");
    (js "decreased appetite",
     js "Reduced desire to eat or feeling full very quickly.");
    (js "increased appetite",
     js "Stronger or more frequent urges to eat.");
    (js "blood pressure increased",
     js "Higher than normal force of blood against artery walls.");
    (js "palpitations",
     js "Awareness of your heartbeat, which may feel fast or fluttering.");
    (js "blurred vision",
     js "Difficulty seeing clearly, as though looking through fog.");
    (js "muscle pain",
     js "Aching or soreness in the muscles.");
    (js "arthralgia",
     js "Pain in one or more joints without visible swelling.");
    (js "myalgia",
     js "Muscle aches or soreness, often felt as a dull pain.");
    (js "dyspepsia",
     (js "Indigestion " ++ [8212] ++ js " discomfort or burning in the upper stomach area."));
    (js "back pain",
     js "Aching or stiffness felt in the lower, middle, or upper back.");
    (js "upper respiratory tract infection",
     js "Common cold-like symptoms: sore throat, runny nose, cough.");
    (js "cough",
     js "Repeated reflex to clear the airways, may be dry or productive.");
    (js "pruritus",
     js "Persistent itching of the skin that causes an urge to scratch.");
    (js "hyperhidrosis",
     js "Excessive sweating beyond what is needed to cool the body.");
    (js "oedema",
     js "Swelling caused by fluid buildup, often in feet, ankles, or hands.");
    (js "edema",
     js "Swelling caused by fluid buildup, often in feet, ankles, or hands.");
    (js "peripheral edema",
     js "Swelling in the lower legs, ankles, or feet due to fluid retention.");
    (js "depression",
     js "Persistent feelings of sadness, hopelessness, or loss of interest.");
    (js "sexual dysfunction",
     js "Changes in sexual desire, arousal, or ability to reach climax.");
    (js "erectile dysfunction",
     js "Difficulty achieving or maintaining an erection.");
    (js "libido decreased",
     js "Reduced interest in or desire for sexual activity.");
    (js "flatulence",
     js "Excess gas in the digestive tract causing bloating or passing gas.");
    (js "nasal congestion",
     js "Stuffy or blocked nose making it difficult to breathe through the nostrils.");
    (js "rhinitis",
     js "Inflammation of the nasal passages causing congestion or runny nose.");
    (js "urinary tract infection",
     js "Infection in the bladder or urethra causing painful or frequent urination.");
    (js "alopecia",
     js "Thinning or loss of hair from the scalp or body.");
    (js "feeling abnormal",
     js "A general sense that something feels off or different in your body.");
    (js "malaise",
     js "A general feeling of discomfort, unease, or being unwell.");
    (js "asthenia",
     js "Overall weakness or lack of energy making daily activities harder.");
    (js "pain in extremity",
     js "Aching or discomfort in the arms, legs, hands, or feet.");
    (js "paraesthesia",
     js "Tingling, numbness, or a 'pins and needles' sensation in the skin.");
    (js "hypoaesthesia",
     js "Reduced sensitivity to touch or sensation in part of the body.");
    (js "tachycardia",
     js "Resting heart rate faster than normal, above ~100 beats per minute.");
    (js "hot flush",
     js "Sudden feeling of warmth spreading through the body, often with redness.");
    (js "dyspnoea",
     js "Shortness of breath or difficulty breathing.");
    (js "chest pain",
     js "Discomfort, pressure, or sharp pain felt in the chest area.");
    (js "irritability",
     js "Feeling easily annoyed, frustrated, or agitated.");
    (js "mood swings",
     js "Rapid or unpredictable changes in emotional state.");
    (js "drug hypersensitivity",
     js "An allergic-type reaction to a medication.");
    (js "urticaria",
     js "Raised, itchy welts on the skin, commonly called hives.");
    (js "fall",
     js "Loss of balance leading to an unintended drop to the ground.");
    (js "amnesia",
     js "Partial or total memory loss, often short-term.");
    (js "confusional state",
     js "Difficulty thinking clearly, feeling disoriented or muddled.")
  ].

(** Built-in side-effect terms of common medications, keyed by
    lower-case medication name. *)
Definition FALLBACK_SIDE_EFFECTS : list (jsstring * list jsstring) :=
  [
    (js "sertraline",
     [
       js "nausea"; js "diarrhea"; js "insomnia"; js "dry mouth";
       js "fatigue"; js "dizziness"; js "headache";
       js "decreased appetite"; js "hyperhidrosis"; js "tremor";
       js "sexual dysfunction"; js "somnolence"
     ]);
    (js "zoloft",
     [
       js "nausea"; js "diarrhea"; js "insomnia"; js "dry mouth";
       js "fatigue"; js "dizziness"; js "headache";
       js "decreased appetite"; js "hyperhidrosis"; js "tremor";
       js "sexual dysfunction"; js "somnolence"
     ]);
    (js "fluoxetine",
     [
       js "nausea"; js "headache"; js "insomnia"; js "anxiety";
       js "somnolence"; js "diarrhea"; js "decreased appetite";
       js "dry mouth"; js "tremor"; js "dizziness"; js "asthenia";
       js "hyperhidrosis"
     ]);
    (js "prozac",
     [
       js "nausea"; js "headache"; js "insomnia"; js "anxiety";
       js "somnolence"; js "diarrhea"; js "decreased appetite";
       js "dry mouth"; js "tremor"; js "dizziness"; js "asthenia";
       js "hyperhidrosis"
     ]);
    (js "escitalopram",
     [
       js "nausea"; js "headache"; js "insomnia"; js "somnolence";
       js "diarrhea"; js "dry mouth"; js "dizziness"; js "fatigue";
       js "constipation"; js "hyperhidrosis"; js "libido decreased";
       js "sexual dysfunction"
     ]);
    (js "lexapro",
     [
       js "nausea"; js "headache"; js "insomnia"; js "somnolence";
       js "diarrhea"; js "dry mouth"; js "dizziness"; js "fatigue";
       js "constipation"; js "hyperhidrosis"; js "libido decreased";
       js "sexual dysfunction"
     ]);
    (js "citalopram",
     [
       js "nausea"; js "dry mouth"; js "somnolence"; js "insomnia";
       js "diarrhea"; js "headache"; js "dizziness"; js "tremor";
       js "hyperhidrosis"; js "fatigue"; js "decreased appetite";
       js "constipation"
     ]);
    (js "celexa",
     [
       js "nausea"; js "dry mouth"; js "somnolence"; js "insomnia";
       js "diarrhea"; js "headache"; js "dizziness"; js "tremor";
       js "hyperhidrosis"; js "fatigue"; js "decreased appetite";
       js "constipation"
     ]);
    (js "paroxetine",
     [
       js "nausea"; js "somnolence"; js "dry mouth"; js "headache";
       js "constipation"; js "dizziness"; js "insomnia"; js "diarrhea";
       js "asthenia"; js "tremor"; js "hyperhidrosis";
       js "sexual dysfunction"
     ]);
    (js "paxil",
     [
       js "nausea"; js "somnolence"; js "dry mouth"; js "headache";
       js "constipation"; js "dizziness"; js "insomnia"; js "diarrhea";
       js "asthenia"; js "tremor"; js "hyperhidrosis";
       js "sexual dysfunction"
     ]);
    (js "venlafaxine",
     [
       js "nausea"; js "headache"; js "dizziness"; js "somnolence";
       js "dry mouth"; js "insomnia"; js "constipation";
       js "hyperhidrosis"; js "asthenia"; js "anxiety";
       js "blurred vision"; js "tremor"
     ]);
    (js "effexor",
     [
       js "nausea"; js "headache"; js "dizziness"; js "somnolence";
       js "dry mouth"; js "insomnia"; js "constipation";
       js "hyperhidrosis"; js "asthenia"; js "anxiety";
       js "blurred vision"; js "tremor"
     ]);
    (js "duloxetine",
     [
       js "nausea"; js "headache"; js "dry mouth"; js "fatigue";
       js "somnolence"; js "constipation"; js "dizziness"; js "insomnia";
       js "diarrhea"; js "decreased appetite"; js "hyperhidrosis";
       js "abdominal pain"
     ]);
    (js "cymbalta",
     [
       js "nausea"; js "headache"; js "dry mouth"; js "fatigue";
       js "somnolence"; js "constipation"; js "dizziness"; js "insomnia";
       js "diarrhea"; js "decreased appetite"; js "hyperhidrosis";
       js "abdominal pain"
     ]);
    (js "bupropion",
     [
       js "headache"; js "dry mouth"; js "nausea"; js "insomnia";
       js "dizziness"; js "constipation"; js "tremor"; js "anxiety";
       js "tachycardia"; js "hyperhidrosis"; js "rash"; js "abdominal pain"
     ]);
    (js "wellbutrin",
     [
       js "headache"; js "dry mouth"; js "nausea"; js "insomnia";
       js "dizziness"; js "constipation"; js "tremor"; js "anxiety";
       js "tachycardia"; js "hyperhidrosis"; js "rash"; js "abdominal pain"
     ]);
    (js "mirtazapine",
     [
       js "somnolence"; js "increased appetite"; js "weight increased";
       js "dry mouth"; js "dizziness"; js "constipation"; js "asthenia";
       js "fatigue"; js "peripheral edema"; js "headache";
       js "abnormal dreams"; js "confusional state"
     ]);
    (js "remeron",
     [
       js "somnolence"; js "increased appetite"; js "weight increased";
       js "dry mouth"; js "dizziness"; js "constipation"; js "asthenia";
       js "fatigue"; js "peripheral edema"; js "headache";
       js "abnormal dreams"; js "confusional state"
     ]);
    (js "trazodone",
     [
       js "somnolence"; js "headache"; js "dry mouth"; js "dizziness";
       js "nausea"; js "fatigue"; js "constipation"; js "blurred vision";
       js "nasal congestion"; js "hyperhidrosis"; js "confusion";
       js "palpitations"
     ]);
    (js "amitriptyline",
     [
       js "somnolence"; js "dry mouth"; js "constipation"; js "dizziness";
       js "weight increased"; js "blurred vision"; js "headache";
       js "nausea"; js "fatigue"; js "urinary retention"; js "tachycardia";
       js "tremor"
     ]);
    (js "alprazolam",
     [
       js "somnolence"; js "dizziness"; js "fatigue"; js "headache";
       js "dry mouth"; js "constipation"; js "nausea"; js "irritability";
       js "decreased appetite"; js "confusional state"; js "insomnia";
       js "blurred vision"
     ]);
    (js "xanax",
     [
       js "somnolence"; js "dizziness"; js "fatigue"; js "headache";
       js "dry mouth"; js "constipation"; js "nausea"; js "irritability";
       js "decreased appetite"; js "confusional state"; js "insomnia";
       js "blurred vision"
     ]);
    (js "lorazepam",
     [
       js "somnolence"; js "dizziness"; js "fatigue"; js "headache";
       js "confusional state"; js "nausea"; js "amnesia"; js "depression";
       js "constipation"; js "blurred vision"; js "asthenia";
       js "irritability"
     ]);
    (js "ativan",
     [
       js "somnolence"; js "dizziness"; js "fatigue"; js "headache";
       js "confusional state"; js "nausea"; js "amnesia"; js "depression";
       js "constipation"; js "blurred vision"; js "asthenia";
       js "irritability"
     ]);
    (js "clonazepam",
     [
       js "somnolence"; js "dizziness"; js "fatigue"; js "depression";
       js "headache"; js "confusional state"; js "nausea"; js "amnesia";
       js "constipation"; js "decreased appetite"; js "irritability";
       js "insomnia"
     ]);
    (js "klonopin",
     [
       js "somnolence"; js "dizziness"; js "fatigue"; js "depression";
       js "headache"; js "confusional state"; js "nausea"; js "amnesia";
       js "constipation"; js "decreased appetite"; js "irritability";
       js "insomnia"
     ]);
    (js "diazepam",
     [
       js "somnolence"; js "fatigue"; js "dizziness"; js "headache";
       js "confusional state"; js "amnesia"; js "nausea";
       js "constipation"; js "depression"; js "blurred vision";
       js "asthenia"; js "tremor"
     ]);
    (js "valium",
     [
       js "somnolence"; js "fatigue"; js "dizziness"; js "headache";
       js "confusional state"; js "amnesia"; js "nausea";
       js "constipation"; js "depression"; js "blurred vision";
       js "asthenia"; js "tremor"
     ]);
    (js "quetiapine",
     [
       js "somnolence"; js "dizziness"; js "headache"; js "dry mouth";
       js "weight increased"; js "constipation"; js "fatigue";
       js "dyspepsia"; js "tachycardia"; js "peripheral edema";
       js "blurred vision"; js "increased appetite"
     ]);
    (js "seroquel",
     [
       js "somnolence"; js "dizziness"; js "headache"; js "dry mouth";
       js "weight increased"; js "constipation"; js "fatigue";
       js "dyspepsia"; js "tachycardia"; js "peripheral edema";
       js "blurred vision"; js "increased appetite"
     ]);
    (js "aripiprazole",
     [
       js "headache"; js "nausea"; js "insomnia"; js "anxiety";
       js "somnolence"; js "constipation"; js "dizziness"; js "vomiting";
       js "fatigue"; js "blurred vision"; js "weight increased";
       js "tremor"
     ]);
    (js "abilify",
     [
       js "headache"; js "nausea"; js "insomnia"; js "anxiety";
       js "somnolence"; js "constipation"; js "dizziness"; js "vomiting";
       js "fatigue"; js "blurred vision"; js "weight increased";
       js "tremor"
     ]);
    (js "lamotrigine",
     [
       js "headache"; js "nausea"; js "rash"; js "dizziness";
       js "insomnia"; js "somnolence"; js "fatigue"; js "blurred vision";
       js "vomiting"; js "tremor"; js "back pain"; js "rhinitis"
     ]);
    (js "lamictal",
     [
       js "headache"; js "nausea"; js "rash"; js "dizziness";
       js "insomnia"; js "somnolence"; js "fatigue"; js "blurred vision";
       js "vomiting"; js "tremor"; js "back pain"; js "rhinitis"
     ]);
    (js "lithium",
     [
       js "nausea"; js "tremor"; js "diarrhea"; js "vomiting";
       js "dizziness"; js "fatigue"; js "headache"; js "weight increased";
       js "dry mouth"; js "tachycardia"; js "polyuria"; js "thirst"
     ]);
    (js "gabapentin",
     [
       js "somnolence"; js "dizziness"; js "fatigue"; js "headache";
       js "nausea"; js "peripheral edema"; js "weight increased";
       js "blurred vision"; js "dry mouth"; js "constipation"; js "tremor";
       js "ataxia"
     ]);
    (js "neurontin",
     [
       js "somnolence"; js "dizziness"; js "fatigue"; js "headache";
       js "nausea"; js "peripheral edema"; js "weight increased";
       js "blurred vision"; js "dry mouth"; js "constipation"; js "tremor";
       js "ataxia"
     ]);
    (js "pregabalin",
     [
       js "dizziness"; js "somnolence"; js "headache";
       js "peripheral edema"; js "dry mouth"; js "weight increased";
       js "blurred vision"; js "fatigue"; js "constipation"; js "nausea";
       js "tremor"; js "back pain"
     ]);
    (js "lyrica",
     [
       js "dizziness"; js "somnolence"; js "headache";
       js "peripheral edema"; js "dry mouth"; js "weight increased";
       js "blurred vision"; js "fatigue"; js "constipation"; js "nausea";
       js "tremor"; js "back pain"
     ]);
    (js "metformin",
     [
       js "diarrhea"; js "nausea"; js "vomiting"; js "abdominal pain";
       js "flatulence"; js "decreased appetite"; js "headache";
       js "dyspepsia"; js "asthenia"; js "fatigue"; js "dizziness";
       js "constipation"
     ]);
    (js "lisinopril",
     [
       js "headache"; js "dizziness"; js "cough"; js "fatigue";
       js "nausea"; js "diarrhea"; js "hypotension"; js "rash";
       js "chest pain"; js "dyspnoea"; js "back pain"; js "asthenia"
     ]);
    (js "amlodipine",
     [
       js "peripheral edema"; js "headache"; js "dizziness"; js "fatigue";
       js "nausea"; js "flushing"; js "palpitations"; js "somnolence";
       js "abdominal pain"; js "dyspnoea"; js "chest pain"; js "back pain"
     ]);
    (js "atorvastatin",
     [
       js "headache"; js "myalgia"; js "arthralgia"; js "diarrhea";
       js "nausea"; js "back pain"; js "pain in extremity"; js "insomnia";
       js "urinary tract infection"; js "dyspepsia"; js "nasopharyngitis";
       js "fatigue"
     ]);
    (js "lipitor",
     [
       js "headache"; js "myalgia"; js "arthralgia"; js "diarrhea";
       js "nausea"; js "back pain"; js "pain in extremity"; js "insomnia";
       js "urinary tract infection"; js "dyspepsia"; js "nasopharyngitis";
       js "fatigue"
     ]);
    (js "omeprazole",
     [
       js "headache"; js "diarrhea"; js "nausea"; js "abdominal pain";
       js "flatulence"; js "constipation"; js "vomiting"; js "dizziness";
       js "rash"; js "cough"; js "back pain"; js "fatigue"
     ]);
    (js "prilosec",
     [
       js "headache"; js "diarrhea"; js "nausea"; js "abdominal pain";
       js "flatulence"; js "constipation"; js "vomiting"; js "dizziness";
       js "rash"; js "cough"; js "back pain"; js "fatigue"
     ]);
    (js "pantoprazole",
     [
       js "headache"; js "diarrhea"; js "nausea"; js "abdominal pain";
       js "flatulence"; js "constipation"; js "vomiting"; js "dizziness";
       js "arthralgia"; js "insomnia"; js "rash"; js "fatigue"
     ]);
    (js "levothyroxine",
     [
       js "headache"; js "fatigue"; js "palpitations"; js "insomnia";
       js "tremor"; js "anxiety"; js "diarrhea"; js "weight decreased";
       js "hyperhidrosis"; js "hot flush"; js "alopecia"; js "nausea"
     ]);
    (js "synthroid",
     [
       js "headache"; js "fatigue"; js "palpitations"; js "insomnia";
       js "tremor"; js "anxiety"; js "diarrhea"; js "weight decreased";
       js "hyperhidrosis"; js "hot flush"; js "alopecia"; js "nausea"
     ]);
    (js "metoprolol",
     [
       js "fatigue"; js "dizziness"; js "headache"; js "diarrhea";
       js "nausea"; js "bradycardia"; js "dyspnoea"; js "depression";
       js "insomnia"; js "peripheral edema"; js "chest pain";
       js "back pain"
     ]);
    (js "losartan",
     [
       js "dizziness"; js "headache"; js "fatigue"; js "back pain";
       js "diarrhea"; js "cough"; js "nausea"; js "chest pain";
       js "dyspnoea"; js "peripheral edema"; js "insomnia"; js "arthralgia"
     ]);
    (js "hydrochlorothiazide",
     [
       js "dizziness"; js "headache"; js "fatigue"; js "nausea";
       js "muscle cramps"; js "hypokalaemia"; js "hyperuricaemia";
       js "dyspepsia"; js "diarrhea"; js "back pain"; js "blurred vision";
       js "rash"
     ]);
    (js "montelukast",
     [
       js "headache"; js "upper respiratory tract infection"; js "cough";
       js "abdominal pain"; js "diarrhea"; js "nausea"; js "fatigue";
       js "rash"; js "insomnia"; js "dizziness"; js "fever";
       js "irritability"
     ]);
    (js "singulair",
     [
       js "headache"; js "upper respiratory tract infection"; js "cough";
       js "abdominal pain"; js "diarrhea"; js "nausea"; js "fatigue";
       js "rash"; js "insomnia"; js "dizziness"; js "fever";
       js "irritability"
     ]);
    (js "ibuprofen",
     [
       js "nausea"; js "headache"; js "dizziness"; js "dyspepsia";
       js "abdominal pain"; js "diarrhea"; js "constipation";
       js "vomiting"; js "rash"; js "flatulence"; js "edema"; js "fatigue"
     ]);
    (js "advil",
     [
       js "nausea"; js "headache"; js "dizziness"; js "dyspepsia";
       js "abdominal pain"; js "diarrhea"; js "constipation";
       js "vomiting"; js "rash"; js "flatulence"; js "edema"; js "fatigue"
     ]);
    (js "acetaminophen",
     [
       js "nausea"; js "headache"; js "rash"; js "vomiting";
       js "abdominal pain"; js "diarrhea"; js "fatigue"; js "dizziness";
       js "pruritus"; js "constipation"; js "insomnia"; js "dyspepsia"
     ]);
    (js "tylenol",
     [
       js "nausea"; js "headache"; js "rash"; js "vomiting";
       js "abdominal pain"; js "diarrhea"; js "fatigue"; js "dizziness";
       js "pruritus"; js "constipation"; js "insomnia"; js "dyspepsia"
     ]);
    (js "aspirin",
     [
       js "nausea"; js "dyspepsia"; js "abdominal pain"; js "diarrhea";
       js "headache"; js "dizziness"; js "vomiting"; js "rash";
       js "fatigue"; js "pruritus"; js "tinnitus"; js "constipation"
     ]);
    (js "adderall",
     [
       js "decreased appetite"; js "insomnia"; js "headache";
       js "dry mouth"; js "nausea"; js "anxiety"; js "dizziness";
       js "tachycardia"; js "irritability"; js "abdominal pain";
       js "weight decreased"; js "palpitations"
     ]);
    (js "methylphenidate",
     [
       js "decreased appetite"; js "insomnia"; js "headache"; js "nausea";
       js "abdominal pain"; js "anxiety"; js "dizziness";
       js "irritability"; js "tachycardia"; js "weight decreased";
       js "dry mouth"; js "vomiting"
     ]);
    (js "ritalin",
     [
       js "decreased appetite"; js "insomnia"; js "headache"; js "nausea";
       js "abdominal pain"; js "anxiety"; js "dizziness";
       js "irritability"; js "tachycardia"; js "weight decreased";
       js "dry mouth"; js "vomiting"
     ]);
    (js "concerta",
     [
       js "decreased appetite"; js "insomnia"; js "headache"; js "nausea";
       js "abdominal pain"; js "anxiety"; js "dizziness";
       js "irritability"; js "tachycardia"; js "weight decreased";
       js "dry mouth"; js "vomiting"
     ]);
    (js "lisdexamfetamine",
     [
       js "decreased appetite"; js "insomnia"; js "dry mouth";
       js "headache"; js "nausea"; js "irritability"; js "anxiety";
       js "dizziness"; js "weight decreased"; js "diarrhea";
       js "tachycardia"; js "vomiting"
     ]);
    (js "vyvanse",
     [
       js "decreased appetite"; js "insomnia"; js "dry mouth";
       js "headache"; js "nausea"; js "irritability"; js "anxiety";
       js "dizziness"; js "weight decreased"; js "diarrhea";
       js "tachycardia"; js "vomiting"
     ]);
    (js "atomoxetine",
     [
       js "nausea"; js "decreased appetite"; js "headache"; js "dry mouth";
       js "insomnia"; js "dizziness"; js "constipation"; js "fatigue";
       js "vomiting"; js "abdominal pain"; js "somnolence";
       js "irritability"
     ]);
    (js "strattera",
     [
       js "nausea"; js "decreased appetite"; js "headache"; js "dry mouth";
       js "insomnia"; js "dizziness"; js "constipation"; js "fatigue";
       js "vomiting"; js "abdominal pain"; js "somnolence";
       js "irritability"
     ]);
    (js "prednisone",
     [
       js "weight increased"; js "insomnia"; js "mood swings";
       js "increased appetite"; js "headache"; js "nausea"; js "edema";
       js "fatigue"; js "dizziness"; js "dyspepsia"; js "muscle pain";
       js "hyperhidrosis"
     ]);
    (js "amoxicillin",
     [
       js "diarrhea"; js "nausea"; js "rash"; js "vomiting"; js "headache";
       js "abdominal pain"; js "pruritus"; js "urticaria"; js "fatigue";
       js "dizziness"; js "dyspepsia"; js "flatulence"
     ]);
    (js "azithromycin",
     [
       js "diarrhea"; js "nausea"; js "abdominal pain"; js "vomiting";
       js "headache"; js "rash"; js "fatigue"; js "dizziness";
       js "pruritus"; js "flatulence"; js "dyspepsia"; js "constipation"
     ]);
    (js "zithromax",
     [
       js "diarrhea"; js "nausea"; js "abdominal pain"; js "vomiting";
       js "headache"; js "rash"; js "fatigue"; js "dizziness";
       js "pruritus"; js "flatulence"; js "dyspepsia"; js "constipation"
     ]);
    (js "ciprofloxacin",
     [
       js "nausea"; js "diarrhea"; js "headache"; js "rash"; js "vomiting";
       js "abdominal pain"; js "dizziness"; js "arthralgia"; js "insomnia";
       js "dyspepsia"; js "fatigue"; js "myalgia"
     ]);
    (js "warfarin",
     [
       js "haemorrhage"; js "nausea"; js "rash"; js "fatigue";
       js "headache"; js "dizziness"; js "abdominal pain"; js "pruritus";
       js "alopecia"; js "vomiting"; js "diarrhea"; js "chest pain"
     ]);
    (js "coumadin",
     [
       js "haemorrhage"; js "nausea"; js "rash"; js "fatigue";
       js "headache"; js "dizziness"; js "abdominal pain"; js "pruritus";
       js "alopecia"; js "vomiting"; js "diarrhea"; js "chest pain"
     ])
  ].

(** ** Side-effect resolver (client) *)

(** The [description] of a resolved record.  It is a string, except when
    the description table was read at a key that names a member of
    [Object.prototype]: the record then carries that member. *)
Inductive Description : Type :=
| Text (s : jsstring)
| PrototypeMember.

(** A record [{name, description}] produced by the resolver. *)
Record SideEffectRecord : Type := {
  seName : jsstring;
  seDescription : Description
}.

(** [table[k] || ""] *)
Definition orEmpty (l : Lookup jsstring) : Description :=
  match l with
  | Own d => Text d
  | Inherited => PrototypeMember
  | Absent => Text []
  end.

(** [table[k1] || table[k2] || ""] *)
Definition firstOf (table : list (jsstring * jsstring)) (k1 k2 : jsstring)
  : Description :=
  match jsGet table k1 with
  | Own d => if truthy d then Text d else orEmpty (jsGet table k2)
  | Inherited => PrototypeMember
  | Absent => orEmpty (jsGet table k2)
  end.

(** [term.replace(/s$/, "")] *)
Definition dropFinalS (term : jsstring) : jsstring :=
  match rev term with
  | c :: front => if c =? 115 then rev front else term
  | [] => term
  end.

(** [buildFromFallback]: [null] when the table has no such key.  A key
    that names a member of [Object.prototype] reads as that member, which
    is truthy and has no [map] method: the call throws. *)
Definition buildFromFallback (medName : jsstring)
  : Outcome (option (list SideEffectRecord)) :=
  let key := trim (toLowerCase medName) in
  match jsGet FALLBACK_SIDE_EFFECTS key with
  | Absent => Returned None
  | Inherited => Thrown
  | Own terms =>
      Returned (Some ((λ term, {| seName := toTitleCase term;
                                  seDescription := orEmpty (jsGet DESCRIPTIONS term) |})
                      <$> terms))
  end.

(** The item function of [normalizeSideEffects]. *)
Definition normalizeItem (item : SideEffect) : SideEffectRecord :=
  match item with
  | Legacy s =>
      {| seName := toTitleCase s;
         seDescription := orEmpty (jsGet DESCRIPTIONS (toLowerCase s)) |}
  | Structured name description =>
      if truthy name then {| seName := name; seDescription := Text description |}
      else {| seName := js "[object Object]"; seDescription := Text [] |}
  end.

Definition normalizeSideEffects (arr : list SideEffect) : list SideEffectRecord :=
  List.filter
    (λ item, truthy (seName item)
             && negb (bool_decide (seName item = js "undefined"))
             && negb (bool_decide (seName item = js "null")))
    (normalizeItem <$> arr).

(** The alternatives of the suffix pattern
    [/\s*(hcl|hydrochloride|sulfate|sodium|er|xr|cr|sr)\s*/gi], in the
    order the pattern tries them. *)
Definition suffixTokens : list jsstring :=
  [ js "hcl"; js "hydrochloride"; js "sulfate"; js "sodium";
    js "er"; js "xr"; js "cr"; js "sr" ].

(** A code unit against a lower-case ASCII letter of the pattern under the
    [i] flag: the letter itself or its capital.  (Canonicalize of ECMA-262
    never maps a unit above U+007F onto an ASCII one.) *)
Definition matchesIgnoringCase (c letter : N) : bool :=
  (c =? letter) || (c =? letter - 32).

(** [Some n] when [token] matches at the head of [s]; [n] is its length. *)
Fixpoint tokenAtHead (token s : jsstring) : option nat :=
  match token, s with
  | [], _ => Some 0%nat
  | _ :: _, [] => None
  | letter :: token', c :: s' =>
      if matchesIgnoringCase c letter then S <$> tokenAtHead token' s' else None
  end.

Fixpoint firstTokenAtHead (tokens : list jsstring) (s : jsstring) : option nat :=
  match tokens with
  | [] => None
  | token :: others =>
      match tokenAtHead token s with
      | Some n => Some n
      | None => firstTokenAtHead others s
      end
  end.

Fixpoint leadingSpaces (s : jsstring) : nat :=
  match s with
  | c :: rest => if isSpace c then S (leadingSpaces rest) else 0%nat
  | [] => 0%nat
  end.

(** The length of the pattern's match starting at the head of [s], if
    there is one.  Both [\s*] are greedy; giving back a space of the first
    one cannot help, since no alternative starts with a space. *)
Definition suffixMatchAtHead (s : jsstring) : option nat :=
  let before := leadingSpaces s in
  match firstTokenAtHead suffixTokens (drop before s) with
  | Some n => Some (before + n + leadingSpaces (drop (before + n) s))%nat
  | None => None
  end.

(** [s.replace(pattern, "")] with the [g] flag: matches are looked for from
    left to right and removed; [skip] counts the units of the current match
    that are still to be dropped. *)
Fixpoint removeSuffixTokens (skip : nat) (s : jsstring) : jsstring :=
  match s with
  | [] => []
  | c :: rest =>
      match skip with
      | S k => removeSuffixTokens k rest
      | O =>
          match suffixMatchAtHead s with
          | Some n => removeSuffixTokens (Nat.pred n) rest
          | None => c :: removeSuffixTokens 0 rest
          end
      end
  end.

(** [medName.replace(/\s*(hcl|...|sr)\s*/gi, "").trim()] *)
Definition simplifiedName (medName : jsstring) : jsstring :=
  trim (removeSuffixTokens 0 medName).

(** [{ name: "No data found", description: `Could not find side effects
    for "${medName}". Try the generic drug name.` }] *)
Definition noDataFound (medName : jsstring) : SideEffectRecord :=
  {| seName := js "No data found";
     seDescription :=
       Text (js "Could not find side effects for " ++ [34] ++ medName ++ [34]
             ++ js ". Try the generic drug name.") |}.

(** The post-processing of a response of the reporting service, shared by
    [fetchSideEffectsFromFDA] and the server's [queryFDA], which differ in
    their description table only. *)
Definition fromReportedTerms (descriptions : list (jsstring * jsstring))
    (results : list jsstring) : list SideEffectRecord :=
  (λ term, {| seName := toTitleCase term;
              seDescription := firstOf descriptions term (dropFinalS term) |})
  <$> take 12 (List.filter (λ term, negb (bool_decide (term ∈ EXCLUDED_TERMS)))
                           (toLowerCase <$> results)).

Section Resolver.
(** Tier 1, the proxy: [data.sideEffects] of its answer to the medication
    name; [None] when the request fails, the status is not ok, or the
    body carries no such array. *)
Variable proxySideEffects : jsstring → option (list SideEffect).

(** The reporting service: the [term]s of [data.results] in its answer to
    the query for a name; [None] when the request fails, the status is not
    ok, or the body carries no [results]. *)
Variable reportedTerms : jsstring → option (list jsstring).

Definition fetchSideEffectsFromFDA (medName : jsstring)
  : Outcome (list SideEffectRecord) :=
  match reportedTerms medName with
  | None => Thrown
  | Some [] => Thrown
  | Some results => Returned (fromReportedTerms DESCRIPTIONS results)
  end.

(** The first [try] of [fetchSideEffects]: [Some] when it returns. *)
Definition proxyTier (medName : jsstring) : option (list SideEffectRecord) :=
  match proxySideEffects medName with
  | Some (item :: items) => Some (normalizeSideEffects (item :: items))
  | _ => None
  end.

Definition fetchSideEffects (medName : jsstring) : Outcome (list SideEffectRecord) :=
  match proxyTier medName with
  | Some effects => Returned effects
  | None =>
  match fetchSideEffectsFromFDA medName with
  | Returned effects => Returned effects
  | Thrown =>
  let simplified := simplifiedName medName in
  match (if decide (simplified = medName) then Thrown
         else fetchSideEffectsFromFDA simplified) with
  | Returned effects => Returned effects
  | Thrown =>
  (* buildFromFallback(medName) || buildFromFallback(simplified) *)
  match buildFromFallback medName with
  | Thrown => Thrown
  | Returned (Some fallback) => Returned fallback
  | Returned None =>
      match buildFromFallback simplified with
      | Thrown => Thrown
      | Returned (Some fallback) => Returned fallback
      | Returned None => Returned [noDataFound medName]
      end
  end end end end.
End Resolver.

(** ** Client state and its updates *)

(** The root document.  The three per-date fields are objects keyed by ISO
    date; they are only read and rebuilt by key, so they are finite maps
    here.  An assessment maps a metric key to its score, the severities of
    a date map an effect name to its severity. *)
Record PatientState : Type := {
  dailyAssessments : gmap jsstring (gmap jsstring Z);
  medications : list Medication;
  sideEffectSeverities : gmap jsstring (gmap jsstring Z);
  journal : gmap jsstring jsstring;
  notes : jsstring;
  theme : jsstring
}.

Definition DEFAULT_STATE : PatientState :=
  {| dailyAssessments := ∅; medications := []; sideEffectSeverities := ∅;
     journal := ∅; notes := []; theme := js "light" |}.

(** The object a mutation hands to [update]: the fields it sets. *)
Record Patch : Type := {
  setsDailyAssessments : option (gmap jsstring (gmap jsstring Z));
  setsMedications : option (list Medication);
  setsSideEffectSeverities : option (gmap jsstring (gmap jsstring Z));
  setsJournal : option (gmap jsstring jsstring);
  setsNotes : option jsstring;
  setsTheme : option jsstring
}.

(** [{ ...prev, ...patch }] *)
Definition spread (prev : PatientState) (patch : Patch) : PatientState :=
  {| dailyAssessments := default (dailyAssessments prev) (setsDailyAssessments patch);
     medications := default (medications prev) (setsMedications patch);
     sideEffectSeverities :=
       default (sideEffectSeverities prev) (setsSideEffectSeverities patch);
     journal := default (journal prev) (setsJournal patch);
     notes := default (notes prev) (setsNotes patch);
     theme := default (theme prev) (setsTheme patch) |}.

(** [update(fn)]: the function given to [setState]. *)
Definition update (fn : PatientState → Patch) (prev : PatientState) : PatientState :=
  spread prev (fn prev).

(** The mutations close over the [state] and the [selectedDate] of the
    render that created them. *)
Section Render.
Variable state : PatientState.
Variable selectedDate : jsstring.

(** The own enumerable properties of [todayAssessment], which is
    [state.dailyAssessments[selectedDate] || { general: 5, ... }].  If the
    date names a member of [Object.prototype], that member is read, and
    spreading it copies nothing. *)
Definition todayAssessment : gmap jsstring Z :=
  match dailyAssessments state !! selectedDate with
  | Some assessment => assessment
  | None =>
      if inheritedKey selectedDate then ∅
      else {[ js "general" := 5%Z; js "energy" := 5%Z;
              js "concentration" := 5%Z; js "sleep" := 5%Z ]}
  end.

Definition setAssessment (key : jsstring) (val : Z) : PatientState → PatientState :=
  update (λ p,
    {| setsDailyAssessments :=
         Some (<[selectedDate := <[key := val]> todayAssessment]> (dailyAssessments p));
       setsMedications := None; setsSideEffectSeverities := None;
       setsJournal := None; setsNotes := None; setsTheme := None |}).

(** [p.sideEffectSeverities[selectedDate] || {}] is only spread: an
    inherited member contributes no property, like the empty object. *)
Definition setSeverity (effect : jsstring) (val : Z) : PatientState → PatientState :=
  update (λ p,
    {| setsDailyAssessments := None; setsMedications := None;
       setsSideEffectSeverities :=
         Some (<[selectedDate :=
                   <[effect := val]> (default ∅ (sideEffectSeverities p !! selectedDate))]>
                 (sideEffectSeverities p));
       setsJournal := None; setsNotes := None; setsTheme := None |}).

Definition setJournal (val : jsstring) : PatientState → PatientState :=
  update (λ p,
    {| setsDailyAssessments := None; setsMedications := None;
       setsSideEffectSeverities := None;
       setsJournal := Some (<[selectedDate := val]> (journal p));
       setsNotes := None; setsTheme := None |}).

Definition setNotes (val : jsstring) : PatientState → PatientState :=
  update (λ _,
    {| setsDailyAssessments := None; setsMedications := None;
       setsSideEffectSeverities := None; setsJournal := None;
       setsNotes := Some val; setsTheme := None |}).

Definition setMedications (meds : list Medication) : PatientState → PatientState :=
  update (λ _,
    {| setsDailyAssessments := None; setsMedications := Some meds;
       setsSideEffectSeverities := None; setsJournal := None;
       setsNotes := None; setsTheme := None |}).

(** [dark] is [state.theme === "dark"]. *)
Definition toggleTheme : PatientState → PatientState :=
  update (λ _,
    {| setsDailyAssessments := None; setsMedications := None;
       setsSideEffectSeverities := None; setsJournal := None;
       setsNotes := None;
       setsTheme := Some (if bool_decide (theme state = js "dark")
                          then js "light" else js "dark") |}).
End Render.

(** ** Sync client: the debounced auto-save effect *)

(** The delay given to [setTimeout]. *)
Definition SAVE_DELAY : N := 600.

(** What the component holds that the auto-save effect reads or writes.
    The pending timer is kept with its due time and with the [state] its
    callback closed over; [pushes] are the calls of [saveToServer] made by
    timer callbacks so far, oldest first.  (The one call that
    [loadFromServer] makes itself when it migrates a legacy cache is not
    the effect's and is not recorded here.) *)
Record Component : Type := {
  currentState : PatientState;
  loaded : bool;
  initialLoad : bool;                        (* initialLoad.current *)
  saveTimer : option (N * PatientState);     (* a timer not yet fired or cleared *)
  pushes : list PatientState
}.

(** The component after mounting: the first run of the effect sees
    [loaded = false] and returns at once. *)
Definition mounted : Component :=
  {| currentState := DEFAULT_STATE; loaded := false; initialLoad := true;
     saveTimer := None; pushes := [] |}.

(** The timer callback runs once the clock has reached its due time. *)
Definition elapse (now : N) (c : Component) : Component :=
  match saveTimer c with
  | Some (due, snapshot) =>
      if due <=? now
      then {| currentState := currentState c; loaded := loaded c;
              initialLoad := initialLoad c; saveTimer := None;
              pushes := pushes c ++ [snapshot] |}
      else c
  | None => c
  end.

(** The clean-up function that a run of the effect returns,
    [() => clearTimeout(saveTimer.current)].  It runs before the next run
    of the effect.  Only a run that set a timer returns it, and a pending
    timer was always set by the latest run, so running it comes to
    clearing the pending timer, if any. *)
Definition cleanUp (c : Component) : Component :=
  {| currentState := currentState c; loaded := loaded c;
     initialLoad := initialLoad c; saveTimer := None; pushes := pushes c |}.

(** The effect with dependencies [[state, loaded]], run at time [now]
    after a commit that changed one of them: the two early returns, then
    [clearTimeout(saveTimer.current)] and the new [setTimeout]. *)
Definition autoSaveEffect (now : N) (c : Component) : Component :=
  if negb (loaded c) then c
  else if initialLoad c
  then {| currentState := currentState c; loaded := loaded c;
          initialLoad := false; saveTimer := saveTimer c; pushes := pushes c |}
  else {| currentState := currentState c; loaded := loaded c;
          initialLoad := initialLoad c;
          saveTimer := Some (now + SAVE_DELAY, currentState c);
          pushes := pushes c |}.

Inductive Event : Type :=
| LoadSettled (data : option PatientState)             (* loadFromServer().then(...) *)
| Mutation (updater : PatientState → PatientState).    (* setState(updater), from update *)

(** One event at time [now]: a timer that is due fires first; then the
    state is set, the component re-renders, the clean-up of the previous
    run of the effect runs, and the effect runs. *)
Definition handle (c : Component) (ev : N * Event) : Component :=
  let now := fst ev in
  let c := elapse now c in
  match snd ev with
  | LoadSettled data =>
      autoSaveEffect now
        (cleanUp {| currentState := default (currentState c) data; loaded := true;
                    initialLoad := initialLoad c; saveTimer := saveTimer c;
                    pushes := pushes c |})
  | Mutation updater =>
      autoSaveEffect now
        (cleanUp {| currentState := updater (currentState c); loaded := loaded c;
                    initialLoad := initialLoad c; saveTimer := saveTimer c;
                    pushes := pushes c |})
  end.

Definition run (events : list (N * Event)) (c : Component) : Component :=
  fold_left handle events c.

(** ** Server (server.js) *)

Module Server.

(** [DESCRIPTIONS] of the server: a shorter table with its own texts. *)
Definition DESCRIPTIONS : list (jsstring * jsstring) :=
  [
    (js "nausea",
     js "A queasy feeling in the stomach that may cause an urge to vomit.");
    (js "headache",
     js "Pain or pressure in the head, ranging from mild to severe.");
    (js "dizziness",
     js "A sensation of lightheadedness or feeling unsteady on your feet.");
    (js "fatigue",
     js "Persistent tiredness or exhaustion that doesn't improve with rest.");
    (js "diarrhoea",
     js "Frequent loose or watery bowel movements.");
    (js "diarrhea",
     js "Frequent loose or watery bowel movements.");
    (js "vomiting",
     js "Forceful emptying of the stomach contents through the mouth.");
    (js "insomnia",
     js "Difficulty falling asleep, staying asleep, or waking too early.");
    (js "somnolence",
     js "Excessive drowsiness or sleepiness during the day.");
    (js "dry mouth",
     js "Reduced saliva production causing a parched feeling in the mouth.");
    (js "constipation",
     js "Infrequent or difficult bowel movements.");
    (js "abdominal pain",
     js "Discomfort or cramping felt between the chest and pelvis.");
    (js "rash",
     js "A noticeable change in the color or texture of the skin.");
    (js "anxiety",
     js "Feelings of worry, nervousness, or unease.");
    (js "tremor",
     js "Involuntary shaking or trembling, often in the hands.");
    (js "decreased appetite",
     js "Reduced desire to eat or feeling full very quickly.");
    (js "palpitations",
     js "Awareness of your heartbeat, which may feel fast or fluttering.");
    (js "blurred vision",
     js "Difficulty seeing clearly, as though looking through fog.");
    (js "myalgia",
     js "Muscle aches or soreness, often felt as a dull pain.");
    (js "arthralgia",
     js "Pain in one or more joints without visible swelling.");
    (js "dyspepsia",
     (js "Indigestion " ++ [8212] ++ js " discomfort or burning in the upper stomach area."));
    (js "pruritus",
     js "Persistent itching of the skin that causes an urge to scratch.");
    (js "hyperhidrosis",
     js "Excessive sweating beyond what is needed to cool the body.");
    (js "depression",
     js "Persistent feelings of sadness, hopelessness, or loss of interest.");
    (js "asthenia",
     js "Overall weakness or lack of energy making daily activities harder.");
    (js "paraesthesia",
     js "Tingling, numbness, or a pins and needles sensation.");
    (js "irritability",
     js "Feeling easily annoyed, frustrated, or agitated.");
    (js "weight increased",
     js "Noticeable gain in body weight since starting medication.");
    (js "weight decreased",
     js "Noticeable loss in body weight since starting medication.");
    (js "malaise",
     js "A general feeling of discomfort, unease, or being unwell.");
    (js "hot flush",
     js "Sudden feeling of warmth spreading through the body.");
    (js "tachycardia",
     js "Resting heart rate faster than normal, above ~100 bpm.");
    (js "dyspnoea",
     js "Shortness of breath or difficulty breathing.");
    (js "urticaria",
     js "Raised, itchy welts on the skin, commonly called hives.");
    (js "confusional state",
     js "Difficulty thinking clearly, feeling disoriented.");
    (js "alopecia",
     js "Thinning or loss of hair from the scalp or body.");
    (js "oedema",
     js "Swelling caused by fluid buildup, often in feet or hands.");
    (js "edema",
     js "Swelling caused by fluid buildup, often in feet or hands.")
  ].

(** [toTitleCase] of server.js. *)
Definition toTitleCase (str : jsstring) : jsstring :=
  capitalizeWords true (toLowerCase str).

(** *** The side-effect route *)

(** [req.body] as the handler finds it, and in it [medication].  The body
    is what [express.json()] left: the parsed object, or [undefined] when
    it parsed none and the Express in use leaves [req.body] unset. *)
Inductive BodyField : Type :=
| NoBody                  (* [req.body] is undefined *)
| Missing                 (* no such field, or null *)
| NotAString              (* a number, a boolean, an array or an object *)
| Str (s : jsstring).

(** What the handler does: one of its two responses, or a TypeError
    before any response.  The handler has no [try] around its first
    statement; what is sent after a throw is Express's to decide. *)
Inductive Response : Type :=
| Status200 (sideEffects : list SideEffectRecord)
| Status400
| HandlerThrows.

(** [{ name: 'No data found', description: `No adverse event reports for
    "${medName}". Try the generic name.` }] *)
Definition noDataFound (medName : jsstring) : SideEffectRecord :=
  {| seName := js "No data found";
     seDescription :=
       Text (js "No adverse event reports for " ++ [34] ++ medName ++ [34]
             ++ js ". Try the generic name.") |}.

Section Route.
(** The reporting service: the [term]s of [data.results] in its answer to
    the query that [queryFDA] builds for a name; [None] when the request
    fails, the status is not ok, the body does not parse or carries no
    [results], or a result has no string [term] (all of which end in a
    throw inside the [try]). *)
Variable reportedTerms : jsstring → option (list jsstring).

Definition queryFDA (name : jsstring) : Outcome (list SideEffectRecord) :=
  match reportedTerms name with
  | None => Thrown
  | Some [] => Thrown
  | Some results => Returned (fromReportedTerms DESCRIPTIONS results)
  end.

(** The handler of [POST /api/side-effects].  Its first statement,
    [const { medication } = req.body], throws on an undefined body. *)
Definition postSideEffects (medication : BodyField) : Response :=
  match medication with
  | NoBody => HandlerThrows
  | Missing => Status400
  | NotAString => Status400
  | Str medication =>
      if negb (truthy medication) || negb (truthy (trim medication)) then Status400
      else
        let medName := trim medication in
        match queryFDA medName with
        | Returned effects => Status200 effects
        | Thrown =>
            let simplified := simplifiedName medName in
            match (if decide (simplified = medName) then Thrown
                   else queryFDA simplified) with
            | Returned effects => Status200 effects
            | Thrown => Status200 [noDataFound medName]
            end
        end
  end.
End Route.

(** *** The persistent store *)

(** A parsed JSON value.  Numbers are kept as integers, which is what the
    documents of this application hold (scores and severities). *)
Inductive JSON : Type :=
| JNull
| JBool (b : bool)
| JNumber (n : Z)
| JString (s : jsstring)
| JArray (items : list JSON)
| JObject (fields : list (jsstring * JSON)).

Definition DEFAULT_STATE : JSON :=
  JObject [ (js "dailyAssessments", JObject []);
            (js "medications", JArray []);
            (js "sideEffectSeverities", JObject []);
            (js "journal", JObject []);
            (js "notes", JString []);
            (js "theme", JString (js "light")) ].

(** [parsed && typeof parsed === 'object' && 'dailyAssessments' in parsed] *)
Definition hasShape (parsed : JSON) : bool :=
  match parsed with
  | JObject fields => bool_decide (js "dailyAssessments" ∈ fields.*1)
  | _ => false
  end.

Section Store.
(** The text of a file, with [JSON.parse] ([None]: a SyntaxError) and
    [JSON.stringify(data, null, 2)]. *)
Variable FileText : Type.
Variable parse : FileText → option JSON.
Variable stringify : JSON → FileText.

(** A path of the data directory: no file, a file that [readFile] fails
    on, or a file with its text. *)
Inductive File : Type :=
| NoFile
| Unreadable
| Content (text : FileText).

(** The two files of the store.  (In [readPatientData] a rejection of
    [ensureDataDir] lands in the [catch] with no file in place, and so
    comes to the same as [NoFile] for both.) *)
Record Disk : Type := {
  DATA_FILE : File;
  BACKUP_FILE : File
}.

(** The [try] block of [readPatientData]. *)
Definition readPrimary (disk : Disk) : Outcome JSON :=
  match DATA_FILE disk with
  | NoFile => Returned DEFAULT_STATE
  | Unreadable => Thrown
  | Content raw =>
      match parse raw with
      | None => Thrown
      | Some parsed => Returned (if hasShape parsed then parsed else DEFAULT_STATE)
      end
  end.

(** The [catch] block of [readPatientData]. *)
Definition readFallback (disk : Disk) : Outcome JSON :=
  match BACKUP_FILE disk with
  | Content backup =>
      match parse backup with
      | Some parsed => Returned parsed
      | None => Returned DEFAULT_STATE
      end
  | Unreadable => Returned DEFAULT_STATE
  | NoFile => Returned DEFAULT_STATE
  end.

Definition readPatientData (disk : Disk) : Outcome JSON :=
  match readPrimary disk with
  | Returned data => Returned data
  | Thrown => readFallback disk
  end.

(** What a call of [writeFile] on a path comes to, which is the file
    system's to say.  It resolves, and the path then reads as the text
    written, or cannot be read (a path that can be written only); or it
    rejects, and the path holds [remains]: what it held, or what a partial
    write made of it. *)
Inductive Written : Type :=
| Stored (readable : bool)
| Rejected (remains : File).

Definition after (w : Written) (text : FileText) : File :=
  match w with
  | Stored true => Content text
  | Stored false => Unreadable
  | Rejected remains => remains
  end.

(** The file system during one call of [writePatientData]: whether
    [ensureDataDir] resolves, and what the two calls of [writeFile] come
    to, if they are made. *)
Record Attempt : Type := {
  dirReady : bool;
  backupWrite : Written;
  dataWrite : Written
}.

(** [writePatientData]: the files afterwards, and whether the call
    resolves.  It rejects when [ensureDataDir] or the final [writeFile]
    does; a failure while copying the primary to the backup is
    swallowed. *)
Definition writePatientData (fs : Attempt) (disk : Disk) (data : JSON)
  : Disk * Outcome unit :=
  if negb (dirReady fs) then (disk, Thrown)
  else
    let backedUp :=
      match DATA_FILE disk with
      | Content existing =>
          {| DATA_FILE := DATA_FILE disk;
             BACKUP_FILE := after (backupWrite fs) existing |}
      | Unreadable => disk   (* readFile throws; the backup is best-effort *)
      | NoFile => disk
      end in
    ({| DATA_FILE := after (dataWrite fs) (stringify data);
        BACKUP_FILE := BACKUP_FILE backedUp |},
     match dataWrite fs with
     | Stored _ => Returned tt
     | Rejected _ => Thrown
     end).
End Store.

Arguments NoFile {FileText}.
Arguments Unreadable {FileText}.
Arguments Content {FileText} text.
Arguments DATA_FILE {FileText} d.
Arguments BACKUP_FILE {FileText} d.
Arguments Build_Disk {FileText} DATA_FILE BACKUP_FILE.
Arguments readPrimary {FileText} parse disk.
Arguments readFallback {FileText} parse disk.
Arguments readPatientData {FileText} parse disk.
Arguments Stored {FileText} readable.
Arguments Rejected {FileText} remains.
Arguments after {FileText} w text.
Arguments dirReady {FileText} a.
Arguments backupWrite {FileText} a.
Arguments dataWrite {FileText} a.
Arguments Build_Attempt {FileText} dirReady backupWrite dataWrite.
Arguments writePatientData {FileText} stringify fs disk data.

End Server.

(** ** Medications tab: [removeMed], [updateMed], the two lists *)

(** The object given to [updateMed]: the fields it sets. *)
Record MedicationUpdates : Type := {
  setsMedId : option jsstring;
  setsMedName : option jsstring;
  setsDosage : option jsstring;
  setsStartDate : option jsstring;
  setsEndDate : option jsstring;
  setsSideEffects : option (list SideEffect)
}.

(** [{ ...m, ...updates }] *)
Definition spreadMedication (m : Medication) (updates : MedicationUpdates) : Medication :=
  {| medId := default (medId m) (setsMedId updates);
     medName := default (medName m) (setsMedName updates);
     dosage := default (dosage m) (setsDosage updates);
     startDate := default (startDate m) (setsStartDate updates);
     endDate := default (endDate m) (setsEndDate updates);
     sideEffects := default (sideEffects m) (setsSideEffects updates) |}.

Module MedicationsTab.

(** [medications.filter(m => m.id !== id)], the list handed to
    [setMedications]. *)
Definition removeMed (medications : list Medication) (id : jsstring) : list Medication :=
  List.filter (λ m, negb (bool_decide (medId m = id))) medications.

(** [medications.map(m => m.id === id ? { ...m, ...updates } : m)] *)
Definition updateMed (medications : list Medication) (id : jsstring)
    (updates : MedicationUpdates) : list Medication :=
  (λ m, if bool_decide (medId m = id) then spreadMedication m updates else m)
  <$> medications.

(** The [onEnd] of a card: [updateMed(med.id, { endDate: today() })]. *)
Definition onEnd (medications : list Medication) (med : Medication) (today : jsstring)
  : list Medication :=
  updateMed medications (medId med)
    {| setsMedId := None; setsMedName := None; setsDosage := None;
       setsStartDate := None; setsEndDate := Some today; setsSideEffects := None |}.

(** [medications.filter(m => !m.endDate)], shown as "Currently Taking". *)
Definition active (medications : list Medication) : list Medication :=
  List.filter (λ m, negb (truthy (endDate m))) medications.

(** [medications.filter(m => m.endDate)], shown as "Past Medications". *)
Definition past (medications : list Medication) : list Medication :=
  List.filter (λ m, truthy (endDate m)) medications.

End MedicationsTab.

(** ** Loading and importing (client) *)

(** Truthiness of a JSON value. *)
Definition jsonTruthy (v : Server.JSON) : bool :=
  match v with
  | Server.JNull => false
  | Server.JBool b => b
  | Server.JNumber n => negb (n =? 0)%Z
  | Server.JString s => truthy s
  | Server.JArray _ => true
  | Server.JObject _ => true
  end.

(** [data && typeof data === "object" && data.dailyAssessments], the test
    of [loadFromServer] and, negated, of [handleImport].  The fields of a
    parsed object have distinct keys. *)
Definition clientAccepts (data : Server.JSON) : bool :=
  match data with
  | Server.JObject fields =>
      match assocGet fields (js "dailyAssessments") with
      | Some v => jsonTruthy v
      | None => false
      end
  | _ => false
  end.

(** What [fetch] gives for [GET /api/data]: a rejection, or a response
    with its [ok] flag and what [resp.json()] gives ([None]: it
    rejects). *)
Inductive Answer : Type :=
| Unreachable
| Response (ok : bool) (body : option Server.JSON).

(** The message that [handleImport] leaves in [importStatus]. *)
Inductive ImportStatus : Type :=
| InvalidFileFormat     (* "Invalid file format." *)
| Imported              (* "Imported. Reload the page to see your data." *)
| ImportFailed.         (* "Import failed: ..." *)

Section ClientStorage.
(** The text of the legacy cache and of an imported file, with
    [JSON.parse] ([None]: it throws, as it does on the empty string). *)
Variable FileText : Type.
Variable parse : FileText → option Server.JSON.

(** What a call of [loadFromServer] comes to: the value it resolves to
    ([JNull] for [null]), the item "wellness-tracker-data" of
    [localStorage] afterwards, and the document it handed to
    [saveToServer], if any. *)
Record Loaded : Type := {
  resolved : Server.JSON;
  cacheAfter : option FileText;
  migrated : option Server.JSON
}.

(** The second [try] of [loadFromServer].  An empty item is falsy and
    skipped, with the same outcome as an item that does not parse. *)
Definition loadFromCache (cache : option FileText) : Loaded :=
  match cache with
  | Some raw =>
      match parse raw with
      | Some parsed =>
          {| resolved := parsed; cacheAfter := None; migrated := Some parsed |}
      | None =>
          {| resolved := Server.JNull; cacheAfter := cache; migrated := None |}
      end
  | None => {| resolved := Server.JNull; cacheAfter := None; migrated := None |}
  end.

Definition loadFromServer (answer : Answer) (cache : option FileText) : Loaded :=
  match answer with
  | Response true (Some data) =>
      if clientAccepts data
      then {| resolved := data; cacheAfter := cache; migrated := None |}
      else loadFromCache cache
  | _ => loadFromCache cache
  end.

(** [handleImport] on the text of the chosen file: the status it leaves,
    and the body of the [PUT /api/data] it sends, if it sends one.
    [delivered] says whether that [fetch] settles; its response is not
    looked at. *)
Definition handleImport (delivered : bool) (text : FileText)
  : ImportStatus * option Server.JSON :=
  match parse text with
  | None => (ImportFailed, None)
  | Some data =>
      if negb (clientAccepts data) then (InvalidFileFormat, None)
      else if delivered then (Imported, Some data)
      else (ImportFailed, None)
  end.
End ClientStorage.

Arguments resolved {FileText} l.
Arguments cacheAfter {FileText} l.
Arguments migrated {FileText} l.
Arguments Build_Loaded {FileText} resolved cacheAfter migrated.
Arguments loadFromCache {FileText} parse cache.
Arguments loadFromServer {FileText} parse answer cache.
Arguments handleImport {FileText} parse delivered text.

(** ** The middleware chain and the routes of the server *)

Module Api.

(** A request that has reached the key check, under [/api]. *)
Inductive Request : Type :=
| GetData                                          (* GET /api/data *)
| PutData (body : option Server.JSON)              (* PUT /api/data; [None]: [req.body] is undefined *)
| PostSideEffects (medication : Server.BodyField)  (* POST /api/side-effects *)
| GetHealth                                        (* GET /api/health *)
| Unrouted.                                        (* any other method or path under /api *)

(** A request as [app] receives it.  [cors(...)] and [express.json(...)]
    are mounted first; each is library code that either ends the request
    itself (an OPTIONS preflight; a body it cannot parse or that is over
    the limit) or passes it on.  What they end never reaches the key
    check.  A path outside [/api] meets neither the key check nor a
    route. *)
Inductive Incoming : Type :=
| EndedByCors
| EndedByBodyParser
| OutsideApi
| Passed (key : option jsstring) (req : Request).   (* [key]: the [x-api-key] header *)

Inductive Reply : Type :=
| DataReply (data : Server.JSON)                     (* 200, the document *)
| SavedReply                                         (* 200 { ok: true, savedAt } *)
| SideEffectsReply (sideEffects : list SideEffectRecord)   (* 200 { sideEffects } *)
| HealthReply (dataFileExists : bool)                (* 200 { status, dataFile, origin } *)
| BadRequest                                         (* 400, a handler's own *)
| Forbidden                                          (* 403 *)
| ServerError                                        (* 500, a handler's [catch] *)
| HandlerThrew                                       (* a handler threw; Express answers *)
| NotFound                                           (* no route: Express answers *)
| CorsReply                                          (* [cors] ended the request *)
| BodyParserReply.                                   (* [express.json] refused the body *)

Section Routes.
Variable FileText : Type.
Variable parse : FileText → option Server.JSON.
Variable stringify : Server.JSON → FileText.
(** [process.env.API_KEY] *)
Variable API_KEY : jsstring.
Variable reportedTerms : jsstring → option (list jsstring).
(** The file system during the request. *)
Variable fs : Server.Attempt FileText.

(** [app.get('/api/data', ...)] *)
Definition getData (disk : Server.Disk FileText) : Reply :=
  match Server.readPatientData parse disk with
  | Returned data => DataReply data
  | Thrown => ServerError
  end.

(** [app.put('/api/data', ...)]: [!data || typeof data !== 'object']
    lets objects and arrays through; a rejection of [writePatientData]
    lands in the [catch]. *)
Definition putData (disk : Server.Disk FileText) (body : option Server.JSON)
  : Server.Disk FileText * Reply :=
  let write data :=
    match Server.writePatientData stringify fs disk data with
    | (disk', Returned _) => (disk', SavedReply)
    | (disk', Thrown) => (disk', ServerError)
    end in
  match body with
  | Some (Server.JObject fields) => write (Server.JObject fields)
  | Some (Server.JArray items) => write (Server.JArray items)
  | _ => (disk, BadRequest)
  end.

(** [app.get('/api/health', ...)] *)
Definition getHealth (disk : Server.Disk FileText) : Reply :=
  HealthReply match Server.DATA_FILE disk with
              | Server.NoFile => false
              | _ => true
              end.

(** From the key check on: [app.use('/api', ...)], then the route. *)
Definition serve (disk : Server.Disk FileText) (key : option jsstring) (req : Request)
  : Server.Disk FileText * Reply :=
  if negb (bool_decide (key = Some API_KEY)) then (disk, Forbidden)
  else match req with
       | GetData => (disk, getData disk)
       | PutData body => putData disk body
       | PostSideEffects medication =>
           (disk, match Server.postSideEffects reportedTerms medication with
                  | Server.Status200 effects => SideEffectsReply effects
                  | Server.Status400 => BadRequest
                  | Server.HandlerThrows => HandlerThrew
                  end)
       | GetHealth => (disk, getHealth disk)
       | Unrouted => (disk, NotFound)
       end.

(** The whole chain, in the order of the [app.use] calls. *)
Definition app (disk : Server.Disk FileText) (incoming : Incoming)
  : Server.Disk FileText * Reply :=
  match incoming with
  | EndedByCors => (disk, CorsReply)
  | EndedByBodyParser => (disk, BodyParserReply)
  | OutsideApi => (disk, NotFound)
  | Passed key req => serve disk key req
  end.
End Routes.

Arguments getData {FileText} parse disk.
Arguments putData {FileText} stringify fs disk body.
Arguments getHealth {FileText} disk.
Arguments serve {FileText} parse stringify API_KEY reportedTerms fs disk key req.
Arguments app {FileText} parse stringify API_KEY reportedTerms fs disk incoming.

End Api.
(** ** Notions used to state the theorems *)

(** A code unit that lower-casing leaves alone and, unless it is a space,
    whose upper case is one code unit [u] such that the lower case of [u]
    is no space and has [u] as its upper case again. *)
Definition caseStable (c : N) : bool :=
  (lowerUnit c =? c)
  && (isSpace c
      || match upperUnit c with
         | [u] => negb (isSpace (lowerUnit u))
                  && bool_decide (upperUnit (lowerUnit u) = [u])
         | _ => false
         end).

(** The (medication name, record) pairs visited by the two nested
    [forEach], in order. *)
Definition listings (active : list Medication) : list (jsstring * SideEffect) :=
  active ≫= λ m, (λ se, (medName m, se)) <$> sideEffects m.

(** The loop body on one listing. *)
Definition addListing (map : list (jsstring * Entry)) (r : jsstring * SideEffect)
  : option (list (jsstring * Entry)) :=
  addEffect (fst r) map (snd r).

(** What one listing does to the entry of [name]: nothing if it has
    another name or the name is skipped; otherwise it contributes to the
    entry, which is created first if there is none. *)
Definition tallyStep (name : jsstring) (acc : option Entry)
    (r : jsstring * SideEffect) : option Entry :=
  if bool_decide (effectName (snd r) = name) && negb (skipped name)
  then Some (contribute (fst r) (effectDescription (snd r))
               (default {| meds := []; count := 0;
                           description := effectDescription (snd r) |} acc))
  else acc.

(** The entry of [name] after the listings [recs], from [start]. *)
Definition tally (name : jsstring) (recs : list (jsstring * SideEffect))
    (start : option Entry) : option Entry :=
  foldl (tallyStep name) start recs.

(** No own key of the map names a member of [Object.prototype]. *)
Definition noInheritedKey (map : list (jsstring * Entry)) : Prop :=
  ∀ k, k ∈ map.*1 → inheritedKey k = false.

(** The listings among [recs] that count towards the entry of [name]:
    those of that name, unless it is a name the aggregation skips. *)
Definition matching (name : jsstring) (recs : list (jsstring * SideEffect))
  : list (jsstring * SideEffect) :=
  List.filter (λ r, bool_decide (effectName (snd r) = name) && negb (skipped name)) recs.

(** The listings of [name] by the active medications. *)
Definition listingsOf (name : jsstring) (active : list Medication)
  : list (jsstring * SideEffect) :=
  matching name (listings active).

(** A medication lists a name when one of its records has that name and
    the name is not one the aggregation skips. *)
Definition listsEffect (name : jsstring) (m : Medication) : bool :=
  negb (skipped name) && bool_decide (name ∈ effectName <$> sideEffects m).

(** The active medications that list [name]. *)
Definition medicationsListing (name : jsstring) (active : list Medication)
  : list Medication :=
  List.filter (listsEffect name) active.

(** A collation to run the order on: code-unit order. *)
Definition codeUnitCompare (a b : jsstring) : Z :=
  if strLt a b then (-1)%Z else if strLt b a then 1%Z else 0%Z.

(** Tiers 1 to 3 of [fetchSideEffects] all fail for [medName]: the proxy
    tier falls through, the direct lookup throws, and the retry with the
    simplified name is not made or throws. *)
Definition tiersFail (proxySideEffects : jsstring → option (list SideEffect))
    (reportedTerms : jsstring → option (list jsstring)) (medName : jsstring) : Prop :=
  proxyTier proxySideEffects medName = None
  ∧ fetchSideEffectsFromFDA reportedTerms medName = Thrown
  ∧ (simplifiedName medName = medName
     ∨ fetchSideEffectsFromFDA reportedTerms (simplifiedName medName) = Thrown).

(** The key under which [buildFromFallback] looks a name up. *)
Definition fallbackKey (medName : jsstring) : jsstring := trim (toLowerCase medName).

(** A term of the fallback table, normalised: title-cased name plus
    description. *)
Definition normalized (term : jsstring) : SideEffectRecord :=
  {| seName := toTitleCase term; seDescription := orEmpty (jsGet DESCRIPTIONS term) |}.

(** The body is there, and [medication] is missing, not a string, or
    blank. *)
Definition blank (medication : Server.BodyField) : bool :=
  match medication with
  | Server.Str s => negb (truthy (trim s))
  | Server.Missing | Server.NotAString => true
  | Server.NoBody => false
  end.

(** A lookup of the reporting service fails: the request fails, the
    status is not ok, or the answer has no result or none at all.  This
    is tested on the answer as it comes, before excluded terms are
    dropped. *)
Definition lookupFails (reportedTerms : jsstring → option (list jsstring))
    (name : jsstring) : Prop :=
  reportedTerms name = None ∨ reportedTerms name = Some [].

(** Following the spec's words for the route: the list is computed by
    tier 2 (direct external lookup), then tier 3 (simplified-name retry),
    then tier 4 (static fallback table lookup: the lowercased, trimmed
    name, then the simplified name), and is the sentinel only after all
    three fail.  The static fallback table of the repository is
    [FALLBACK_SIDE_EFFECTS]. *)
Definition specServerSideEffects (reportedTerms : jsstring → option (list jsstring))
    (medName : jsstring) : list SideEffectRecord :=
  let simplified := simplifiedName medName in
  match Server.queryFDA reportedTerms medName with
  | Returned effects => effects
  | Thrown =>
  match (if decide (simplified = medName) then Thrown
         else Server.queryFDA reportedTerms simplified) with
  | Returned effects => effects
  | Thrown =>
  match assocGet FALLBACK_SIDE_EFFECTS (fallbackKey medName) with
  | Some terms => normalized <$> terms
  | None =>
  match assocGet FALLBACK_SIDE_EFFECTS (fallbackKey simplified) with
  | Some terms => normalized <$> terms
  | None => [Server.noDataFound medName]
  end end end end.

(** Each event comes no earlier than the previous one and less than the
    delay after it. *)
Fixpoint closelySpaced (previous : N) (events : list (N * Event)) : Prop :=
  match events with
  | [] => True
  | ev :: later =>
      previous <= fst ev ∧ fst ev < previous + SAVE_DELAY ∧ closelySpaced (fst ev) later
  end.

(** The event is a mutation, not the settling of the load. *)
Definition isMutation (ev : N * Event) : Prop :=
  match snd ev with Mutation _ => True | LoadSettled _ => False end.

(** The time of the last of [events], or [start] if there is none. *)
Definition lastTime (start : N) (events : list (N * Event)) : N :=
  List.last (fst <$> events) start.

(** Two states that differ at most in one top-level field. *)
Definition sameExceptDailyAssessments (a b : PatientState) : Prop :=
  medications a = medications b ∧ sideEffectSeverities a = sideEffectSeverities b
  ∧ journal a = journal b ∧ notes a = notes b ∧ theme a = theme b.

Definition sameExceptSideEffectSeverities (a b : PatientState) : Prop :=
  dailyAssessments a = dailyAssessments b ∧ medications a = medications b
  ∧ journal a = journal b ∧ notes a = notes b ∧ theme a = theme b.

Definition sameExceptJournal (a b : PatientState) : Prop :=
  dailyAssessments a = dailyAssessments b ∧ medications a = medications b
  ∧ sideEffectSeverities a = sideEffectSeverities b
  ∧ notes a = notes b ∧ theme a = theme b.

Definition sameExceptNotes (a b : PatientState) : Prop :=
  dailyAssessments a = dailyAssessments b ∧ medications a = medications b
  ∧ sideEffectSeverities a = sideEffectSeverities b
  ∧ journal a = journal b ∧ theme a = theme b.

Definition sameExceptTheme (a b : PatientState) : Prop :=
  dailyAssessments a = dailyAssessments b ∧ medications a = medications b
  ∧ sideEffectSeverities a = sideEffectSeverities b
  ∧ journal a = journal b ∧ notes a = notes b.

(** The severity stored for an effect on a date, if any. *)
Definition severityOf (s : PatientState) (date effect : jsstring) : option Z :=
  sideEffectSeverities s !! date ≫= λ entry, entry !! effect.

(** The state [Ready] of the sync client: the load has settled and the
    effect has seen it. *)
Definition ready (c : Component) : Prop :=
  loaded c = true ∧ initialLoad c = false.

(** While a burst lasts: the pushes are those made before it, and the one
    pending timer is due a delay after the last mutation, with the state
    as of that mutation. *)
Definition pendingSince (t : N) (before : list PatientState) (c : Component) : Prop :=
  ready c ∧ pushes c = before
  ∧ saveTimer c = Some (t + SAVE_DELAY, currentState c).

(** A medication list to run the aggregation on. *)
Definition sampleMedications : list Medication :=
  [ {| medId := js "1"; medName := js "Sertraline"; dosage := js "50mg";
       startDate := js "2026-01-01"; endDate := [];
       sideEffects := [Structured (js "Nausea") (js "A queasy feeling.");
                       Legacy (js "Headache")] |};
    {| medId := js "2"; medName := js "Ibuprofen"; dosage := [];
       startDate := js "2026-01-01"; endDate := js "2026-03-01";
       sideEffects := [Legacy (js "Rash")] |};
    {| medId := js "3"; medName := js "Lisinopril"; dosage := [];
       startDate := js "2026-02-01"; endDate := js "2026-12-31";
       sideEffects := [Structured (js "Headache") (js "Pain or pressure in the head.");
                       Legacy (js "Cough")] |} ].

(** Its view on 2026-06-01, under code-unit collation. *)
Definition sampleView : list (jsstring * Entry) :=
  [ (js "Headache", {| meds := [js "Sertraline"; js "Lisinopril"]; count := 2;
                       description := js "Pain or pressure in the head." |});
    (js "Cough", {| meds := [js "Lisinopril"]; count := 1; description := [] |});
    (js "Nausea", {| meds := [js "Sertraline"]; count := 1;
                     description := js "A queasy feeling." |}) ].

(** A string that does not begin with white space. *)
Definition noLeadingSpace (s : jsstring) : Prop :=
  match s with
  | [] => True
  | c :: _ => isSpace c = false
  end.

(** [data && typeof data === 'object'] *)
Definition isObject (data : Server.JSON) : bool :=
  match data with
  | Server.JObject _ | Server.JArray _ => true
  | _ => false
  end.

(** The snapshot of the pending timer, if there is one. *)
Definition pendingSnapshot (c : Component) : list PatientState :=
  match saveTimer c with
  | Some (_, snapshot) => [snapshot]
  | None => []
  end.

(** The states that a run of mutations goes through, from [s]. *)
Fixpoint statesAfter (events : list (N * Event)) (s : PatientState)
  : list PatientState :=
  match events with
  | [] => []
  | ev :: rest =>
      match snd ev with
      | Mutation updater => updater s :: statesAfter rest (updater s)
      | LoadSettled _ => statesAfter rest s
      end
  end.
(* ================================================================== *)
(** * Part II: theorems                                                *)
(* ================================================================== *)

(** ** Title-casing *)

Lemma forallb_below (P : N → bool) (n : nat) :
  forallb P (N.of_nat <$> seq 0 n) = true → ∀ c, c < N.of_nat n → P c = true.
Proof.
  intros Hall c Hc.
  rewrite forallb_forall in Hall. apply Hall.
  apply list_elem_of_In, list_elem_of_fmap. exists (N.to_nat c). split.
  - by rewrite N2Nat.id.
  - apply list_elem_of_In, in_seq. lia.
Qed.

Lemma lowerUnit_caseStable (c : N) :
  c < 256 → c ≠ 223 → caseStable (lowerUnit c) = true.
Proof.
  intros Hlt Hne.
  assert (H : (c =? 223) || caseStable (lowerUnit c) = true).
  { clear Hne. revert c Hlt. apply (forallb_below _ 256). vm_compute. reflexivity. }
  apply orb_true_iff in H as [H | H]; [apply N.eqb_eq in H; done | done].
Qed.

Lemma capitalizeWords_again (b : bool) (l : jsstring) :
  Forall (λ c, caseStable c = true) l →
  capitalizeWords b (toLowerCase (capitalizeWords b l)) = capitalizeWords b l.
Proof.
  intros Hl. revert b. induction Hl as [| c l Hc _ IH]; intros b; [done |].
  unfold caseStable in Hc. apply andb_true_iff in Hc as [Hlow Hup].
  apply N.eqb_eq in Hlow. cbn [capitalizeWords].
  destruct (isSpace c) eqn:Hsp.
  - unfold toLowerCase in *. cbn [fmap list_fmap capitalizeWords].
    rewrite Hlow, Hsp. f_equal. apply IH.
  - unfold toLowerCase in *. rewrite fmap_app. cbn in Hup.
    destruct b.
    + destruct (upperUnit c) as [| u [| ? ?]]; try done.
      apply andb_true_iff in Hup as [Hns Hback].
      apply negb_true_iff in Hns. apply bool_decide_eq_true in Hback.
      cbn [fmap list_fmap app capitalizeWords].
      rewrite Hns, Hback. cbn [app]. f_equal. apply IH.
    + cbn [fmap list_fmap app capitalizeWords].
      rewrite Hlow, Hsp. cbn [app]. f_equal. apply IH.
Qed.

(** C9, as the code has it.  Title-casing, the client's and the server's
    alike, is a function of its argument, and it is idempotent on every
    string of Basic Latin and Latin-1 code units that has no sharp s
    (U+00DF): title-casing the result again gives the same string. *)
Theorem toTitleCase_idempotent (x : jsstring) :
  Forall (λ c, c < 256 ∧ c ≠ 223) x →
  toTitleCase (toTitleCase x) = toTitleCase x
  ∧ Server.toTitleCase (Server.toTitleCase x) = Server.toTitleCase x.
Proof.
  intros Hx.
  assert (H : toTitleCase (toTitleCase x) = toTitleCase x); [| by split].
  unfold toTitleCase. apply capitalizeWords_again.
  unfold toLowerCase. apply Forall_fmap.
  eapply Forall_impl; [exact Hx |].
  intros c [Hlt Hne]. by apply lowerUnit_caseStable.
Qed.

Lemma toTitleCase_idempotent_witness :
  toTitleCase (toTitleCase (js "dry mouth")) = toTitleCase (js "dry mouth")
  ∧ Server.toTitleCase (Server.toTitleCase (js "dry mouth"))
    = Server.toTitleCase (js "dry mouth").
Proof.
  apply toTitleCase_idempotent.
  unfold js. cbn [list_ascii_of_string fmap list_fmap].
  repeat (constructor; [split; [reflexivity | by vm_compute] |]).
  constructor.
Defined.

(** C9, as stated, fails at the one-letter string "ß": its title case is
    "SS", and the title case of "SS" is "Ss". *)
Lemma toTitleCase_not_idempotent :
  toTitleCase [223] = js "SS"
  ∧ toTitleCase (toTitleCase [223]) = js "Ss"
  ∧ toTitleCase (toTitleCase [223]) ≠ toTitleCase [223].
Proof. repeat split; by vm_compute. Qed.
(** ** Sorting *)

Section ArraySortFacts.
Context {A : Type} (cmp : A → A → Z).

Lemma insertSorted_Permutation (x : A) (l : list A) :
  Permutation (insertSorted cmp x l) (x :: l).
Proof.
  induction l as [| y l IH]; cbn; [done |].
  destruct (cmp x y <=? 0)%Z; [done |].
  rewrite IH. apply perm_swap.
Qed.

Lemma arraySort_Permutation (l : list A) : Permutation (arraySort cmp l) l.
Proof.
  induction l as [| x l IH]; cbn; [done |].
  rewrite insertSorted_Permutation. by constructor.
Qed.

(** A comparator is consistent when "compares at most equal" is total
    and transitive. *)
Hypothesis cmp_total : ∀ a b, (cmp a b <= 0)%Z ∨ (cmp b a <= 0)%Z.
Hypothesis cmp_trans : ∀ a b c, (cmp a b <= 0)%Z → (cmp b c <= 0)%Z → (cmp a c <= 0)%Z.

Lemma insertSorted_sorted (x : A) (l : list A) :
  StronglySorted (λ a b, (cmp a b <= 0)%Z) l →
  StronglySorted (λ a b, (cmp a b <= 0)%Z) (insertSorted cmp x l).
Proof.
  induction 1 as [| y l Hl IH Hy]; cbn.
  - repeat constructor.
  - destruct (cmp x y <=? 0)%Z eqn:Hxy.
    + apply Z.leb_le in Hxy. constructor; [by constructor |].
      constructor; [done |].
      eapply Forall_impl; [exact Hy |]. intros z Hz. by eapply cmp_trans.
    + apply Z.leb_gt in Hxy. constructor; [done |].
      rewrite insertSorted_Permutation. constructor; [| done].
      destruct (cmp_total x y); [lia | done].
Qed.

Lemma arraySort_sorted (l : list A) :
  StronglySorted (λ a b, (cmp a b <= 0)%Z) (arraySort cmp l).
Proof.
  induction l as [| x l IH]; cbn; [constructor |].
  by apply insertSorted_sorted.
Qed.
End ArraySortFacts.

Lemma StronglySorted_lookup {A : Type} (R : A → A → Prop) (l : list A) (i j : nat) (a b : A) :
  StronglySorted R l → (i < j)%nat → l !! i = Some a → l !! j = Some b → R a b.
Proof.
  intros Hl. revert i j a b.
  induction Hl as [| x l Hl IH Hx]; intros i j a b Hij Hi Hj; [done |].
  destruct j as [| j]; [lia |]. cbn in Hj.
  destruct i as [| i]; cbn in Hi.
  - injection Hi as <-. rewrite Forall_forall in Hx. apply Hx.
    by eapply list_elem_of_lookup_2.
  - eapply IH; [| done | done]. lia.
Qed.

Lemma filter_split_Permutation {A : Type} (f : A → bool) (l : list A) :
  Permutation (List.filter f l ++ List.filter (λ x, negb (f x)) l) l.
Proof.
  induction l as [| x l IH]; cbn; [done |].
  destruct (f x); cbn.
  - by constructor.
  - rewrite <- Permutation_middle. by constructor.
Qed.

Lemma objectEntries_Permutation {V : Type} (entries : list (jsstring * V)) :
  Permutation (objectEntries entries) entries.
Proof.
  unfold objectEntries. rewrite arraySort_Permutation.
  apply filter_split_Permutation.
Qed.

(** ** Aggregation: the map that the loops build *)

Lemma forEach_app {A S : Type} (body : S → A → option S) (l1 l2 : list A) (s : S) :
  forEach body (l1 ++ l2) s =
  match forEach body l1 s with
  | Some s' => forEach body l2 s'
  | None => None
  end.
Proof.
  revert s. induction l1 as [| x l1 IH]; intros s; cbn; [done |].
  destruct (body s x); [apply IH | done].
Qed.

Lemma forEach_fmap {A B S : Type} (body : S → B → option S) (f : A → B)
    (l : list A) (s : S) :
  forEach body (f <$> l) s = forEach (λ s x, body s (f x)) l s.
Proof.
  revert s. induction l as [| x l IH]; intros s; cbn; [done |].
  destruct (body s (f x)); [apply IH | done].
Qed.

Lemma aggregate_listings (active : list Medication) (map : list (jsstring * Entry)) :
  forEach addMedication active map = forEach addListing (listings active) map.
Proof.
  revert map. induction active as [| m active IH]; intros map; [done |].
  unfold listings. cbn [mbind list_bind forEach]. rewrite forEach_app.
  unfold addMedication at 1. rewrite forEach_fmap. unfold addListing at 1. cbn [fst snd].
  destruct (forEach _ (sideEffects m) map); [apply IH | done].
Qed.

(** *** The map as a dictionary *)

Lemma assocGet_update {V : Type} (k : jsstring) (f : V → V)
    (m : list (jsstring * V)) (k' : jsstring) :
  assocGet (assocUpdate k f m) k' =
  if decide (k = k') then f <$> assocGet m k' else assocGet m k'.
Proof.
  induction m as [| [k0 v0] m IH]; cbn; [by case_decide |].
  destruct (decide (k0 = k)) as [-> | Hne]; cbn.
  - by destruct (decide (k = k')).
  - destruct (decide (k0 = k')) as [-> | Hne']; [| apply IH].
    by destruct (decide (k = k')).
Qed.

Lemma assocGet_snoc {V : Type} (m : list (jsstring * V)) (k : jsstring) (v : V)
    (k' : jsstring) :
  assocGet (m ++ [(k, v)]) k' =
  match assocGet m k' with
  | Some x => Some x
  | None => if decide (k = k') then Some v else None
  end.
Proof.
  induction m as [| [k0 v0] m IH]; cbn; [done |].
  by destruct (decide (k0 = k')).
Qed.

Lemma assocGet_None {V : Type} (m : list (jsstring * V)) (k : jsstring) :
  assocGet m k = None ↔ k ∉ m.*1.
Proof.
  induction m as [| [k0 v0] m IH]; cbn.
  - split; [intros _; apply not_elem_of_nil | done].
  - rewrite not_elem_of_cons. destruct (decide (k0 = k)) as [-> | Hne].
    + split; [done | by intros [? _]].
    + rewrite IH. split; [by intros ? | by intros [_ ?]].
Qed.

Lemma assocUpdate_keys {V : Type} (k : jsstring) (f : V → V) (m : list (jsstring * V)) :
  (assocUpdate k f m).*1 = m.*1.
Proof.
  induction m as [| [k0 v0] m IH]; cbn; [done |].
  destruct (decide (k0 = k)); cbn; [done | by rewrite IH].
Qed.

Lemma assocGet_elem_of {V : Type} (m : list (jsstring * V)) (k : jsstring) (v : V) :
  NoDup m.*1 → (k, v) ∈ m ↔ assocGet m k = Some v.
Proof.
  induction m as [| [k0 v0] m IH]; cbn; intros Hnd.
  - split; [by intros ?%elem_of_nil | done].
  - apply NoDup_cons in Hnd as [Hk0 Hnd]. rewrite elem_of_cons.
    destruct (decide (k0 = k)) as [-> | Hne].
    + split.
      * intros [[= ->] | Hin]; [done |].
        destruct Hk0. apply list_elem_of_fmap. by exists (k, v).
      * intros [= ->]. by left.
    + rewrite <- (IH Hnd). split; [| by right].
      intros [[= -> ->] | Hin]; done.
Qed.

(** *** What one listing does to the entry of a name *)

Lemma addListing_get (map map' : list (jsstring * Entry)) (r : jsstring * SideEffect) :
  addListing map r = Some map' →
  ∀ n, assocGet map' n = tallyStep n (assocGet map n) r.
Proof.
  unfold addListing, addEffect, tallyStep. intros Hadd n.
  destruct (skipped (effectName r.2)) eqn:Hskip.
  - injection Hadd as <-.
    case_bool_decide as Hn; [subst n; by rewrite Hskip | done].
  - unfold jsGet in Hadd. destruct (assocGet map (effectName r.2)) as [e |] eqn:Hget.
    + injection Hadd as <-. rewrite assocGet_update.
      case_bool_decide as Hn.
      * subst n. rewrite decide_True by done. by rewrite Hskip, Hget.
      * by rewrite decide_False.
    + destruct (inheritedKey (effectName r.2)); [done |].
      injection Hadd as <-. rewrite assocGet_snoc.
      case_bool_decide as Hn.
      * subst n. rewrite Hget, decide_True by done. by rewrite Hskip.
      * rewrite decide_False by done. by destruct (assocGet map n).
Qed.

Lemma addListing_NoDup (map map' : list (jsstring * Entry)) (r : jsstring * SideEffect) :
  addListing map r = Some map' → NoDup map.*1 → NoDup map'.*1.
Proof.
  unfold addListing, addEffect. intros Hadd Hnd.
  destruct (skipped (effectName r.2)); [by injection Hadd as <- |].
  unfold jsGet in Hadd. destruct (assocGet map (effectName r.2)) as [e |] eqn:Hget.
  - injection Hadd as <-. by rewrite assocUpdate_keys.
  - destruct (inheritedKey (effectName r.2)); [done |].
    injection Hadd as <-. rewrite fmap_app. cbn.
    apply NoDup_app. split; [done |]. split; [| apply NoDup_singleton].
    intros k Hk ->%list_elem_of_singleton. by apply assocGet_None in Hget.
Qed.

Lemma addListing_noInheritedKey (map map' : list (jsstring * Entry))
    (r : jsstring * SideEffect) :
  addListing map r = Some map' → noInheritedKey map → noInheritedKey map'.
Proof.
  unfold addListing, addEffect, noInheritedKey. intros Hadd Hmap.
  destruct (skipped (effectName r.2)); [by injection Hadd as <- |].
  unfold jsGet in Hadd. destruct (assocGet map (effectName r.2)) as [e |] eqn:Hget.
  - injection Hadd as <-. by rewrite assocUpdate_keys.
  - destruct (inheritedKey (effectName r.2)) eqn:Hinh; [done |].
    injection Hadd as <-. rewrite fmap_app. cbn.
    intros k [Hk | ->%list_elem_of_singleton]%elem_of_app; [by apply Hmap | done].
Qed.

Lemma forEach_addListing (recs : list (jsstring * SideEffect))
    (map map' : list (jsstring * Entry)) :
  forEach addListing recs map = Some map' →
  NoDup map.*1 → noInheritedKey map →
  NoDup map'.*1 ∧ noInheritedKey map'
  ∧ ∀ n, assocGet map' n = tally n recs (assocGet map n).
Proof.
  revert map. induction recs as [| r recs IH]; cbn; intros map Hrun Hnd Hinh.
  - by injection Hrun as <-.
  - destruct (addListing map r) as [map1 |] eqn:Hadd; [| done].
    destruct (IH map1 Hrun) as (Hnd' & Hinh' & Hget).
    + by eapply addListing_NoDup.
    + by eapply addListing_noInheritedKey.
    + split; [done |]. split; [done |].
      intros n. rewrite Hget. unfold tally. cbn. f_equal.
      by eapply addListing_get.
Qed.

(** The loops complete unless a counted listing is named like a member of
    [Object.prototype]. *)
Lemma forEach_addListing_Some (recs : list (jsstring * SideEffect))
    (map : list (jsstring * Entry)) :
  (∀ r, r ∈ recs → skipped (effectName (snd r)) = false →
        inheritedKey (effectName (snd r)) = false) →
  is_Some (forEach addListing recs map).
Proof.
  revert map. induction recs as [| r recs IH]; cbn; intros map Hrecs; [done |].
  assert (is_Some (addListing map r)) as [map1 ->].
  { unfold addListing, addEffect.
    destruct (skipped (effectName r.2)) eqn:Hskip; [done |].
    unfold jsGet. destruct (assocGet map (effectName r.2)); [done |].
    rewrite (Hrecs r); [done | by left | done]. }
  apply IH. intros r' Hr'. apply Hrecs. by right.
Qed.

Lemma forEach_addListing_None (recs : list (jsstring * SideEffect))
    (map : list (jsstring * Entry)) (r : jsstring * SideEffect) :
  noInheritedKey map → r ∈ recs →
  skipped (effectName (snd r)) = false → inheritedKey (effectName (snd r)) = true →
  forEach addListing recs map = None.
Proof.
  intros Hmap Hin Hskip Hinh. revert map Hmap.
  induction recs as [| r0 recs IH]; intros map Hmap; [by apply elem_of_nil in Hin |].
  cbn. destruct (addListing map r0) as [map1 |] eqn:Hadd; [| done].
  apply elem_of_cons in Hin as [-> | Hin].
  - unfold addListing, addEffect in Hadd. rewrite Hskip in Hadd.
    unfold jsGet in Hadd. rewrite Hinh in Hadd.
    destruct (assocGet map (effectName r0.2)) eqn:Hget; [| done].
    assert (Hk : effectName r0.2 ∈ map.*1).
    { destruct (decide (effectName r0.2 ∈ map.*1)) as [| Hno]; [done |].
      apply assocGet_None in Hno. congruence. }
    apply Hmap in Hk. congruence.
  - apply IH; [done |]. by eapply addListing_noInheritedKey.
Qed.

(** *** Counts and contributors *)

Lemma tally_Some (name : jsstring) (recs : list (jsstring * SideEffect)) (e0 : Entry) :
  ∃ e, tally name recs (Some e0) = Some e
       ∧ count e = count e0 + N.of_nat (length (matching name recs))
       ∧ meds e = meds e0 ++ (matching name recs).*1.
Proof.
  revert e0. induction recs as [| r recs IH]; intros e0.
  - exists e0. split; [done |]. split; [cbn; lia | by rewrite app_nil_r].
  - unfold tally, matching. cbn [foldl List.filter]. unfold tallyStep at 2.
    destruct (bool_decide (effectName r.2 = name) && negb (skipped name)).
    + destruct (IH (contribute r.1 (effectDescription r.2) e0)) as (e & He & Hc & Hm).
      exists e. split; [done |]. cbn [contribute count meds] in Hc, Hm.
      fold (matching name recs). cbn [length fmap list_fmap].
      rewrite Nat2N.inj_succ. split; [lia |].
      by rewrite Hm, <- app_assoc.
    + apply IH.
Qed.

Lemma tally_None (name : jsstring) (recs : list (jsstring * SideEffect)) :
  match tally name recs None with
  | Some e => count e = N.of_nat (length (matching name recs))
              ∧ meds e = (matching name recs).*1
              ∧ matching name recs ≠ []
  | None => matching name recs = []
  end.
Proof.
  induction recs as [| r recs IH]; [done |].
  unfold tally, matching. cbn [foldl List.filter]. unfold tallyStep at 2.
  destruct (bool_decide (effectName r.2 = name) && negb (skipped name)); [| apply IH].
  destruct (tally_Some name recs
              (contribute r.1 (effectDescription r.2)
                 {| meds := []; count := 0; description := effectDescription r.2 |}))
    as (e & He & Hc & Hm).
  unfold tally in He. cbn [default]. rewrite He.
  cbn [contribute count meds] in Hc, Hm. fold (matching name recs).
  cbn [length fmap list_fmap]. rewrite Nat2N.inj_succ. split; [lia |]. by split.
Qed.

(** *** The sorted view *)

Lemma aggregate_spec (active : list Medication) (map : list (jsstring * Entry)) :
  aggregate active = Some map →
  NoDup map.*1 ∧ noInheritedKey map
  ∧ ∀ n, assocGet map n = tally n (listings active) None.
Proof.
  unfold aggregate. rewrite aggregate_listings. intros Hrun.
  apply forEach_addListing in Hrun; [done | apply NoDup_nil_2 |].
  by intros k ?%elem_of_nil.
Qed.

Section AggregationFacts.
Variable localeCompare : jsstring → jsstring → Z.

Lemma allSideEffects_Permutation (medications : list Medication)
    (selectedDate : jsstring) (out : list (jsstring * Entry)) :
  allSideEffects localeCompare medications selectedDate = Some out →
  ∃ map, aggregate (activeMeds medications selectedDate) = Some map
         ∧ Permutation out map.
Proof.
  unfold allSideEffects. destruct (aggregate _) as [map |]; [| done].
  intros [= <-]. exists map. split; [done |].
  rewrite arraySort_Permutation. apply objectEntries_Permutation.
Qed.

(** Every effect name has at most one pair in the view. *)
Lemma allSideEffects_NoDup (medications : list Medication)
    (selectedDate : jsstring) (out : list (jsstring * Entry)) :
  allSideEffects localeCompare medications selectedDate = Some out → NoDup out.*1.
Proof.
  intros (map & Hagg & Hperm)%allSideEffects_Permutation.
  apply aggregate_spec in Hagg as (Hnd & _ & _).
  by rewrite Hperm.
Qed.

(** The entry of a name counts the listings of that name among the
    active medications, and holds the medication name of each. *)
Lemma allSideEffects_entry (medications : list Medication)
    (selectedDate : jsstring) (out : list (jsstring * Entry))
    (name : jsstring) (e : Entry) :
  allSideEffects localeCompare medications selectedDate = Some out →
  (name, e) ∈ out →
  count e = N.of_nat (length (listingsOf name (activeMeds medications selectedDate)))
  ∧ meds e = (listingsOf name (activeMeds medications selectedDate)).*1
  ∧ listingsOf name (activeMeds medications selectedDate) ≠ [].
Proof.
  intros (map & Hagg & Hperm)%allSideEffects_Permutation Hin.
  apply aggregate_spec in Hagg as (Hnd & _ & Hget).
  rewrite Hperm in Hin. apply assocGet_elem_of in Hin; [| done].
  rewrite Hget in Hin.
  pose proof (tally_None name (listings (activeMeds medications selectedDate))) as Ht.
  by rewrite Hin in Ht.
Qed.

(** Every name with a counted listing has a pair in the view. *)
Lemma allSideEffects_listed (medications : list Medication)
    (selectedDate : jsstring) (out : list (jsstring * Entry)) (name : jsstring) :
  allSideEffects localeCompare medications selectedDate = Some out →
  listingsOf name (activeMeds medications selectedDate) ≠ [] →
  ∃ e, (name, e) ∈ out.
Proof.
  intros (map & Hagg & Hperm)%allSideEffects_Permutation Hne.
  apply aggregate_spec in Hagg as (Hnd & _ & Hget).
  pose proof (tally_None name (listings (activeMeds medications selectedDate))) as Ht.
  destruct (tally _ _ _) as [e |] eqn:Htally; [| done].
  exists e. rewrite Hperm. apply assocGet_elem_of; [done |]. by rewrite Hget.
Qed.

(** The view is produced whenever no counted listing of an active
    medication is named like a member of [Object.prototype]. *)
Lemma allSideEffects_completes (medications : list Medication) (selectedDate : jsstring) :
  (∀ r, r ∈ listings (activeMeds medications selectedDate) →
        skipped (effectName (snd r)) = false →
        inheritedKey (effectName (snd r)) = false) →
  is_Some (allSideEffects localeCompare medications selectedDate).
Proof.
  intros Hrecs. unfold allSideEffects, aggregate. rewrite aggregate_listings.
  by destruct (forEach_addListing_Some _ [] Hrecs) as [map ->].
Qed.

(** It is not produced when there is such a listing. *)
Lemma allSideEffects_throws (medications : list Medication) (selectedDate : jsstring)
    (r : jsstring * SideEffect) :
  r ∈ listings (activeMeds medications selectedDate) →
  skipped (effectName (snd r)) = false →
  inheritedKey (effectName (snd r)) = true →
  allSideEffects localeCompare medications selectedDate = None.
Proof.
  intros Hin Hskip Hinh. unfold allSideEffects, aggregate. rewrite aggregate_listings.
  rewrite (forEach_addListing_None _ [] r); [done | | done | done | done].
  by intros k ?%elem_of_nil.
Qed.
End AggregationFacts.

(** *** Listings and medications *)

Lemma listings_cons (m : Medication) (active : list Medication) :
  listings (m :: active) = ((λ se, (medName m, se)) <$> sideEffects m) ++ listings active.
Proof. done. Qed.

Lemma matching_app (name : jsstring) (l1 l2 : list (jsstring * SideEffect)) :
  matching name (l1 ++ l2) = matching name l1 ++ matching name l2.
Proof. unfold matching. apply List.filter_app. Qed.

Lemma matching_one_medication (name med : jsstring) (effects : list SideEffect) :
  NoDup (effectName <$> effects) →
  length (matching name ((λ se, (med, se)) <$> effects)) =
  if negb (skipped name) && bool_decide (name ∈ effectName <$> effects)
  then 1%nat else 0%nat.
Proof.
  unfold matching. destruct (skipped name); cbn [negb andb].
  { intros _. induction effects as [| se effects IH]; cbn; [done |].
    by rewrite andb_false_r. }
  induction effects as [| se effects IH]; intros Hnd; [done |].
  cbn [fmap list_fmap] in *. apply NoDup_cons in Hnd as [Hse Hnd].
  cbn [List.filter snd]. rewrite andb_true_r.
  destruct (decide (effectName se = name)) as [Hn | Hn].
  - rewrite bool_decide_eq_true_2 by done. subst name.
    rewrite bool_decide_eq_true_2 by left.
    cbn [length]. rewrite IH by done. by rewrite bool_decide_eq_false_2.
  - rewrite bool_decide_eq_false_2 by done. rewrite IH by done.
    destruct (decide (name ∈ effectName <$> effects)) as [Hin | Hin].
    + rewrite !bool_decide_eq_true_2; [done | by right | done].
    + rewrite !bool_decide_eq_false_2; [done | | done].
      intros [? | ?]%elem_of_cons; congruence.
Qed.

(** When no active medication lists a name twice, the listings of a name
    are as many as the active medications that list it. *)
Lemma listingsOf_length (name : jsstring) (active : list Medication) :
  Forall (λ m, NoDup (effectName <$> sideEffects m)) active →
  length (listingsOf name active) = length (medicationsListing name active).
Proof.
  unfold listingsOf.
  induction 1 as [| m active Hm _ IH]; [done |].
  rewrite listings_cons, matching_app, length_app, IH.
  rewrite matching_one_medication by done.
  unfold medicationsListing. cbn [List.filter]. unfold listsEffect at 2.
  by destruct (negb (skipped name) && bool_decide (name ∈ effectName <$> sideEffects m)).
Qed.

Lemma elem_of_listings (active : list Medication) (m : Medication) (se : SideEffect) :
  m ∈ active → se ∈ sideEffects m → (medName m, se) ∈ listings active.
Proof.
  intros Hm Hse. unfold listings. apply list_elem_of_bind. exists m.
  split; [| done]. apply list_elem_of_fmap. by exists se.
Qed.

Lemma elem_of_listingsOf (name : jsstring) (active : list Medication)
    (m : Medication) (se : SideEffect) :
  m ∈ active → se ∈ sideEffects m → effectName se = name → skipped name = false →
  (medName m, se) ∈ listingsOf name active.
Proof.
  intros Hm Hse Hname Hskip. unfold listingsOf, matching.
  apply list_elem_of_In, filter_In. split.
  - apply list_elem_of_In. by apply elem_of_listings.
  - cbn. rewrite Hskip, bool_decide_eq_true_2; done.
Qed.

Lemma two_elements {A : Type} (l : list A) (x y : A) :
  x ∈ l → y ∈ l → x ≠ y → (2 <= length l)%nat.
Proof.
  intros Hx Hy Hne. destruct l as [| a [| b l]]; cbn; [| | lia].
  - by apply elem_of_nil in Hx.
  - apply list_elem_of_singleton in Hx, Hy. congruence.
Qed.

(** ** The aggregation claims *)

(** When no active medication lists a name twice, the count of every pair
    of the view is the number of active medications that list its name;
    medications that are not active on the selected date are not
    counted. *)
Lemma allSideEffects_count_medications (localeCompare : jsstring → jsstring → Z)
    (medications : list Medication) (selectedDate : jsstring)
    (out : list (jsstring * Entry)) (name : jsstring) (e : Entry) :
  Forall (λ m, NoDup (effectName <$> sideEffects m)) (activeMeds medications selectedDate) →
  allSideEffects localeCompare medications selectedDate = Some out →
  (name, e) ∈ out →
  count e = N.of_nat (length (medicationsListing name (activeMeds medications selectedDate))).
Proof.
  intros Hnd Hout Hin.
  destruct (allSideEffects_entry _ _ _ _ _ _ Hout Hin) as (-> & _ & _).
  by rewrite listingsOf_length.
Qed.

(** C1 at a medication that lists one effect twice.  The claim is that the
    count of a pair is the number of active medications that list its
    name; here the entry counts 2 and names the medication twice, while
    one active medication lists the effect. *)
Theorem count_of_repeated_listing (localeCompare : jsstring → jsstring → Z)
    (selectedDate : jsstring) :
  let m := {| medId := js "1"; medName := js "A"; dosage := [];
              startDate := js "2026-01-01"; endDate := [];
              sideEffects := [Legacy (js "Nausea"); Legacy (js "Nausea")] |} in
  allSideEffects localeCompare [m] selectedDate =
    Some [(js "Nausea", {| meds := [js "A"; js "A"]; count := 2; description := [] |})]
  ∧ medicationsListing (js "Nausea") (activeMeds [m] selectedDate) = [m].
Proof. split; reflexivity. Qed.

(** Whenever the view is produced, a legacy string and a structured
    record with that same string as name, listed by active medications,
    fall into one pair, which names both medications and counts at least
    two. *)
Lemma allSideEffects_merges_forms (localeCompare : jsstring → jsstring → Z)
    (medications : list Medication) (selectedDate : jsstring)
    (out : list (jsstring * Entry)) (m1 m2 : Medication) (s d : jsstring) :
  allSideEffects localeCompare medications selectedDate = Some out →
  m1 ∈ activeMeds medications selectedDate →
  m2 ∈ activeMeds medications selectedDate →
  Legacy s ∈ sideEffects m1 →
  Structured s d ∈ sideEffects m2 →
  skipped s = false →
  ∃ e, (s, e) ∈ out
       ∧ (∀ e', (s, e') ∈ out → e' = e)
       ∧ medName m1 ∈ meds e ∧ medName m2 ∈ meds e ∧ 2 <= count e.
Proof.
  intros Hout Hm1 Hm2 Hs1 Hs2 Hskip.
  assert (Htruthy : truthy s = true).
  { unfold skipped in Hskip. apply orb_false_iff in Hskip as [Hskip _].
    by apply negb_false_iff in Hskip. }
  assert (H1 : (medName m1, Legacy s) ∈ listingsOf s (activeMeds medications selectedDate)).
  { by apply elem_of_listingsOf. }
  assert (H2 : (medName m2, Structured s d) ∈ listingsOf s (activeMeds medications selectedDate)).
  { apply elem_of_listingsOf; [done | done | | done]. cbn. by rewrite Htruthy. }
  destruct (allSideEffects_listed localeCompare medications selectedDate out s Hout)
    as [e He].
  { intros Hnil. rewrite Hnil in H1. by apply elem_of_nil in H1. }
  exists e. split; [done |]. split.
  - intros e' He'. pose proof (allSideEffects_NoDup _ _ _ _ Hout) as Hnd.
    apply assocGet_elem_of in He, He'; [congruence | done | done].
  - destruct (allSideEffects_entry _ _ _ _ _ _ Hout He) as (Hcount & Hmeds & _).
    rewrite Hmeds, Hcount. split; [| split].
    + apply list_elem_of_fmap. by exists (medName m1, Legacy s).
    + apply list_elem_of_fmap. by exists (medName m2, Structured s d).
    + assert (Hlen : (2 <= length (listingsOf s (activeMeds medications selectedDate)))%nat)
        by (apply (two_elements _ _ _ H1 H2); congruence).
      lia.
Qed.

(** C2 at two inputs.  The claim is that a legacy string and a structured
    record that refer to the same effect name give one combined pair.
    For the name "constructor", listed once in each form, reading
    [map["constructor"]] finds the inherited member of
    [Object.prototype], no entry is created, and the aggregation throws.
    For the legacy string "nausea" and the structured name "Nausea",
    which [normalizeSideEffects] makes one name, the aggregation reads
    the legacy string as it is stored and gives two pairs. *)
Theorem legacy_and_structured_not_merged (localeCompare : jsstring → jsstring → Z)
    (selectedDate : jsstring) :
  let taking name effects :=
    {| medId := name; medName := name; dosage := [];
       startDate := js "2026-01-01"; endDate := []; sideEffects := effects |} in
  allSideEffects localeCompare
    [ taking (js "A") [Legacy (js "constructor")];
      taking (js "B") [Structured (js "constructor") []] ]
    selectedDate = None
  ∧ seName <$> normalizeSideEffects [Legacy (js "nausea"); Structured (js "Nausea") []]
    = [js "Nausea"; js "Nausea"]
  ∧ ∃ out,
      allSideEffects localeCompare
        [ taking (js "A") [Legacy (js "nausea")];
          taking (js "B") [Structured (js "Nausea") []] ]
        selectedDate = Some out
      ∧ out.*1 ≡ₚ [js "nausea"; js "Nausea"].
Proof.
  cbv zeta. split; [reflexivity |]. split; [by vm_compute |].
  eexists. split; [reflexivity |].
  rewrite arraySort_Permutation, objectEntries_Permutation. reflexivity.
Qed.

(** The scenario of the spec: two active medications both listing
    "Headache" give one pair with count 2 and both names, ahead of the
    pairs with count 1; a medication that ended before the selected date
    gives nothing. *)
Example headache_scenario :
  let taking name until effects :=
    {| medId := name; medName := name; dosage := [];
       startDate := js "2026-01-01"; endDate := until; sideEffects := effects |} in
  allSideEffects codeUnitCompare
    [ taking (js "Sertraline") []
        [Structured (js "Nausea") (js "A queasy feeling."); Structured (js "Headache") []];
      taking (js "Ibuprofen") (js "2026-03-01") [Legacy (js "Rash")];
      taking (js "Lisinopril") (js "2026-12-31")
        [Structured (js "Headache") (js "Pain or pressure in the head."); Legacy (js "Cough")] ]
    (js "2026-06-01")
  = Some [ (js "Headache", {| meds := [js "Sertraline"; js "Lisinopril"]; count := 2;
                              description := js "Pain or pressure in the head." |});
           (js "Cough", {| meds := [js "Lisinopril"]; count := 1; description := [] |});
           (js "Nausea", {| meds := [js "Sertraline"]; count := 1;
                            description := js "A queasy feeling." |}) ].
Proof. vm_compute. reflexivity. Qed.

(** ** The order of the view *)

Section Order.
Variable localeCompare : jsstring → jsstring → Z.
Hypothesis localeCompare_total :
  ∀ a b, (localeCompare a b <= 0)%Z ∨ (localeCompare b a <= 0)%Z.
Hypothesis localeCompare_trans :
  ∀ a b c, (localeCompare a b <= 0)%Z → (localeCompare b c <= 0)%Z →
           (localeCompare a c <= 0)%Z.

Lemma byCountThenName_total (a b : jsstring * Entry) :
  (byCountThenName localeCompare a b <= 0)%Z ∨ (byCountThenName localeCompare b a <= 0)%Z.
Proof.
  unfold byCountThenName.
  destruct (count b.2 =? count a.2) eqn:Hab.
  - apply N.eqb_eq in Hab. rewrite Hab, N.eqb_refl. cbn. apply localeCompare_total.
  - apply N.eqb_neq in Hab. rewrite (proj2 (N.eqb_neq (count a.2) (count b.2))) by done.
    cbn. lia.
Qed.

Lemma byCountThenName_trans (a b c : jsstring * Entry) :
  (byCountThenName localeCompare a b <= 0)%Z →
  (byCountThenName localeCompare b c <= 0)%Z →
  (byCountThenName localeCompare a c <= 0)%Z.
Proof.
  unfold byCountThenName.
  destruct (count b.2 =? count a.2) eqn:Hab;
    destruct (count c.2 =? count b.2) eqn:Hbc;
    destruct (count c.2 =? count a.2) eqn:Hac; cbn;
    rewrite ?N.eqb_eq, ?N.eqb_neq in *; try lia.
  apply localeCompare_trans.
Qed.

(** C8.  For a collation that is total and transitive, of any two pairs
    of the view the earlier one has the higher or the same count, and
    with the same count its name collates before or with the other's. *)
Theorem allSideEffects_sorted (medications : list Medication) (selectedDate : jsstring)
    (out : list (jsstring * Entry)) (i j : nat) (a b : jsstring * Entry) :
  allSideEffects localeCompare medications selectedDate = Some out →
  (i < j)%nat → out !! i = Some a → out !! j = Some b →
  count (snd b) <= count (snd a)
  ∧ (count (snd a) = count (snd b) → (localeCompare (fst a) (fst b) <= 0)%Z).
Proof.
  unfold allSideEffects. destruct (aggregate _) as [map |]; [| done].
  intros [= <-] Hij Ha Hb.
  pose proof (arraySort_sorted (byCountThenName localeCompare)
                byCountThenName_total byCountThenName_trans (objectEntries map)) as Hsorted.
  pose proof (StronglySorted_lookup _ _ _ _ _ _ Hsorted Hij Ha Hb) as Hab.
  cbn in Hab. unfold byCountThenName in Hab.
  destruct (count b.2 =? count a.2) eqn:Hc; cbn in Hab;
    rewrite ?N.eqb_eq, ?N.eqb_neq in *.
  - split; [lia | done].
  - split; [lia | congruence].
Qed.
End Order.

Lemma strLt_asym (a b : jsstring) : strLt a b = true → strLt b a = false.
Proof.
  revert b. induction a as [| x a IH]; intros [| y b]; cbn; try done.
  destruct (x =? y) eqn:Hxy.
  - apply N.eqb_eq in Hxy as ->. rewrite N.eqb_refl. apply IH.
  - apply N.eqb_neq in Hxy. rewrite (proj2 (N.eqb_neq y x)) by done.
    rewrite N.ltb_lt, N.ltb_ge. lia.
Qed.

Lemma strLt_not_trans (a b c : jsstring) :
  strLt b a = false → strLt c b = false → strLt c a = false.
Proof.
  revert b c. induction a as [| x a IH]; intros [| y b] [| z c]; cbn; try done.
  destruct (y =? x) eqn:Hyx, (z =? y) eqn:Hzy, (z =? x) eqn:Hzx;
    rewrite ?N.eqb_eq, ?N.eqb_neq, ?N.ltb_ge in *; try lia; try apply IH.
Qed.

Lemma codeUnitCompare_le (a b : jsstring) :
  (codeUnitCompare a b <= 0)%Z ↔ strLt b a = false.
Proof.
  unfold codeUnitCompare. destruct (strLt a b) eqn:Hab.
  - split; [intros _; by apply strLt_asym | lia].
  - destruct (strLt b a); split; (done || lia).
Qed.

Lemma codeUnitCompare_total (a b : jsstring) :
  (codeUnitCompare a b <= 0)%Z ∨ (codeUnitCompare b a <= 0)%Z.
Proof.
  rewrite !codeUnitCompare_le. destruct (strLt b a) eqn:Hba; [| by left].
  right. by apply strLt_asym.
Qed.

Lemma codeUnitCompare_trans (a b c : jsstring) :
  (codeUnitCompare a b <= 0)%Z → (codeUnitCompare b c <= 0)%Z →
  (codeUnitCompare a c <= 0)%Z.
Proof. rewrite !codeUnitCompare_le. apply strLt_not_trans. Qed.

Lemma allSideEffects_sorted_witness :
  let headache := (js "Headache", {| meds := [js "A"; js "B"]; count := 2; description := [] |}) in
  let nausea := (js "Nausea", {| meds := [js "A"]; count := 1; description := [] |}) in
  count (snd nausea) <= count (snd headache)
  ∧ (count (snd headache) = count (snd nausea) →
     (codeUnitCompare (fst headache) (fst nausea) <= 0)%Z).
Proof.
  intros headache nausea.
  apply (allSideEffects_sorted codeUnitCompare codeUnitCompare_total codeUnitCompare_trans
           [ {| medId := js "1"; medName := js "A"; dosage := [];
                startDate := js "2026-01-01"; endDate := [];
                sideEffects := [Legacy (js "Nausea"); Legacy (js "Headache")] |};
             {| medId := js "2"; medName := js "B"; dosage := [];
                startDate := js "2026-01-01"; endDate := js "2026-12-31";
                sideEffects := [Structured (js "Headache") []] |} ]
           (js "2026-06-01") [headache; nausea] 0 1).
  - vm_compute. reflexivity.
  - lia.
  - reflexivity.
  - reflexivity.
Defined.

(** ** The resolver's last tiers *)

(** The key of a name is computed with [toLowerCase]; what follows speaks
    of the engine for names in the range where [lowerUnit] is
    transcribed. *)

(** The suffix pattern has no word boundaries: it also removes a token
    inside a word. *)
Example simplifiedName_samples :
  simplifiedName (js "Metoprolol ER") = js "Metoprolol"
  ∧ simplifiedName (js "Sertraline  HCl 50mg") = js "Straline50mg"
  ∧ simplifiedName (js "Diclofenac Sodium") = js "Diclofenac"
  ∧ simplifiedName (js "constructor") = js "constructor".
Proof. repeat split; vm_compute; reflexivity. Qed.

Section ResolverFacts.
Variable proxySideEffects : jsstring → option (list SideEffect).
Variable reportedTerms : jsstring → option (list jsstring).

Lemma fetchSideEffects_after_tiers (medName : jsstring) :
  tiersFail proxySideEffects reportedTerms medName →
  fetchSideEffects proxySideEffects reportedTerms medName =
  match buildFromFallback medName with
  | Thrown => Thrown
  | Returned (Some fallback) => Returned fallback
  | Returned None =>
      match buildFromFallback (simplifiedName medName) with
      | Thrown => Thrown
      | Returned (Some fallback) => Returned fallback
      | Returned None => Returned [noDataFound medName]
      end
  end.
Proof.
  intros (Hproxy & Hdirect & Hretry). unfold fetchSideEffects.
  rewrite Hproxy, Hdirect.
  destruct (decide (simplifiedName medName = medName)) as [Heq | Hne]; [done |].
  destruct Hretry as [? | ->]; done.
Qed.

(** For a name whose key is in the table, the result is the table's term
    list, each term title-cased and given its description. *)
Lemma fetchSideEffects_table (medName : jsstring) (terms : list jsstring) :
  tiersFail proxySideEffects reportedTerms medName →
  assocGet FALLBACK_SIDE_EFFECTS (fallbackKey medName) = Some terms →
  fetchSideEffects proxySideEffects reportedTerms medName
  = Returned (normalized <$> terms).
Proof.
  intros Hfail Hkey. rewrite fetchSideEffects_after_tiers by done.
  unfold buildFromFallback, jsGet. fold (fallbackKey medName). by rewrite Hkey.
Qed.

(** The same for a name whose key is neither in the table nor a member
    of [Object.prototype], and whose simplified form is in the table. *)
Lemma fetchSideEffects_table_simplified (medName : jsstring) (terms : list jsstring) :
  tiersFail proxySideEffects reportedTerms medName →
  assocGet FALLBACK_SIDE_EFFECTS (fallbackKey medName) = None →
  inheritedKey (fallbackKey medName) = false →
  assocGet FALLBACK_SIDE_EFFECTS (fallbackKey (simplifiedName medName)) = Some terms →
  fetchSideEffects proxySideEffects reportedTerms medName
  = Returned (normalized <$> terms).
Proof.
  intros Hfail Hkey Hinh Hkey'. rewrite fetchSideEffects_after_tiers by done.
  unfold buildFromFallback, jsGet.
  fold (fallbackKey medName). fold (fallbackKey (simplifiedName medName)).
  by rewrite Hkey, Hinh, Hkey'.
Qed.

(** For a name that neither is in the table nor reads as a member of
    [Object.prototype], in both forms, the result is the one sentinel
    record. *)
Lemma fetchSideEffects_sentinel (medName : jsstring) :
  tiersFail proxySideEffects reportedTerms medName →
  jsGet FALLBACK_SIDE_EFFECTS (fallbackKey medName) = Absent →
  jsGet FALLBACK_SIDE_EFFECTS (fallbackKey (simplifiedName medName)) = Absent →
  fetchSideEffects proxySideEffects reportedTerms medName
  = Returned [noDataFound medName].
Proof.
  intros Hfail Hkey Hkey'. rewrite fetchSideEffects_after_tiers by done.
  unfold buildFromFallback.
  fold (fallbackKey medName). fold (fallbackKey (simplifiedName medName)).
  by rewrite Hkey, Hkey'.
Qed.
End ResolverFacts.

(** The sentinel is named "No data found" and its description contains
    the searched name. *)
Lemma noDataFound_names_medication (medName : jsstring) :
  seName (noDataFound medName) = js "No data found"
  ∧ ∃ before after,
      seDescription (noDataFound medName) = Text (before ++ medName ++ after).
Proof.
  split; [done |].
  exists (js "Could not find side effects for " ++ [34]),
         ([34] ++ js ". Try the generic drug name.").
  unfold noDataFound. cbn [seDescription]. by rewrite <- !app_assoc.
Qed.

(** No term of the fallback table reads the description table at a member
    of [Object.prototype]: every description it yields is a string. *)
Lemma fallback_descriptions_are_text :
  Forall (λ entry, Forall (λ term, ∃ d, seDescription (normalized term) = Text d)
                          (snd entry))
         FALLBACK_SIDE_EFFECTS.
Proof.
  apply Forall_forall. intros entry Hentry.
  apply Forall_forall. intros term Hterm.
  assert (H : inheritedKey term = false).
  { assert (Hall : forallb (λ entry, forallb (λ term, negb (inheritedKey term)) (snd entry))
                     FALLBACK_SIDE_EFFECTS = true) by (vm_compute; reflexivity).
    rewrite forallb_forall in Hall. apply list_elem_of_In in Hentry.
    specialize (Hall _ Hentry). rewrite forallb_forall in Hall.
    apply list_elem_of_In in Hterm. apply Hall in Hterm.
    by apply negb_true_iff in Hterm. }
  unfold normalized, jsGet. cbn [seDescription]. rewrite H.
  destruct (assocGet DESCRIPTIONS term); cbn; eauto.
Qed.

(** C3 at the medication name "constructor" with no network.  The claim
    is that a name absent from the table gets the one-element sentinel
    list.  The name is not a key of the fallback table, yet
    [FALLBACK_SIDE_EFFECTS[key]] reads the inherited member of
    [Object.prototype], which is truthy and has no [map]:
    [fetchSideEffects] throws instead of returning the sentinel. *)
Theorem fetchSideEffects_constructor :
  tiersFail (λ _, None) (λ _, None) (js "constructor")
  ∧ assocGet FALLBACK_SIDE_EFFECTS (fallbackKey (js "constructor")) = None
  ∧ assocGet FALLBACK_SIDE_EFFECTS (fallbackKey (simplifiedName (js "constructor"))) = None
  ∧ fetchSideEffects (λ _, None) (λ _, None) (js "constructor") = Thrown.
Proof.
  cbv zeta. repeat split; try (vm_compute; reflexivity).
  left. vm_compute. reflexivity.
Qed.

(** The two scenarios of the spec, with no network. *)
Example sertraline_offline :
  ∃ effects,
    fetchSideEffects (λ _, None) (λ _, None) (js "Sertraline") = Returned effects
    ∧ length effects = 12%nat
    ∧ {| seName := js "Nausea";
         seDescription :=
           Text (js "A queasy feeling in the stomach that may cause an urge to vomit.") |}
      ∈ effects.
Proof.
  eexists. split; [vm_compute; reflexivity |]. split; [done |]. by left.
Qed.

Example xyzzyplex_offline :
  fetchSideEffects (λ _, None) (λ _, None) (js "Xyzzyplex")
  = Returned [noDataFound (js "Xyzzyplex")].
Proof. vm_compute. reflexivity. Qed.

(** ** The side-effect route of the server *)

Lemma queryFDA_Thrown (reportedTerms : jsstring → option (list jsstring))
    (name : jsstring) :
  Server.queryFDA reportedTerms name = Thrown ↔ lookupFails reportedTerms name.
Proof.
  unfold Server.queryFDA, lookupFails.
  destruct (reportedTerms name) as [[| t results] |].
  - split; [by right | done].
  - split; [done | by intros [? | ?]].
  - split; [by left | done].
Qed.

Lemma queryFDA_Returned (reportedTerms : jsstring → option (list jsstring))
    (name : jsstring) (results : list jsstring) :
  reportedTerms name = Some results → results ≠ [] →
  Server.queryFDA reportedTerms name
  = Returned (fromReportedTerms Server.DESCRIPTIONS results).
Proof.
  intros Hname Hne. unfold Server.queryFDA. rewrite Hname. by destruct results.
Qed.

Lemma fromReportedTerms_all_excluded (descriptions : list (jsstring * jsstring))
    (results : list jsstring) :
  Forall (λ term, toLowerCase term ∈ EXCLUDED_TERMS) results →
  fromReportedTerms descriptions results = [].
Proof.
  intros Hall. unfold fromReportedTerms.
  assert (Hnone : List.filter (λ term, negb (bool_decide (term ∈ EXCLUDED_TERMS)))
                    (toLowerCase <$> results) = []).
  { induction Hall as [| x l Hx _ IH]; [done |].
    rewrite fmap_cons. cbn [List.filter].
    rewrite bool_decide_eq_true_2 by done. apply IH. }
  by rewrite Hnone.
Qed.

(** C7, as the code has it.  With an undefined body the handler throws
    before its test.  With a body, a missing, non-string or blank
    medication is answered with 400.  Otherwise the answer is 200, with
    the list made of the direct lookup's answer if that lookup does not
    fail, else of the answer for the simplified name if that differs and
    its lookup does not fail, else with the sentinel: the server has no
    fallback table.  A lookup fails when the request fails or the answer
    has no result; this is tested before the excluded terms are dropped,
    so an answer of excluded terms only is a success, and the route then
    answers 200 with the empty list, without retry or sentinel. *)
Theorem postSideEffects_tiers (reportedTerms : jsstring → option (list jsstring))
    (medication : Server.BodyField) :
  (medication = Server.NoBody →
   Server.postSideEffects reportedTerms medication = Server.HandlerThrows)
  ∧ (blank medication = true →
     Server.postSideEffects reportedTerms medication = Server.Status400)
  ∧ (∀ s, medication = Server.Str s → truthy (trim s) = true →
     let medName := trim s in
     let simplified := simplifiedName medName in
     (∀ results,
        reportedTerms medName = Some results → results ≠ [] →
        Server.postSideEffects reportedTerms medication
        = Server.Status200 (fromReportedTerms Server.DESCRIPTIONS results)
        ∧ (Forall (λ term, toLowerCase term ∈ EXCLUDED_TERMS) results →
           Server.postSideEffects reportedTerms medication = Server.Status200 []))
     ∧ (∀ results,
          lookupFails reportedTerms medName →
          simplified ≠ medName →
          reportedTerms simplified = Some results → results ≠ [] →
          Server.postSideEffects reportedTerms medication
          = Server.Status200 (fromReportedTerms Server.DESCRIPTIONS results)
          ∧ (Forall (λ term, toLowerCase term ∈ EXCLUDED_TERMS) results →
             Server.postSideEffects reportedTerms medication = Server.Status200 []))
     ∧ (lookupFails reportedTerms medName →
        simplified = medName ∨ lookupFails reportedTerms simplified →
        Server.postSideEffects reportedTerms medication
        = Server.Status200 [Server.noDataFound medName])).
Proof.
  split; [by intros -> |]. split.
  - destruct medication as [| | | s]; [done | done | done |]. cbn. intros Hblank.
    rewrite Hblank. by rewrite orb_true_r.
  - intros s -> Hs. cbn zeta.
    assert (Hguard : negb (truthy s) || negb (truthy (trim s)) = false).
    { rewrite Hs. destruct s; [done |]. done. }
    unfold Server.postSideEffects. rewrite Hguard.
    split; [| split].
    + intros results Hname Hne. rewrite (queryFDA_Returned _ _ results) by done.
      split; [done |]. intros Hall. by rewrite fromReportedTerms_all_excluded.
    + intros results Hfail%queryFDA_Thrown Hdiff Hname Hne. rewrite Hfail.
      rewrite decide_False by done.
      rewrite (queryFDA_Returned _ _ results) by done.
      split; [done |]. intros Hall. by rewrite fromReportedTerms_all_excluded.
    + intros Hfail%queryFDA_Thrown Hretry. rewrite Hfail.
      destruct Hretry as [Heq | Hretry%queryFDA_Thrown]; [by rewrite decide_True |].
      destruct (decide _); [done | by rewrite Hretry].
Qed.

(** C7, as stated, fails for "sertraline" when the reporting service is
    unreachable: the route answers with the sentinel, while tiers 2 to 4
    of the spec give the twelve terms of the fallback table. *)
Lemma postSideEffects_has_no_fallback :
  let offline := (λ _ : jsstring, None) in
  Server.postSideEffects offline (Server.Str (js "sertraline"))
  = Server.Status200 [Server.noDataFound (js "sertraline")]
  ∧ length (specServerSideEffects offline (js "sertraline")) = 12%nat
  ∧ Server.postSideEffects offline (Server.Str (js "sertraline"))
    ≠ Server.Status200 (specServerSideEffects offline (js "sertraline")).
Proof.
  cbv zeta. split; [vm_compute; reflexivity |]. split; [vm_compute; reflexivity |].
  intros H. apply (f_equal (λ r, match r with
                                 | Server.Status200 l => length l
                                 | _ => 0%nat
                                 end)) in H.
  vm_compute in H. discriminate.
Qed.

(** A reporting service that knows two medications, one of them by
    excluded terms only. *)
Lemma postSideEffects_tiers_witness :
  let service := (λ name, if decide (name = js "aspirin")
                          then Some [js "NAUSEA"; js "DEATH"; js "Headaches"]
                          else if decide (name = js "placebo")
                          then Some [js "DEATH"; js "Off Label Use"]
                          else None) in
  Server.postSideEffects service Server.NoBody = Server.HandlerThrows
  ∧ Server.postSideEffects service (Server.Str (js "  ")) = Server.Status400
  ∧ Server.postSideEffects service (Server.Str (js " aspirin "))
    = Server.Status200
        (fromReportedTerms Server.DESCRIPTIONS [js "NAUSEA"; js "DEATH"; js "Headaches"])
  ∧ Server.postSideEffects service (Server.Str (js "placebo")) = Server.Status200 []
  ∧ Server.postSideEffects service (Server.Str (js "Aspirin Sodium"))
    = Server.Status200 [Server.noDataFound (js "Aspirin Sodium")].
Proof.
  intros service. split; [| split; [| split; [| split]]].
  - apply (proj1 (postSideEffects_tiers service Server.NoBody)). reflexivity.
  - apply (proj1 (proj2 (postSideEffects_tiers service (Server.Str (js "  "))))).
    reflexivity.
  - apply (proj1 (proj1 (proj2 (proj2 (postSideEffects_tiers service
                                         (Server.Str (js " aspirin "))))
                          (js " aspirin ") eq_refl eq_refl)
                   [js "NAUSEA"; js "DEATH"; js "Headaches"] eq_refl
                   ltac:(discriminate))).
  - apply (proj2 (proj1 (proj2 (proj2 (postSideEffects_tiers service
                                         (Server.Str (js "placebo"))))
                          (js "placebo") eq_refl eq_refl)
                   [js "DEATH"; js "Off Label Use"] eq_refl
                   ltac:(discriminate))).
    apply (bool_decide_unpack _). vm_compute. reflexivity.
  - apply (proj2 (proj2 (proj2 (proj2 (postSideEffects_tiers service
                                         (Server.Str (js "Aspirin Sodium"))))
                          (js "Aspirin Sodium") eq_refl eq_refl))).
    + left. reflexivity.
    + right. left. reflexivity.
Defined.

(** ** The persistent store *)

Section StoreFacts.
Variable FileText : Type.
Variable parse : FileText → option Server.JSON.
Variable stringify : Server.JSON → FileText.

Abbreviation Disk := (Server.Disk FileText).
Abbreviation readPatientData := (Server.readPatientData parse).
Abbreviation writePatientData := (Server.writePatientData stringify).

(** C4, as the code has it.  [readPatientData] never throws.  With no
    primary file it returns the default document, and a primary file that
    parses and passes the shape check is returned.  A primary file that
    parses but fails the shape check yields the default document at once,
    whatever the backup holds.  The backup is read when the primary
    cannot be read or parsed; what it parses to is returned as it is, and
    the default document is returned when there is no backup or it cannot
    be read or parsed. *)
Theorem readPatientData_fallbacks (disk : Disk) :
  (∃ data, readPatientData disk = Returned data)
  ∧ (Server.DATA_FILE disk = Server.NoFile →
     readPatientData disk = Returned Server.DEFAULT_STATE)
  ∧ (∀ raw parsed,
       Server.DATA_FILE disk = Server.Content raw →
       parse raw = Some parsed → Server.hasShape parsed = true →
       readPatientData disk = Returned parsed)
  ∧ (∀ raw parsed,
       Server.DATA_FILE disk = Server.Content raw →
       parse raw = Some parsed → Server.hasShape parsed = false →
       readPatientData disk = Returned Server.DEFAULT_STATE)
  ∧ (Server.DATA_FILE disk = Server.Unreadable
     ∨ (∃ raw, Server.DATA_FILE disk = Server.Content raw
               ∧ parse raw = None) →
     readPatientData disk =
     Returned match Server.BACKUP_FILE disk with
              | Server.Content backup => default Server.DEFAULT_STATE (parse backup)
              | _ => Server.DEFAULT_STATE
              end).
Proof.
  unfold Server.readPatientData, Server.readPrimary, Server.readFallback.
  split; [| split; [| split; [| split]]].
  - destruct (Server.DATA_FILE disk) as [| | raw]; [by eexists | |].
    + destruct (Server.BACKUP_FILE disk) as [| | backup]; try by eexists.
      destruct (parse backup); by eexists.
    + destruct (parse raw); [by eexists |].
      destruct (Server.BACKUP_FILE disk) as [| | backup]; try by eexists.
      destruct (parse backup); by eexists.
  - by intros ->.
  - intros raw parsed -> -> ->. done.
  - intros raw parsed -> -> ->. done.
  - intros [-> | (raw & -> & ->)];
      destruct (Server.BACKUP_FILE disk) as [| | backup]; try done;
      by destruct (parse backup).
Qed.

(** [JSON.parse] undoes [JSON.stringify]. *)
Hypothesis parse_stringify : ∀ data, parse (stringify data) = Some data.

(** A call of [writePatientData] resolves exactly when [ensureDataDir]
    and the final [writeFile] do: a failed backup copy does not block
    it.  When it does not resolve, the primary file is as the failed
    [writeFile] left it. *)
Lemma writePatientData_resolves (fs : Server.Attempt FileText) (disk : Disk)
    (doc : Server.JSON) :
  snd (Server.writePatientData stringify fs disk doc) = Returned tt
  ↔ Server.dirReady fs = true ∧ ∃ readable, Server.dataWrite fs = Server.Stored readable.
Proof.
  unfold Server.writePatientData. destruct (Server.dirReady fs); cbn [negb snd].
  - destruct (Server.dataWrite fs) as [readable | remains].
    + split; [intros _; split; [done | by exists readable] | done].
    + split; [done | by intros [_ [? ?]]].
  - split; [done | by intros [? _]].
Qed.

(** C5.  A document, that is a JSON object with the field
    [dailyAssessments], is read back as written, once the write has
    resolved and left a file that can be read; the write resolves
    whatever becomes of the backup copy.  After two writes, of which the
    first left a readable primary and the second made its backup copy, a
    read that finds the primary unreadable or unparsable returns the
    first of the two documents, whether or not the second write went on
    to store its own: the backup holds the first document, and nothing
    older is kept. *)
Theorem write_read_round_trip (disk : Disk) :
  (∀ fs doc,
     Server.hasShape doc = true →
     Server.dirReady fs = true → Server.dataWrite fs = Server.Stored true →
     snd (Server.writePatientData stringify fs disk doc) = Returned tt
     ∧ readPatientData (fst (Server.writePatientData stringify fs disk doc))
       = Returned doc)
  ∧ (∀ fs1 fs2 doc1 doc2 damaged,
       Server.dirReady fs1 = true → Server.dataWrite fs1 = Server.Stored true →
       Server.dirReady fs2 = true → Server.backupWrite fs2 = Server.Stored true →
       damaged = Server.Unreadable
       ∨ (∃ raw, damaged = Server.Content raw ∧ parse raw = None) →
       let written :=
         fst (Server.writePatientData stringify fs2
                (fst (Server.writePatientData stringify fs1 disk doc1)) doc2) in
       Server.BACKUP_FILE written = Server.Content (stringify doc1)
       ∧ readPatientData
           {| Server.DATA_FILE := damaged;
              Server.BACKUP_FILE := Server.BACKUP_FILE written |}
         = Returned doc1).
Proof.
  split.
  - intros fs doc Hshape Hdir Hdata.
    unfold Server.readPatientData, Server.readPrimary, Server.writePatientData.
    rewrite Hdir, Hdata. cbn. by rewrite parse_stringify, Hshape.
  - intros fs1 fs2 doc1 doc2 damaged Hdir1 Hdata1 Hdir2 Hbackup2 Hdamaged. cbn zeta.
    assert (Hbackup : Server.BACKUP_FILE
                        (fst (Server.writePatientData stringify fs2
                                (fst (Server.writePatientData stringify fs1 disk doc1))
                                doc2))
                      = Server.Content (stringify doc1)).
    { unfold Server.writePatientData. rewrite Hdir1, Hdata1, Hdir2, Hbackup2. done. }
    split; [done |]. rewrite Hbackup.
    unfold Server.readPatientData, Server.readPrimary, Server.readFallback.
    cbn. destruct Hdamaged as [-> | (raw & -> & ->)]; by rewrite parse_stringify.
Qed.

(** A written object without the field [dailyAssessments] is read back as
    the default document. *)
Lemma write_read_unshaped (fs : Server.Attempt FileText) (disk : Disk)
    (doc : Server.JSON) :
  Server.hasShape doc = false →
  Server.dirReady fs = true → Server.dataWrite fs = Server.Stored true →
  readPatientData (fst (Server.writePatientData stringify fs disk doc))
  = Returned Server.DEFAULT_STATE.
Proof.
  intros Hshape Hdir Hdata.
  unfold Server.readPatientData, Server.readPrimary, Server.writePatientData.
  rewrite Hdir, Hdata. cbn. by rewrite parse_stringify, Hshape.
Qed.

(** A write whose final [writeFile] rejects does not resolve, and a read
    after it does not return the document when the primary was left
    unreadable: it returns what the backup holds. *)
Lemma write_rejected (fs : Server.Attempt FileText) (disk : Disk) (doc : Server.JSON) :
  Server.dirReady fs = true →
  Server.dataWrite fs = Server.Rejected Server.Unreadable →
  snd (Server.writePatientData stringify fs disk doc) = Thrown
  ∧ readPatientData (fst (Server.writePatientData stringify fs disk doc))
    = Server.readFallback parse (fst (Server.writePatientData stringify fs disk doc)).
Proof.
  intros Hdir Hdata. unfold Server.writePatientData. rewrite Hdir, Hdata. done.
Qed.
End StoreFacts.

(** File texts to run the store on: a text is what it parses to, or
    garbage ([None]). *)
Lemma readPatientData_fallbacks_witness :
  let saved := Server.JObject [ (js "dailyAssessments", Server.JObject []);
                                (js "notes", Server.JString (js "allergic to penicillin")) ] in
  let disk : Server.Disk (option Server.JSON) :=
    {| Server.DATA_FILE := Server.Content None;
       Server.BACKUP_FILE := Server.Content (Some saved) |} in
  Server.readPatientData id disk = Returned saved.
Proof.
  intros saved disk.
  apply (proj2 (proj2 (proj2 (proj2
           (readPatientData_fallbacks (option Server.JSON) id disk))))).
  right. exists None. split; reflexivity.
Defined.

Lemma write_read_round_trip_witness :
  let empty : Server.Disk (option Server.JSON) :=
    {| Server.DATA_FILE := Server.NoFile; Server.BACKUP_FILE := Server.NoFile |} in
  let works : Server.Attempt (option Server.JSON) :=
    {| Server.dirReady := true; Server.backupWrite := Server.Stored true;
       Server.dataWrite := Server.Stored true |} in
  let fails : Server.Attempt (option Server.JSON) :=
    {| Server.dirReady := true; Server.backupWrite := Server.Stored true;
       Server.dataWrite := Server.Rejected Server.Unreadable |} in
  let doc1 := Server.DEFAULT_STATE in
  let doc2 := Server.JObject [ (js "dailyAssessments", Server.JObject []);
                               (js "notes", Server.JString (js "second")) ] in
  (snd (Server.writePatientData Some works empty doc1) = Returned tt
   ∧ Server.readPatientData id (fst (Server.writePatientData Some works empty doc1))
     = Returned doc1)
  ∧ Server.readPatientData id
      {| Server.DATA_FILE := Server.Content None;
         Server.BACKUP_FILE :=
           Server.BACKUP_FILE
             (fst (Server.writePatientData Some fails
                     (fst (Server.writePatientData Some works empty doc1)) doc2)) |}
    = Returned doc1.
Proof.
  intros empty works fails doc1 doc2.
  pose proof (write_read_round_trip (option Server.JSON) id Some
                (λ data, eq_refl) empty) as [Hread Hbackup].
  split.
  - apply Hread; reflexivity.
  - apply (Hbackup works fails doc1 doc2 (Server.Content None)); try reflexivity.
    right. exists None. split; reflexivity.
Defined.

(** C4, as stated, fails for a primary file that holds the empty object
    while the backup holds a document: the read returns the default
    document, not the backup. *)
Lemma shape_failure_skips_backup :
  let saved := Server.JObject [ (js "dailyAssessments", Server.JObject []);
                                (js "notes", Server.JString (js "allergic to penicillin")) ] in
  let disk : Server.Disk (option Server.JSON) :=
    {| Server.DATA_FILE := Server.Content (Some (Server.JObject []));
       Server.BACKUP_FILE := Server.Content (Some saved) |} in
  Server.hasShape (Server.JObject []) = false
  ∧ Server.readFallback id disk = Returned saved
  ∧ Server.readPatientData id disk = Returned Server.DEFAULT_STATE
  ∧ Server.readPatientData id disk ≠ Returned saved.
Proof. cbv zeta. repeat split; try reflexivity. by vm_compute. Qed.

(** ** The debounced auto-save *)

(** The component right after the load has settled. *)
Lemma handle_LoadSettled (loadedAt : N) (data : option PatientState) :
  handle mounted (loadedAt, LoadSettled data) =
  {| currentState := default DEFAULT_STATE data; loaded := true;
     initialLoad := false; saveTimer := None; pushes := [] |}.
Proof. done. Qed.

Lemma elapse_ready (now : N) (c : Component) : ready c → ready (elapse now c).
Proof.
  unfold ready, elapse. intros Hc.
  destruct (saveTimer c) as [[due snapshot] |]; [| done].
  by destruct (due <=? now).
Qed.

(** Once [Ready], always [Ready]. *)
Lemma handle_ready (c : Component) (ev : N * Event) : ready c → ready (handle c ev).
Proof.
  intros Hc. apply (elapse_ready (fst ev)) in Hc. destruct Hc as [Hl Hi].
  unfold handle, autoSaveEffect. destruct (snd ev) as [data | updater]; cbn.
  - by rewrite Hi.
  - by rewrite Hl, Hi.
Qed.

(** The first mutation of a burst: an older timer that is due fires, and
    the new timer is started. *)
Lemma handle_Mutation_ready (c : Component) (ev : N * Event) :
  ready c → isMutation ev →
  pendingSince (fst ev) (pushes (elapse (fst ev) c)) (handle c ev).
Proof.
  intros Hc Hmut. apply (elapse_ready (fst ev)) in Hc. destruct Hc as [Hl Hi].
  destruct ev as [t [data | updater]]; [done |].
  unfold handle, autoSaveEffect. cbn [fst snd] in *. cbn. by rewrite Hl, Hi.
Qed.

(** A further mutation before the timer is due replaces the timer. *)
Lemma handle_Mutation_pending (t : N) (before : list PatientState)
    (c : Component) (ev : N * Event) :
  pendingSince t before c → isMutation ev → fst ev < t + SAVE_DELAY →
  pendingSince (fst ev) before (handle c ev).
Proof.
  intros ([Hl Hi] & Hp & Ht) Hmut Hlt. destruct ev as [t' [data | updater]]; [done |].
  cbn [fst] in *. unfold handle, elapse. cbn [fst snd]. rewrite Ht.
  rewrite (proj2 (N.leb_gt _ _)) by done.
  unfold autoSaveEffect. cbn. by rewrite Hl, Hi.
Qed.

Lemma last_cons_default {A : Type} (x d : A) (l : list A) :
  List.last (x :: l) d = List.last l x.
Proof.
  revert x d. induction l as [| y l IH]; intros x d; [done |].
  change (List.last (y :: l) d = List.last (y :: l) x). by rewrite (IH y d), (IH y x).
Qed.

Lemma run_pending (events : list (N * Event)) (t : N) (before : list PatientState)
    (c : Component) :
  pendingSince t before c → Forall isMutation events → closelySpaced t events →
  pendingSince (lastTime t events) before (run events c).
Proof.
  revert t c. induction events as [| ev events IH]; intros t c Hc Hmut Hsp; [done |].
  apply Forall_cons in Hmut as [Hev Hmut]. destruct Hsp as (_ & Hlt & Hsp).
  unfold run. cbn [fold_left].
  replace (lastTime t (ev :: events)) with (lastTime (fst ev) events).
  - apply IH; [| done | done].
    apply (handle_Mutation_pending t); [assumption | assumption | assumption].
  - unfold lastTime. cbn [fmap list_fmap]. symmetry. apply last_cons_default.
Qed.

(** C6.  The load leaves the component [Ready] and never leads to a push,
    however long one waits.  From any [Ready] component, a burst of
    mutations, each less than the delay after the previous one, adds no
    push while it lasts and until the delay has passed after its last
    mutation; from then on it has added exactly one push, with the state
    as of the last mutation. *)
Theorem debounce_coalesces (c : Component) (first : N * Event)
    (later : list (N * Event)) (now : N) :
  ready c →
  Forall isMutation (first :: later) →
  closelySpaced (fst first) later →
  let final := run (first :: later) c in
  let before := pushes (elapse (fst first) c) in
  let quietFrom := lastTime (fst first) later + SAVE_DELAY in
  (∀ loadedAt data,
     ready (handle mounted (loadedAt, LoadSettled data))
     ∧ pushes (elapse now (handle mounted (loadedAt, LoadSettled data))) = [])
  ∧ pushes final = before
  ∧ (now < quietFrom → pushes (elapse now final) = before)
  ∧ (quietFrom <= now → pushes (elapse now final) = before ++ [currentState final]).
Proof.
  intros Hc Hmut Hsp. cbn zeta.
  apply Forall_cons in Hmut as [Hfirst Hmut].
  split; [intros loadedAt data; by rewrite handle_LoadSettled |].
  assert (Hpending : pendingSince (lastTime (fst first) later)
                       (pushes (elapse (fst first) c)) (run (first :: later) c)).
  { unfold run. cbn [fold_left]. apply run_pending; [| done | done].
    by apply handle_Mutation_ready. }
  destruct Hpending as (_ & Hp & Ht).
  split; [done |]. unfold elapse at 1 3. rewrite Ht. split; intros Hnow.
  - by rewrite (proj2 (N.leb_gt _ _)).
  - rewrite (proj2 (N.leb_le _ _)) by done. cbn [pushes]. by rewrite Hp.
Qed.

Lemma debounce_coalesces_witness :
  let burst := [ (1000, Mutation (setNotes (js "a")));
                 (1300, Mutation (setNotes (js "ab")));
                 (1899, Mutation (setNotes (js "abc"))) ] in
  let afterLoad := handle mounted (0, LoadSettled None) in
  pushes (elapse 2499 afterLoad) = []
  ∧ pushes (elapse 2498 (run burst afterLoad)) = []
  ∧ pushes (elapse 2499 (run burst afterLoad)) = [setNotes (js "abc") DEFAULT_STATE].
Proof.
  intros burst afterLoad.
  pose proof (debounce_coalesces afterLoad (1000, Mutation (setNotes (js "a")))
                [ (1300, Mutation (setNotes (js "ab")));
                  (1899, Mutation (setNotes (js "abc"))) ]) as H.
  split; [| split].
  - apply (H 2499); [by split | repeat constructor | cbn; unfold SAVE_DELAY; lia].
  - apply (H 2498); [by split | repeat constructor | cbn; unfold SAVE_DELAY; lia |].
    cbn. unfold SAVE_DELAY. lia.
  - apply (H 2499); [by split | repeat constructor | cbn; unfold SAVE_DELAY; lia |].
    cbn. unfold SAVE_DELAY. lia.
Defined.

(** ** What the mutations leave alone *)

(** C10.  Each mutation gives the previous state back with one top-level
    field replaced.  [setSeverity] replaces [sideEffectSeverities] and in
    it changes the severity of the given effect on the selected date
    only; [setAssessment] replaces [dailyAssessments] and in it the
    entry of the selected date only; [setJournal] replaces [journal] and
    in it the text of the selected date only; [setNotes] replaces
    [notes]; [toggleTheme] replaces [theme]. *)
Theorem mutations_frame (state : PatientState) (selectedDate : jsstring)
    (prev : PatientState) :
  (∀ effect val,
     let next := setSeverity selectedDate effect val prev in
     sameExceptSideEffectSeverities next prev
     ∧ severityOf next selectedDate effect = Some val
     ∧ ∀ date other, (date, other) ≠ (selectedDate, effect) →
                     severityOf next date other = severityOf prev date other)
  ∧ (∀ key val,
       let next := setAssessment state selectedDate key val prev in
       sameExceptDailyAssessments next prev
       ∧ ∀ date, date ≠ selectedDate →
                 dailyAssessments next !! date = dailyAssessments prev !! date)
  ∧ (∀ val,
       let next := setJournal selectedDate val prev in
       sameExceptJournal next prev
       ∧ ∀ date, date ≠ selectedDate → journal next !! date = journal prev !! date)
  ∧ (∀ val, sameExceptNotes (setNotes val prev) prev)
  ∧ sameExceptTheme (toggleTheme state prev) prev.
Proof.
  repeat split; try done.
  - unfold severityOf. cbn. by rewrite lookup_insert_eq; cbn; rewrite lookup_insert_eq.
  - intros date other Hne. unfold severityOf. cbn.
    destruct (decide (date = selectedDate)) as [-> | Hdate].
    + rewrite lookup_insert_eq. cbn.
      rewrite lookup_insert_ne by congruence.
      by destruct (sideEffectSeverities prev !! selectedDate).
    + by rewrite lookup_insert_ne.
  - intros date Hdate. cbn. by rewrite lookup_insert_ne.
  - intros date Hdate. cbn. by rewrite lookup_insert_ne.
Qed.

(* ================================================================== *)
(** * Part III: further properties of the code                         *)
(* ================================================================== *)

(** ** The aggregated view *)

Lemma sampleView_computed :
  allSideEffects codeUnitCompare sampleMedications (js "2026-06-01") = Some sampleView.
Proof. vm_compute. reflexivity. Qed.

(** X1.  No effect name has two pairs in the view. *)
Theorem view_names_distinct (localeCompare : jsstring → jsstring → Z)
    (medications : list Medication) (selectedDate : jsstring)
    (out : list (jsstring * Entry)) :
  allSideEffects localeCompare medications selectedDate = Some out →
  NoDup out.*1.
Proof. apply allSideEffects_NoDup. Qed.

Lemma view_names_distinct_witness : NoDup sampleView.*1.
Proof.
  apply (view_names_distinct codeUnitCompare sampleMedications (js "2026-06-01")).
  apply sampleView_computed.
Defined.

(** X2.  The entry of a name holds the names of the medications of the
    records of that name among the active medications, in the order the
    loops meet them, and its count is their number; the name is neither
    empty nor "undefined". *)
Theorem view_entry_counts_listings (localeCompare : jsstring → jsstring → Z)
    (medications : list Medication) (selectedDate : jsstring)
    (out : list (jsstring * Entry)) (name : jsstring) (e : Entry) :
  allSideEffects localeCompare medications selectedDate = Some out →
  (name, e) ∈ out →
  meds e = (listingsOf name (activeMeds medications selectedDate)).*1
  ∧ count e = N.of_nat (length (meds e))
  ∧ 1 <= count e
  ∧ name ≠ [] ∧ name ≠ js "undefined".
Proof.
  intros Hout Hin.
  destruct (allSideEffects_entry _ _ _ _ _ _ Hout Hin) as (Hcount & Hmeds & Hne).
  split; [done |]. split; [by rewrite Hmeds, length_fmap |].
  split.
  { rewrite Hcount. destruct (listingsOf _ _); [done | cbn; lia]. }
  assert (Hskip : skipped name = false).
  { unfold listingsOf, matching in Hne.
    destruct (skipped name) eqn:Hs; [| done]. destruct Hne.
    induction (listings _) as [| r l IH]; [done |].
    cbn. by rewrite andb_false_r. }
  unfold skipped in Hskip. apply orb_false_iff in Hskip as [Ht Hu].
  split.
  - intros ->. done.
  - intros ->. by vm_compute in Hu.
Qed.

Lemma view_entry_counts_listings_witness :
  let e := {| meds := [js "Sertraline"; js "Lisinopril"]; count := 2;
              description := js "Pain or pressure in the head." |} in
  meds e = (listingsOf (js "Headache") (activeMeds sampleMedications (js "2026-06-01"))).*1
  ∧ count e = N.of_nat (length (meds e))
  ∧ 1 <= count e
  ∧ js "Headache" ≠ [] ∧ js "Headache" ≠ js "undefined".
Proof.
  intros e.
  apply (view_entry_counts_listings codeUnitCompare sampleMedications
           (js "2026-06-01") sampleView).
  - apply sampleView_computed.
  - by left.
Defined.

(** X3.  When no active medication has two records of one name, the count
    of every pair is the number of active medications that list its
    name. *)
Theorem view_count_is_medications (localeCompare : jsstring → jsstring → Z)
    (medications : list Medication) (selectedDate : jsstring)
    (out : list (jsstring * Entry)) (name : jsstring) (e : Entry) :
  Forall (λ m, NoDup (effectName <$> sideEffects m)) (activeMeds medications selectedDate) →
  allSideEffects localeCompare medications selectedDate = Some out →
  (name, e) ∈ out →
  count e = N.of_nat (length (medicationsListing name (activeMeds medications selectedDate))).
Proof. apply allSideEffects_count_medications. Qed.

Lemma view_count_is_medications_witness :
  2 = N.of_nat (length (medicationsListing (js "Headache")
                          (activeMeds sampleMedications (js "2026-06-01")))).
Proof.
  apply (view_count_is_medications codeUnitCompare sampleMedications
           (js "2026-06-01") sampleView (js "Headache")
           {| meds := [js "Sertraline"; js "Lisinopril"]; count := 2;
              description := js "Pain or pressure in the head." |}).
  - apply (bool_decide_unpack _). vm_compute. reflexivity.
  - apply sampleView_computed.
  - by left.
Defined.



(** X5.  The aggregation completes exactly when no record of an active
    medication that it counts is named like a member of
    [Object.prototype]; otherwise it throws. *)
Theorem view_produced_iff (localeCompare : jsstring → jsstring → Z)
    (medications : list Medication) (selectedDate : jsstring) :
  is_Some (allSideEffects localeCompare medications selectedDate)
  ↔ ∀ r, r ∈ listings (activeMeds medications selectedDate) →
         skipped (effectName (snd r)) = false →
         inheritedKey (effectName (snd r)) = false.
Proof.
  split.
  - intros [out Hout] r Hr Hskip.
    destruct (inheritedKey (effectName r.2)) eqn:Hinh; [| done].
    rewrite (allSideEffects_throws localeCompare medications selectedDate r) in Hout; done.
  - apply allSideEffects_completes.
Qed.

Lemma tally_description (name : jsstring) (recs : list (jsstring * SideEffect))
    (e0 e : Entry) :
  tally name recs (Some e0) = Some e →
  (length (description e0) ≤ length (description e))%nat
  ∧ (∀ r, r ∈ matching name recs →
          (length (effectDescription r.2) ≤ length (description e))%nat)
  ∧ (description e = description e0
     ∨ ∃ r, r ∈ matching name recs ∧ description e = effectDescription r.2).
Proof.
  revert e0. induction recs as [| r recs IH]; intros e0.
  - intros [= <-]. split; [done |]. split; [| by left].
    by intros r ?%elem_of_nil.
  - unfold tally, matching. cbn [foldl List.filter]. unfold tallyStep at 2.
    destruct (bool_decide (effectName r.2 = name) && negb (skipped name)).
    + cbn [default]. intros Hrun. apply IH in Hrun as (Hle & Hall & Hfrom).
      fold (matching name recs) in *. unfold id in *.
      set (d := effectDescription r.2) in *.
      assert (Hstep : (length (description e0) ≤ length (description (contribute r.1 d e0)))%nat
                      ∧ (length d ≤ length (description (contribute r.1 d e0)))%nat
                      ∧ (description (contribute r.1 d e0) = description e0
                         ∨ description (contribute r.1 d e0) = d)).
      { cbn [contribute description].
        destruct (truthy d) eqn:Ht; cbn [andb].
        - destruct (length (description e0) <? length d)%nat eqn:Hlt.
          + apply Nat.ltb_lt in Hlt. split; [lia |]. split; [lia | by right].
          + apply Nat.ltb_ge in Hlt. split; [lia |]. split; [lia | by left].
        - destruct d; [| done]. cbn. split; [lia |]. split; [lia | by left]. }
      destruct Hstep as (H0 & Hd & Hone).
      split; [lia |]. split.
      * intros r' [-> | Hin]%elem_of_cons; [fold d; lia | by apply Hall].
      * destruct Hfrom as [Heq | (r' & Hin & Heq)].
        -- rewrite Heq. destruct Hone as [-> | Hone]; [by left |].
           right. exists r. split; [by left | done].
        -- right. exists r'. split; [by right | done].
    + apply IH.
Qed.

(** X6.  The description of a pair is a description of one of the counted
    records of its name, and no such record has a longer one. *)
Theorem view_keeps_longest_description (localeCompare : jsstring → jsstring → Z)
    (medications : list Medication) (selectedDate : jsstring)
    (out : list (jsstring * Entry)) (name : jsstring) (e : Entry) :
  allSideEffects localeCompare medications selectedDate = Some out →
  (name, e) ∈ out →
  (∃ r, r ∈ listingsOf name (activeMeds medications selectedDate)
        ∧ description e = effectDescription (snd r))
  ∧ ∀ r, r ∈ listingsOf name (activeMeds medications selectedDate) →
         (length (effectDescription (snd r)) ≤ length (description e))%nat.
Proof.
  intros (map & Hagg & Hperm)%allSideEffects_Permutation Hin.
  apply aggregate_spec in Hagg as (Hnd & _ & Hget).
  rewrite Hperm in Hin. apply assocGet_elem_of in Hin; [| done].
  rewrite Hget in Hin. clear Hget Hperm Hnd map out.
  unfold listingsOf. revert Hin.
  induction (listings (activeMeds medications selectedDate)) as [| r recs IH]; [done |].
  unfold tally, matching. cbn [foldl List.filter]. unfold tallyStep at 2.
  destruct (bool_decide (effectName r.2 = name) && negb (skipped name)); [| apply IH].
  cbn [default]. intros (Hle & Hall & Hfrom)%tally_description.
  fold (matching name recs) in *.
  assert (Hd : description (contribute r.1 (effectDescription r.2)
                 {| meds := []; count := 0; description := effectDescription r.2 |})
               = effectDescription r.2).
  { cbn [contribute description]. rewrite Nat.ltb_irrefl. by rewrite andb_false_r. }
  rewrite Hd in Hle, Hfrom. split.
  - destruct Hfrom as [Heq | (r' & Hr' & Heq)].
    + exists r. split; [by left | done].
    + exists r'. split; [by right | done].
  - intros r' [-> | Hr']%elem_of_cons; [done | by apply Hall].
Qed.

Lemma view_keeps_longest_description_witness :
  let e := {| meds := [js "Sertraline"; js "Lisinopril"]; count := 2;
              description := js "Pain or pressure in the head." |} in
  (∃ r, r ∈ listingsOf (js "Headache") (activeMeds sampleMedications (js "2026-06-01"))
        ∧ description e = effectDescription (snd r))
  ∧ ∀ r, r ∈ listingsOf (js "Headache") (activeMeds sampleMedications (js "2026-06-01")) →
         (length (effectDescription (snd r)) ≤ length (description e))%nat.
Proof.
  intros e.
  apply (view_keeps_longest_description codeUnitCompare sampleMedications
           (js "2026-06-01") sampleView).
  - apply sampleView_computed.
  - by left.
Defined.

(** X7.  A medication that is not active on the selected date changes
    nothing in the view of that date. *)
Theorem view_ignores_inactive (localeCompare : jsstring → jsstring → Z)
    (before after : list Medication) (m : Medication) (selectedDate : jsstring) :
  isActive selectedDate m = false →
  allSideEffects localeCompare (before ++ m :: after) selectedDate
  = allSideEffects localeCompare (before ++ after) selectedDate.
Proof.
  intros Hm. unfold allSideEffects, activeMeds.
  rewrite !List.filter_app. cbn [List.filter]. by rewrite Hm.
Qed.

Lemma view_ignores_inactive_witness :
  allSideEffects codeUnitCompare sampleMedications (js "2026-06-01")
  = allSideEffects codeUnitCompare
      [ {| medId := js "1"; medName := js "Sertraline"; dosage := js "50mg";
           startDate := js "2026-01-01"; endDate := [];
           sideEffects := [Structured (js "Nausea") (js "A queasy feeling.");
                           Legacy (js "Headache")] |};
        {| medId := js "3"; medName := js "Lisinopril"; dosage := [];
           startDate := js "2026-02-01"; endDate := js "2026-12-31";
           sideEffects := [Structured (js "Headache") (js "Pain or pressure in the head.");
                           Legacy (js "Cough")] |} ]
      (js "2026-06-01").
Proof.
  apply (view_ignores_inactive codeUnitCompare
           [ {| medId := js "1"; medName := js "Sertraline"; dosage := js "50mg";
                startDate := js "2026-01-01"; endDate := [];
                sideEffects := [Structured (js "Nausea") (js "A queasy feeling.");
                                Legacy (js "Headache")] |} ]
           [ {| medId := js "3"; medName := js "Lisinopril"; dosage := [];
                startDate := js "2026-02-01"; endDate := js "2026-12-31";
                sideEffects := [Structured (js "Headache") (js "Pain or pressure in the head.");
                                Legacy (js "Cough")] |} ]
           {| medId := js "2"; medName := js "Ibuprofen"; dosage := [];
              startDate := js "2026-01-01"; endDate := js "2026-03-01";
              sideEffects := [Legacy (js "Rash")] |}
           (js "2026-06-01")).
  reflexivity.
Defined.

Lemma filter_sublist_weaken {A : Type} (f g : A → bool) (l : list A) :
  (∀ x, f x = true → g x = true) → sublist (List.filter f l) (List.filter g l).
Proof.
  intros Hfg. induction l as [| x l IH]; [constructor |].
  cbn [List.filter]. destruct (f x) eqn:Hf.
  - rewrite (Hfg x Hf). by constructor.
  - destruct (g x); [by constructor | done].
Qed.

(** X8.  Moving the selected date forward never makes a medication
    active: the active medications of a later date are among those of an
    earlier one, in the same order. *)
Theorem activeMeds_later_date (medications : list Medication)
    (earlier later : jsstring) :
  strGe later earlier = true →
  sublist (activeMeds medications later) (activeMeds medications earlier).
Proof.
  intros Hge. apply filter_sublist_weaken. intros m.
  unfold isActive, strGe in *. destruct (truthy (endDate m)); [| done].
  cbn [negb orb]. rewrite !negb_true_iff in *.
  intros Hlate. by apply (strLt_not_trans earlier later).
Qed.

Lemma activeMeds_later_date_witness :
  sublist (activeMeds sampleMedications (js "2026-06-01"))
          (activeMeds sampleMedications (js "2026-02-15")).
Proof.
  apply (activeMeds_later_date sampleMedications (js "2026-02-15") (js "2026-06-01")).
  reflexivity.
Defined.


(** ** The medications tab *)

(** X9.  The tab's two lists split the medications, and a medication
    shown as currently taken is active on every selected date. *)
Theorem tab_active_always_active (medications : list Medication) (selectedDate : jsstring) :
  Permutation (MedicationsTab.active medications ++ MedicationsTab.past medications)
    medications
  ∧ sublist (MedicationsTab.active medications) (activeMeds medications selectedDate).
Proof.
  split.
  - unfold MedicationsTab.active, MedicationsTab.past.
    induction medications as [| m l IH]; [done |].
    cbn [List.filter]. destruct (truthy (endDate m)); cbn [negb app].
    + by rewrite <- Permutation_middle, IH.
    + by rewrite IH.
  - apply filter_sublist_weaken. intros m Hm. unfold isActive. by rewrite Hm.
Qed.

(** X10.  With distinct ids, removing a medication by its id takes out
    that one medication and leaves the others as they were, in order. *)
Theorem removeMed_unique_id (before after : list Medication) (m : Medication) :
  NoDup (medId <$> (before ++ m :: after)) →
  MedicationsTab.removeMed (before ++ m :: after) (medId m) = before ++ after.
Proof.
  intros Hnd. unfold MedicationsTab.removeMed.
  rewrite fmap_app, fmap_cons in Hnd.
  apply NoDup_app in Hnd as (_ & Hout & Hin%NoDup_cons).
  destruct Hin as [Hin _].
  assert (Hkeep : ∀ l, medId m ∉ medId <$> l →
                       List.filter (λ m0, negb (bool_decide (medId m0 = medId m))) l = l).
  { induction l as [| x l IH]; [done |]. rewrite fmap_cons, not_elem_of_cons.
    intros [Hx Hl]. cbn [List.filter].
    rewrite bool_decide_eq_false_2 by congruence. cbn [negb]. by rewrite IH. }
  rewrite List.filter_app. cbn [List.filter].
  rewrite bool_decide_eq_true_2 by done. cbn [negb].
  rewrite !Hkeep; [done | done |].
  intros Hm. apply (Hout (medId m)); [done | by left].
Qed.

Lemma removeMed_unique_id_witness :
  MedicationsTab.removeMed sampleMedications (js "2")
  = [ {| medId := js "1"; medName := js "Sertraline"; dosage := js "50mg";
         startDate := js "2026-01-01"; endDate := [];
         sideEffects := [Structured (js "Nausea") (js "A queasy feeling.");
                         Legacy (js "Headache")] |};
      {| medId := js "3"; medName := js "Lisinopril"; dosage := [];
         startDate := js "2026-02-01"; endDate := js "2026-12-31";
         sideEffects := [Structured (js "Headache") (js "Pain or pressure in the head.");
                         Legacy (js "Cough")] |} ].
Proof.
  apply (removeMed_unique_id
           [ {| medId := js "1"; medName := js "Sertraline"; dosage := js "50mg";
                startDate := js "2026-01-01"; endDate := [];
                sideEffects := [Structured (js "Nausea") (js "A queasy feeling.");
                                Legacy (js "Headache")] |} ]
           [ {| medId := js "3"; medName := js "Lisinopril"; dosage := [];
                startDate := js "2026-02-01"; endDate := js "2026-12-31";
                sideEffects := [Structured (js "Headache") (js "Pain or pressure in the head.");
                                Legacy (js "Cough")] |} ]
           {| medId := js "2"; medName := js "Ibuprofen"; dosage := [];
              startDate := js "2026-01-01"; endDate := js "2026-03-01";
              sideEffects := [Legacy (js "Rash")] |}).
  apply (bool_decide_unpack _). vm_compute. reflexivity.
Defined.

Lemma strLt_irrefl (a : jsstring) : strLt a a = false.
Proof. induction a as [| x a IH]; [done |]. cbn. by rewrite N.eqb_refl. Qed.

(** X11.  A medication ended with today's date moves to the tab's past
    list, is still active when today is the selected date, and is not
    active on any later date. *)
Theorem onEnd_today (medications : list Medication) (med m : Medication)
    (today : jsstring) :
  truthy today = true →
  m ∈ medications →
  medId m = medId med →
  let ended := {| medId := medId m; medName := medName m; dosage := dosage m;
                  startDate := startDate m; endDate := today;
                  sideEffects := sideEffects m |} in
  let medications' := MedicationsTab.onEnd medications med today in
  ended ∈ MedicationsTab.past medications'
  ∧ (ended ∉ MedicationsTab.active medications')
  ∧ ended ∈ activeMeds medications' today
  ∧ (∀ selectedDate, strLt today selectedDate = true →
                     ended ∉ activeMeds medications' selectedDate).
Proof.
  intros Ht Hm Hid ended medications'.
  assert (Hin : ended ∈ medications').
  { unfold medications', MedicationsTab.onEnd, MedicationsTab.updateMed.
    apply list_elem_of_fmap. exists m. split; [| done].
    by rewrite bool_decide_eq_true_2. }
  unfold MedicationsTab.past, MedicationsTab.active, activeMeds.
  rewrite !list_elem_of_In, !filter_In, <- !list_elem_of_In.
  unfold isActive, strGe. cbn [endDate ended]. rewrite Ht, strLt_irrefl.
  split; [done |]. split; [by intros [_ ?] |]. split; [done |].
  intros D HD. rewrite list_elem_of_In, filter_In.
  unfold isActive, strGe. cbn [endDate ended]. rewrite Ht, HD. by intros [_ ?].
Qed.

Lemma onEnd_today_witness :
  let ended := {| medId := js "1"; medName := js "Sertraline"; dosage := js "50mg";
                  startDate := js "2026-01-01"; endDate := js "2026-06-01";
                  sideEffects := [Structured (js "Nausea") (js "A queasy feeling.");
                                  Legacy (js "Headache")] |} in
  let medications' :=
    MedicationsTab.onEnd sampleMedications
      {| medId := js "1"; medName := js "Sertraline"; dosage := js "50mg";
         startDate := js "2026-01-01"; endDate := [];
         sideEffects := [Structured (js "Nausea") (js "A queasy feeling.");
                         Legacy (js "Headache")] |}
      (js "2026-06-01") in
  ended ∈ MedicationsTab.past medications'
  ∧ (ended ∉ MedicationsTab.active medications')
  ∧ ended ∈ activeMeds medications' (js "2026-06-01")
  ∧ (∀ selectedDate, strLt (js "2026-06-01") selectedDate = true →
                     ended ∉ activeMeds medications' selectedDate).
Proof.
  apply (onEnd_today sampleMedications
           {| medId := js "1"; medName := js "Sertraline"; dosage := js "50mg";
              startDate := js "2026-01-01"; endDate := [];
              sideEffects := [Structured (js "Nausea") (js "A queasy feeling.");
                              Legacy (js "Headache")] |}
           {| medId := js "1"; medName := js "Sertraline"; dosage := js "50mg";
              startDate := js "2026-01-01"; endDate := [];
              sideEffects := [Structured (js "Nausea") (js "A queasy feeling.");
                              Legacy (js "Headache")] |}
           (js "2026-06-01")).
  - reflexivity.
  - by left.
  - reflexivity.
Defined.

(** ** The resolver *)

Section ResolverMore.
Variable proxySideEffects : jsstring → option (list SideEffect).
Variable reportedTerms : jsstring → option (list jsstring).

(** X12.  When the three network tiers fail for a name whose key, in
    neither form, names a member of [Object.prototype], the result is
    read off the fallback table: the terms under the key of the name,
    else those under the key of the simplified name, each title-cased and
    given its description, else the one sentinel record. *)
Theorem fetchSideEffects_fallback (medName : jsstring) :
  tiersFail proxySideEffects reportedTerms medName →
  inheritedKey (fallbackKey medName) = false →
  inheritedKey (fallbackKey (simplifiedName medName)) = false →
  fetchSideEffects proxySideEffects reportedTerms medName
  = Returned
      match assocGet FALLBACK_SIDE_EFFECTS (fallbackKey medName) with
      | Some terms => normalized <$> terms
      | None =>
          match assocGet FALLBACK_SIDE_EFFECTS (fallbackKey (simplifiedName medName)) with
          | Some terms => normalized <$> terms
          | None => [noDataFound medName]
          end
      end.
Proof.
  intros Hfail H1 H2.
  destruct (assocGet FALLBACK_SIDE_EFFECTS (fallbackKey medName)) as [terms |] eqn:Hk1.
  { by apply fetchSideEffects_table. }
  destruct (assocGet FALLBACK_SIDE_EFFECTS (fallbackKey (simplifiedName medName)))
    as [terms |] eqn:Hk2.
  { by apply fetchSideEffects_table_simplified. }
  apply fetchSideEffects_sentinel; [done | |]; unfold jsGet.
  - by rewrite Hk1, H1.
  - by rewrite Hk2, H2.
Qed.

(** X13.  Whatever the network answers, [fetchSideEffects] returns a
    list, and does not throw, for a name whose key, in neither form,
    names a member of [Object.prototype]. *)
Theorem fetchSideEffects_returns (medName : jsstring) :
  inheritedKey (fallbackKey medName) = false →
  inheritedKey (fallbackKey (simplifiedName medName)) = false →
  ∃ effects, fetchSideEffects proxySideEffects reportedTerms medName = Returned effects.
Proof.
  intros H1 H2. unfold fetchSideEffects.
  destruct (proxyTier _ _); [eauto |].
  destruct (fetchSideEffectsFromFDA _ medName); [eauto |].
  cbv zeta.
  destruct (if decide (simplifiedName medName = medName) then Thrown
            else fetchSideEffectsFromFDA reportedTerms (simplifiedName medName));
    [eauto |].
  unfold buildFromFallback, jsGet.
  fold (fallbackKey medName). fold (fallbackKey (simplifiedName medName)).
  rewrite H1, H2.
  destruct (assocGet _ (fallbackKey medName)); [eauto |].
  destruct (assocGet _ (fallbackKey (simplifiedName medName))); eauto.
Qed.

(** X14.  When the proxy gives nothing and the reporting service knows
    the name but reports excluded terms only, the result is the empty
    list: the later tiers and the sentinel are not reached. *)
Theorem fetchSideEffects_empty_list (medName : jsstring) (results : list jsstring) :
  proxyTier proxySideEffects medName = None →
  reportedTerms medName = Some results →
  results ≠ [] →
  Forall (λ term, toLowerCase term ∈ EXCLUDED_TERMS) results →
  fetchSideEffects proxySideEffects reportedTerms medName = Returned [].
Proof.
  intros Hproxy Hterms Hne Hall. unfold fetchSideEffects, fetchSideEffectsFromFDA.
  rewrite Hproxy, Hterms. destruct results as [| t results]; [done |].
  f_equal. unfold fromReportedTerms.
  assert (Hnone : List.filter (λ term, negb (bool_decide (term ∈ EXCLUDED_TERMS)))
                    (toLowerCase <$> t :: results) = []).
  { clear Hterms Hne. induction Hall as [| x l Hx _ IH]; [done |].
    rewrite fmap_cons. cbn [List.filter].
    rewrite bool_decide_eq_true_2 by done. apply IH. }
  by rewrite Hnone.
Qed.
End ResolverMore.

Lemma fetchSideEffects_fallback_witness :
  fetchSideEffects (λ _, None) (λ _, None) (js "Metoprolol ER")
  = Returned
      match assocGet FALLBACK_SIDE_EFFECTS (fallbackKey (js "Metoprolol ER")) with
      | Some terms => normalized <$> terms
      | None =>
          match assocGet FALLBACK_SIDE_EFFECTS
                  (fallbackKey (simplifiedName (js "Metoprolol ER"))) with
          | Some terms => normalized <$> terms
          | None => [noDataFound (js "Metoprolol ER")]
          end
      end.
Proof.
  apply (fetchSideEffects_fallback (λ _, None) (λ _, None) (js "Metoprolol ER")).
  - split; [reflexivity |]. split; [reflexivity |]. right. reflexivity.
  - reflexivity.
  - reflexivity.
Defined.

Lemma fetchSideEffects_returns_witness :
  ∃ effects,
    fetchSideEffects (λ _, None) (λ name, if decide (name = js "aspirin")
                                          then Some [js "NAUSEA"] else None)
      (js "Aspirin HCl")
    = Returned effects.
Proof.
  apply (fetchSideEffects_returns (λ _, None)
           (λ name, if decide (name = js "aspirin") then Some [js "NAUSEA"] else None)
           (js "Aspirin HCl")); reflexivity.
Defined.

Lemma fetchSideEffects_empty_list_witness :
  fetchSideEffects (λ _, None) (λ _, Some [js "DEATH"; js "Off Label Use"])
    (js "sertraline")
  = Returned [].
Proof.
  apply (fetchSideEffects_empty_list (λ _, None)
           (λ _, Some [js "DEATH"; js "Off Label Use"]) (js "sertraline")
           [js "DEATH"; js "Off Label Use"]).
  - reflexivity.
  - reflexivity.
  - discriminate.
  - apply (bool_decide_unpack _). vm_compute. reflexivity.
Defined.

Lemma fromReportedTerms_length (descriptions : list (jsstring * jsstring))
    (results : list jsstring) :
  (length (fromReportedTerms descriptions results) ≤ 12)%nat.
Proof. unfold fromReportedTerms. rewrite length_fmap, length_take. lia. Qed.

(** X15.  What is made of a response of the reporting service: at most
    twelve records, and no more than it has terms; each is named by the
    title-cased form of a reported term that, in lower case, is not an
    excluded one. *)
Theorem fromReportedTerms_bounds (descriptions : list (jsstring * jsstring))
    (results : list jsstring) :
  (length (fromReportedTerms descriptions results) ≤ 12)%nat
  ∧ (length (fromReportedTerms descriptions results) ≤ length results)%nat
  ∧ ∀ r, r ∈ fromReportedTerms descriptions results →
         ∃ term, term ∈ results
                 ∧ (toLowerCase term ∉ EXCLUDED_TERMS)
                 ∧ seName r = toTitleCase (toLowerCase term).
Proof.
  split; [apply fromReportedTerms_length |].
  unfold fromReportedTerms. rewrite length_fmap, length_take. split.
  - pose proof (List.filter_length_le
                  (λ term, negb (bool_decide (term ∈ EXCLUDED_TERMS)))
                  (toLowerCase <$> results)) as Hle.
    rewrite length_fmap in Hle. lia.
  - intros r (t & -> & Ht)%list_elem_of_fmap.
    apply subseteq_take, list_elem_of_In, filter_In in Ht as [Ht Hkeep].
    apply list_elem_of_In, list_elem_of_fmap in Ht as (term & -> & Hterm).
    exists term. split; [done |]. split; [| done].
    apply negb_true_iff in Hkeep. by apply bool_decide_eq_false in Hkeep.
Qed.

(** ** The side-effect route of the server, continued *)

Lemma dropSpaces_nil (s : jsstring) :
  dropSpaces s = [] ↔ Forall (λ c, isSpace c = true) s.
Proof.
  induction s as [| c s IH]; [done |]. cbn [dropSpaces].
  destruct (isSpace c) eqn:Hc.
  - rewrite IH. split; [by constructor | by inversion 1].
  - split; [done |]. inversion 1. congruence.
Qed.

Lemma trim_nil (s : jsstring) : trim s = [] ↔ Forall (λ c, isSpace c = true) s.
Proof.
  unfold trim, trimEnd, trimStart. rewrite <- dropSpaces_nil. split.
  - intros H. apply (f_equal (@rev N)) in H. rewrite rev_involutive in H. cbn in H.
    apply dropSpaces_nil, Forall_rev in H. rewrite rev_involutive in H.
    destruct (dropSpaces s) as [| c r] eqn:Hd; [done |].
    exfalso. clear -Hd H. apply Forall_inv in H.
    induction s as [| x s IH]; [done |]. cbn in Hd.
    destruct (isSpace x) eqn:Hx; [by apply IH |]. congruence.
  - by intros ->.
Qed.

Lemma dropSpaces_noLeadingSpace (s : jsstring) : noLeadingSpace (dropSpaces s).
Proof.
  induction s as [| c s IH]; [done |]. cbn [dropSpaces].
  by destruct (isSpace c) eqn:Hc.
Qed.

Lemma dropSpaces_id (s : jsstring) : noLeadingSpace s → dropSpaces s = s.
Proof. destruct s as [| c s]; [done |]. cbn. by intros ->. Qed.

Lemma dropSpaces_suffix (s : jsstring) : ∃ spaces, s = spaces ++ dropSpaces s.
Proof.
  induction s as [| c s [sp IH]]; [by exists [] |]. cbn [dropSpaces].
  destruct (isSpace c).
  - exists (c :: sp). cbn. by rewrite <- IH.
  - by exists [].
Qed.

Lemma trimEnd_noLeadingSpace (s : jsstring) :
  noLeadingSpace s → noLeadingSpace (trimEnd s).
Proof.
  unfold trimEnd. intros Hs.
  destruct (dropSpaces_suffix (rev s)) as [sp Hsp].
  apply (f_equal (@rev N)) in Hsp. rewrite rev_involutive, rev_app_distr in Hsp.
  destruct (rev (dropSpaces (rev s))) as [| c r]; [done |].
  rewrite Hsp in Hs. done.
Qed.

Lemma trim_trim (s : jsstring) : trim (trim s) = trim s.
Proof.
  unfold trim at 1. unfold trimStart.
  rewrite dropSpaces_id.
  - unfold trim, trimEnd, trimStart. rewrite rev_involutive.
    by rewrite (dropSpaces_id (dropSpaces _)) by apply dropSpaces_noLeadingSpace.
  - apply trimEnd_noLeadingSpace, dropSpaces_noLeadingSpace.
Qed.

(** X16.  The route answers 400 exactly when the body is there and the
    medication is missing, is not a string, or has no code unit that is
    not white space; it throws, before any answer of its own, exactly
    when the body is undefined. *)
Theorem postSideEffects_400_iff (reportedTerms : jsstring → option (list jsstring))
    (medication : Server.BodyField) :
  (Server.postSideEffects reportedTerms medication = Server.Status400
   ↔ match medication with
     | Server.NoBody => False
     | Server.Missing | Server.NotAString => True
     | Server.Str s => Forall (λ c, isSpace c = true) s
     end)
  ∧ (Server.postSideEffects reportedTerms medication = Server.HandlerThrows
     ↔ medication = Server.NoBody).
Proof.
  destruct medication as [| | | s]; [done | done | done |].
  rewrite <- trim_nil. unfold Server.postSideEffects.
  destruct (trim s) as [| c t] eqn:Ht.
  - cbn [truthy negb]. by rewrite orb_true_r.
  - assert (Hs : truthy s = true) by (by destruct s).
    rewrite Hs. cbn [truthy negb orb].
    destruct (Server.queryFDA _ _); [done |].
    cbv zeta. by destruct (if decide _ then _ else _).
Qed.

(** X17.  White space around the medication name changes nothing in the
    answer of the route. *)
Theorem postSideEffects_ignores_outer_space
    (reportedTerms : jsstring → option (list jsstring)) (s : jsstring) :
  Server.postSideEffects reportedTerms (Server.Str s)
  = Server.postSideEffects reportedTerms (Server.Str (trim s)).
Proof.
  unfold Server.postSideEffects. rewrite trim_trim.
  destruct (trim s) as [| c t] eqn:Ht.
  - cbn [truthy negb]. by rewrite orb_true_r.
  - destruct s as [| c0 s0]; [done |]. done.
Qed.

(** X18.  A 200 answer of the route carries at most twelve records. *)
Theorem postSideEffects_at_most_twelve
    (reportedTerms : jsstring → option (list jsstring))
    (medication : Server.BodyField) (effects : list SideEffectRecord) :
  Server.postSideEffects reportedTerms medication = Server.Status200 effects →
  (length effects ≤ 12)%nat.
Proof.
  assert (Hq : ∀ name l, Server.queryFDA reportedTerms name = Returned l →
                         (length l ≤ 12)%nat).
  { intros name l. unfold Server.queryFDA.
    destruct (reportedTerms name) as [[| t results] |]; [done | | done].
    intros [= <-]. apply fromReportedTerms_length. }
  destruct medication as [| | | s]; [done | done | done |].
  unfold Server.postSideEffects.
  destruct (negb (truthy s) || negb (truthy (trim s))); [done |]. cbv zeta.
  destruct (Server.queryFDA _ (trim s)) as [l |] eqn:H1.
  { intros [= <-]. by eapply Hq. }
  destruct (decide _).
  { intros [= <-]. cbn. lia. }
  destruct (Server.queryFDA _ (simplifiedName _)) as [l |] eqn:H2.
  - intros [= <-]. by eapply Hq.
  - intros [= <-]. cbn. lia.
Qed.

Lemma postSideEffects_at_most_twelve_witness :
  (length [ {| seName := js "Nausea";
               seDescription :=
                 Text (js "A queasy feeling in the stomach that may cause an urge to vomit.") |} ]
   ≤ 12)%nat.
Proof.
  apply (postSideEffects_at_most_twelve (λ _, Some [js "NAUSEA"; js "DEATH"])
           (Server.Str (js " aspirin "))).
  reflexivity.
Defined.

(** ** The middleware chain and the routes of the server *)

Section RouteFacts.
Variable FileText : Type.
Variable parse : FileText → option Server.JSON.
Variable stringify : Server.JSON → FileText.
Variable API_KEY : jsstring.
Variable reportedTerms : jsstring → option (list jsstring).

Abbreviation serve := (Api.serve parse stringify API_KEY reportedTerms).
Abbreviation app := (Api.app parse stringify API_KEY reportedTerms).

Lemma putData_object (fs : Server.Attempt FileText) (disk : Server.Disk FileText)
    (body : Server.JSON) :
  isObject body = true →
  Api.putData stringify fs disk (Some body)
  = (fst (Server.writePatientData stringify fs disk body),
     match snd (Server.writePatientData stringify fs disk body) with
     | Returned _ => Api.SavedReply
     | Thrown => Api.ServerError
     end).
Proof.
  intros Hbody. unfold Api.putData.
  destruct body; try done;
    by destruct (Server.writePatientData _ _ _ _) as [disk' [[] |]].
Qed.

Lemma putData_other (fs : Server.Attempt FileText) (disk : Server.Disk FileText)
    (body : option Server.JSON) :
  (∀ data, body = Some data → isObject data = false) →
  Api.putData stringify fs disk body = (disk, Api.BadRequest).
Proof.
  intros Hbody. unfold Api.putData. destruct body as [[] |]; try done.
  - by specialize (Hbody _ eq_refl).
  - by specialize (Hbody _ eq_refl).
Qed.

(** X19.  A request is answered 403 exactly when [cors] and
    [express.json] have passed it on to the key check of [/api] and its
    key is not the server's: no route answers 403 itself, and a request
    that one of the two ends, or whose path is outside [/api], is not
    answered 403 whatever its key. *)
Theorem app_forbidden_iff (fs : Server.Attempt FileText) (disk : Server.Disk FileText)
    (incoming : Api.Incoming) :
  snd (app fs disk incoming) = Api.Forbidden
  ↔ ∃ key req, incoming = Api.Passed key req ∧ key ≠ Some API_KEY.
Proof.
  destruct incoming as [| | | key req]; cbn [Api.app snd].
  1-3: split; [done | by intros (? & ? & ? & _)].
  unfold Api.serve. destruct (decide (key = Some API_KEY)) as [Hkey | Hkey].
  - rewrite bool_decide_eq_true_2 by done. cbn [negb].
    split; [| intros (? & ? & [= <- <-] & ?); done].
    destruct req as [| body | medication | |]; cbn [snd].
    + unfold Api.getData. by destruct (Server.readPatientData _ _).
    + destruct body as [data |]; [destruct (isObject data) eqn:Hdata |].
      * rewrite putData_object by done. cbn [snd].
        by destruct (snd (Server.writePatientData _ _ _ _)).
      * rewrite putData_other; [done |]. by intros ? [= <-].
      * by rewrite putData_other.
    + by destruct (Server.postSideEffects _ _).
    + done.
    + done.
  - rewrite bool_decide_eq_false_2 by done. cbn [negb snd].
    split; [intros _; by exists key, req | done].
Qed.

(** X20.  Only a [PUT /api/data] that has come past the key check with
    an object or an array as its body can change the files, and they are
    then as [writePatientData] leaves them.  Such a request is answered
    as saved when [writePatientData] resolves and with the 500 of the
    handler's [catch] when it rejects, in which case the backup may
    already have been overwritten.  No other request is answered as
    saved or with that 500, and each leaves the files as they were. *)
Theorem app_writes_only_on_put (fs : Server.Attempt FileText)
    (disk : Server.Disk FileText) (incoming : Api.Incoming) :
  (∀ body, incoming = Api.Passed (Some API_KEY) (Api.PutData (Some body)) →
           isObject body = true →
           app fs disk incoming
           = (fst (Server.writePatientData stringify fs disk body),
              match snd (Server.writePatientData stringify fs disk body) with
              | Returned _ => Api.SavedReply
              | Thrown => Api.ServerError
              end))
  ∧ ((∀ body, incoming = Api.Passed (Some API_KEY) (Api.PutData (Some body)) →
              isObject body = false) →
     fst (app fs disk incoming) = disk
     ∧ snd (app fs disk incoming) ≠ Api.SavedReply
     ∧ snd (app fs disk incoming) ≠ Api.ServerError).
Proof.
  split.
  - intros body -> Hbody. cbn [Api.app]. unfold Api.serve.
    rewrite bool_decide_eq_true_2 by done. cbn [negb]. by apply putData_object.
  - intros Hother. destruct incoming as [| | | key req]; cbn [Api.app fst snd]; try done.
    unfold Api.serve. destruct (decide (key = Some API_KEY)) as [-> | Hkey].
    + rewrite bool_decide_eq_true_2 by done. cbn [negb].
      destruct req as [| body | medication | |]; cbn [fst snd]; try done.
      * split; [done |]. unfold Api.getData.
        destruct (Server.readPatientData parse disk) as [data |] eqn:Hread; [done |].
        exfalso. revert Hread.
        unfold Server.readPatientData, Server.readPrimary, Server.readFallback.
        destruct (Server.DATA_FILE disk) as [| | raw]; [done | |].
        -- destruct (Server.BACKUP_FILE disk) as [| | backup]; try done.
           by destruct (parse backup).
        -- destruct (parse raw); [done |].
           destruct (Server.BACKUP_FILE disk) as [| | backup]; try done.
           by destruct (parse backup).
      * rewrite putData_other; [done |]. intros data ->. by apply Hother.
      * split; [done |]. by destruct (Server.postSideEffects _ _).
    + by rewrite bool_decide_eq_false_2.
Qed.

(** [JSON.parse] undoes [JSON.stringify]. *)
Hypothesis parse_stringify : ∀ data, parse (stringify data) = Some data.

(** X21.  A [PUT /api/data] that has come past the key check with an
    object or an array, while the data directory is there and the final
    [writeFile] resolves and leaves a file that can be read, is answered
    as saved.  The [GET /api/data] that follows returns the body if it
    is an object with the field [dailyAssessments], and the default
    document otherwise: an array or an object without that field is
    accepted, and reads as the default.  The health route then reports
    the data file as existing. *)
Theorem put_then_get (fs fs' : Server.Attempt FileText) (disk : Server.Disk FileText)
    (body : Server.JSON) :
  isObject body = true →
  Server.dirReady fs = true → Server.dataWrite fs = Server.Stored true →
  let put := app fs disk (Api.Passed (Some API_KEY) (Api.PutData (Some body))) in
  snd put = Api.SavedReply
  ∧ app fs' (fst put) (Api.Passed (Some API_KEY) Api.GetData)
    = (fst put, Api.DataReply (if Server.hasShape body then body
                               else Server.DEFAULT_STATE))
  ∧ app fs' (fst put) (Api.Passed (Some API_KEY) Api.GetHealth)
    = (fst put, Api.HealthReply true).
Proof.
  intros Hbody Hdir Hdata. cbv zeta. cbn [Api.app]. unfold Api.serve.
  rewrite bool_decide_eq_true_2 by done. cbn [negb].
  rewrite putData_object by done. cbn [fst snd].
  unfold Server.writePatientData. rewrite Hdir, Hdata. cbn [negb fst snd Server.after].
  split; [done |]. split; [| reflexivity].
  unfold Api.getData, Server.readPatientData, Server.readPrimary.
  cbn [Server.DATA_FILE]. by rewrite parse_stringify.
Qed.
End RouteFacts.

Lemma put_then_get_witness :
  let empty : Server.Disk (option Server.JSON) :=
    {| Server.DATA_FILE := Server.NoFile; Server.BACKUP_FILE := Server.NoFile |} in
  let works : Server.Attempt (option Server.JSON) :=
    {| Server.dirReady := true; Server.backupWrite := Server.Stored true;
       Server.dataWrite := Server.Stored true |} in
  let app := Api.app id Some (js "k3y") (λ _, None) in
  let body := Server.JArray [Server.JNumber 1] in
  let put := app works empty (Api.Passed (Some (js "k3y")) (Api.PutData (Some body))) in
  snd put = Api.SavedReply
  ∧ app works (fst put) (Api.Passed (Some (js "k3y")) Api.GetData)
    = (fst put, Api.DataReply (if Server.hasShape body then body
                               else Server.DEFAULT_STATE))
  ∧ app works (fst put) (Api.Passed (Some (js "k3y")) Api.GetHealth)
    = (fst put, Api.HealthReply true).
Proof.
  intros empty works app body.
  apply (put_then_get (option Server.JSON) id Some (js "k3y") (λ _, None)
           (λ data, eq_refl) works works empty body); reflexivity.
Defined.

(** ** Loading and importing *)

Lemma clientAccepts_shape (data : Server.JSON) :
  clientAccepts data = true → Server.hasShape data = true.
Proof.
  destruct data as [| | | | | fields]; try done.
  unfold clientAccepts, Server.hasShape.
  destruct (assocGet fields (js "dailyAssessments")) eqn:Hget; [| done].
  intros _. apply bool_decide_eq_true_2.
  destruct (decide (js "dailyAssessments" ∈ fields.*1)) as [| Hno]; [done |].
  apply assocGet_None in Hno. congruence.
Qed.

(** X22.  A document that the client accepts, from the server or from an
    imported file, passes the shape check of the server's read, so that
    the server returns it as it is and not the default document. *)
Theorem clientAccepts_hasShape (FileText : Type) (parse : FileText → option Server.JSON)
    (raw : FileText) (backup : Server.File FileText) (data : Server.JSON) :
  parse raw = Some data →
  clientAccepts data = true →
  Server.hasShape data = true
  ∧ Server.readPatientData parse
      {| Server.DATA_FILE := Server.Content raw; Server.BACKUP_FILE := backup |}
    = Returned data.
Proof.
  intros Hraw Haccepts%clientAccepts_shape. split; [done |].
  unfold Server.readPatientData, Server.readPrimary. cbn [Server.DATA_FILE].
  by rewrite Hraw, Haccepts.
Qed.

Lemma clientAccepts_hasShape_witness :
  Server.hasShape Server.DEFAULT_STATE = true
  ∧ Server.readPatientData id
      {| Server.DATA_FILE := Server.Content (Some Server.DEFAULT_STATE);
         Server.BACKUP_FILE := Server.NoFile |}
    = Returned Server.DEFAULT_STATE.
Proof.
  apply (clientAccepts_hasShape (option Server.JSON) id (Some Server.DEFAULT_STATE)
           Server.NoFile Server.DEFAULT_STATE); reflexivity.
Defined.

Section ClientStorageFacts.
Variable CacheText : Type.
Variable parseCache : CacheText → option Server.JSON.

(** X23.  [loadFromServer] removes the legacy cache only when it has
    parsed it, and then hands what it parsed to [saveToServer] and
    resolves to it; in every other case the cache is left as it was. *)
Theorem loadFromServer_keeps_or_migrates (answer : Answer) (cache : option CacheText) :
  match migrated (loadFromServer parseCache answer cache) with
  | Some pushed =>
      (∃ raw, cache = Some raw ∧ parseCache raw = Some pushed)
      ∧ resolved (loadFromServer parseCache answer cache) = pushed
      ∧ cacheAfter (loadFromServer parseCache answer cache) = None
  | None => cacheAfter (loadFromServer parseCache answer cache) = cache
  end.
Proof.
  assert (Hcache :
    match migrated (loadFromCache parseCache cache) with
    | Some pushed =>
        (∃ raw, cache = Some raw ∧ parseCache raw = Some pushed)
        ∧ resolved (loadFromCache parseCache cache) = pushed
        ∧ cacheAfter (loadFromCache parseCache cache) = None
    | None => cacheAfter (loadFromCache parseCache cache) = cache
    end).
  { unfold loadFromCache. destruct cache as [raw |]; [| done].
    destruct (parseCache raw) eqn:Hraw; cbn; [| done]. split; [| done]. by exists raw. }
  unfold loadFromServer. destruct answer as [| [] [data |]]; try done.
  by destruct (clientAccepts data).
Qed.

(** X24.  The legacy cache is migrated at most once: after a load that
    handed it to [saveToServer], no later load does. *)
Theorem migration_once (first second : Answer) (cache : option CacheText)
    (pushed : Server.JSON) :
  migrated (loadFromServer parseCache first cache) = Some pushed →
  migrated (loadFromServer parseCache second
              (cacheAfter (loadFromServer parseCache first cache))) = None.
Proof.
  assert (Hsecond : ∀ answer, migrated (loadFromServer parseCache answer None) = None).
  { intros [| [] [data |]]; try done. cbn. by destruct (clientAccepts data). }
  intros Hfirst.
  assert (Hcache : cacheAfter (loadFromServer parseCache first cache) = None).
  { revert Hfirst. unfold loadFromServer, loadFromCache.
    destruct first as [| [] [data |]]; try destruct (clientAccepts data);
      destruct cache as [raw |]; try destruct (parseCache raw); cbn; done. }
  rewrite Hcache. apply Hsecond.
Qed.

Section ImportFacts.
Variable FileText : Type.
Variable parse : FileText → option Server.JSON.
Variable stringify : Server.JSON → FileText.
Variable API_KEY : jsstring.
Variable reportedTerms : jsstring → option (list jsstring).
Hypothesis parse_stringify : ∀ data, parse (stringify data) = Some data.


End ImportFacts.
End ClientStorageFacts.

Lemma migration_once_witness :
  migrated (loadFromServer id (Response true (Some Server.DEFAULT_STATE))
              (cacheAfter (loadFromServer id Unreachable (Some (Some Server.JNull)))))
  = None.
Proof.
  apply (migration_once (option Server.JSON) id Unreachable
           (Response true (Some Server.DEFAULT_STATE)) (Some (Some Server.JNull))
           Server.JNull).
  reflexivity.
Defined.



(** ** The auto-save, whatever the spacing of the mutations *)

Lemma run_ready (events : list (N * Event)) (c : Component) :
  ready c → ready (run events c).
Proof.
  revert c. induction events as [| ev events IH]; intros c Hc; [done |].
  apply IH. by apply handle_ready.
Qed.

(** X27.  From a [Ready] component, after any run of mutations, once the
    delay has passed since the last of them the latest push is the
    current state: the last change is saved, however the mutations were
    spaced. *)
Theorem latest_state_is_pushed (c : Component) (earlier : list (N * Event))
    (latest : N * Event) (now : N) :
  ready c →
  Forall isMutation (earlier ++ [latest]) →
  fst latest + SAVE_DELAY <= now →
  let final := elapse now (run (earlier ++ [latest]) c) in
  last (pushes final) = Some (currentState final)
  ∧ saveTimer final = None.
Proof.
  intros Hc Hmut Hnow. cbv zeta.
  apply Forall_app in Hmut as [_ Hlatest]. apply Forall_inv in Hlatest.
  unfold run. rewrite fold_left_app. cbn [fold_left]. fold (run earlier c).
  destruct (handle_Mutation_ready (run earlier c) latest) as (_ & _ & Htimer);
    [by apply run_ready | done |].
  unfold elapse at 1 2 3. rewrite Htimer.
  rewrite (proj2 (N.leb_le _ _)) by done. cbn [pushes currentState saveTimer].
  split; [apply last_snoc | done].
Qed.

Lemma latest_state_is_pushed_witness :
  let afterLoad := handle mounted (0, LoadSettled None) in
  let final := elapse 5000
                 (run ([ (1000, Mutation (setNotes (js "a")));
                         (4000, Mutation (setNotes (js "ab"))) ]
                       ++ [ (4100, Mutation (setNotes (js "abc"))) ]) afterLoad) in
  last (pushes final) = Some (currentState final)
  ∧ saveTimer final = None.
Proof.
  intros afterLoad.
  apply (latest_state_is_pushed afterLoad
           [ (1000, Mutation (setNotes (js "a"))); (4000, Mutation (setNotes (js "ab"))) ]
           (4100, Mutation (setNotes (js "abc"))) 5000).
  - by split.
  - repeat constructor.
  - unfold SAVE_DELAY. cbn. lia.
Defined.

Lemma elapse_owed (now : N) (c : Component) :
  pushes (elapse now c) ++ pendingSnapshot (elapse now c)
  = pushes c ++ pendingSnapshot c.
Proof.
  unfold elapse, pendingSnapshot. destruct (saveTimer c) as [[due snapshot] |] eqn:Ht.
  - destruct (due <=? now); cbn [pushes saveTimer]; [by rewrite app_nil_r | by rewrite Ht].
  - by rewrite Ht.
Qed.

Lemma handle_owed (c : Component) (t : N) (updater : PatientState → PatientState) :
  currentState (handle c (t, Mutation updater)) = updater (currentState c)
  ∧ sublist (pushes (handle c (t, Mutation updater))
             ++ pendingSnapshot (handle c (t, Mutation updater)))
            (pushes c ++ pendingSnapshot c ++ [updater (currentState c)]).
Proof.
  assert (Hstate : currentState (elapse t c) = currentState c).
  { unfold elapse. destruct (saveTimer c) as [[due snapshot] |]; [| done].
    by destruct (due <=? t). }
  assert (Hpushes : sublist (pushes (elapse t c)) (pushes c ++ pendingSnapshot c)).
  { rewrite <- (elapse_owed t c). apply sublist_inserts_r. reflexivity. }
  unfold handle, autoSaveEffect, cleanUp. cbn [fst snd loaded initialLoad currentState
    saveTimer pushes]. rewrite Hstate. rewrite app_assoc.
  destruct (loaded (elapse t c)); cbn [negb];
    [destruct (initialLoad (elapse t c)) |];
    unfold pendingSnapshot; cbn [currentState saveTimer pushes]; (split; [done |]).
  - rewrite app_nil_r. by apply sublist_inserts_r.
  - by apply sublist_app.
  - rewrite app_nil_r. by apply sublist_inserts_r.
Qed.

(** X28.  Every push of the auto-save is a state that a mutation
    produced, or the snapshot of a timer that was already pending, in
    the order they arose and each at most once: beyond the pushes
    already made, a run of mutations adds no other. *)
Theorem pushes_are_mutation_states (c : Component) (events : list (N * Event))
    (now : N) :
  Forall isMutation events →
  sublist (pushes (elapse now (run events c)))
          (pushes c ++ pendingSnapshot c ++ statesAfter events (currentState c)).
Proof.
  intros Hmut.
  transitivity (pushes (run events c) ++ pendingSnapshot (run events c)).
  { rewrite <- (elapse_owed now). apply sublist_inserts_r. reflexivity. }
  revert c. induction Hmut as [| [t [data | updater]] events Hev _ IH]; intros c.
  - cbn. by rewrite app_nil_r.
  - done.
  - unfold run. cbn [fold_left statesAfter snd]. fold (run events (handle c (t, Mutation updater))).
    destruct (handle_owed c t updater) as [Hstate Hsub].
    etransitivity; [apply IH |]. rewrite Hstate.
    change (updater (currentState c) :: ?l) with ([updater (currentState c)] ++ l).
    rewrite !app_assoc. rewrite app_assoc in Hsub.
    by apply sublist_app.
Qed.

Lemma pushes_are_mutation_states_witness :
  let afterLoad := handle mounted (0, LoadSettled None) in
  let events := [ (1000, Mutation (setNotes (js "a")));
                  (4000, Mutation (setNotes (js "ab")));
                  (4100, Mutation (setNotes (js "abc"))) ] in
  sublist (pushes (elapse 5000 (run events afterLoad)))
          (pushes afterLoad ++ pendingSnapshot afterLoad
           ++ statesAfter events (currentState afterLoad)).
Proof.
  intros afterLoad events.
  apply (pushes_are_mutation_states afterLoad events 5000).
  repeat constructor.
Defined.

(** ** Mutations made from one render *)

Lemma setAssessment_entry (state prev : PatientState) (selectedDate key : jsstring)
    (val : Z) :
  dailyAssessments (setAssessment state selectedDate key val prev) !! selectedDate
  = Some (<[key := val]> (todayAssessment state selectedDate)).
Proof. apply lookup_insert_eq. Qed.

Lemma setSeverity_entry (prev : PatientState) (selectedDate effect : jsstring) (val : Z) :
  sideEffectSeverities (setSeverity selectedDate effect val prev) !! selectedDate
  = Some (<[effect := val]> (default ∅ (sideEffectSeverities prev !! selectedDate))).
Proof. apply lookup_insert_eq. Qed.

(** X29.  [setAssessment] builds the entry of the selected date from the
    assessment of the render that created it, not from the state it is
    applied to: the entry it leaves is that assessment with the one score
    set.  Of two calls made from one render for different metrics, the
    second undoes the score of the first.  [setSeverity] reads the state
    it is applied to, and keeps both. *)
Theorem setAssessment_uses_render_state (state prev : PatientState)
    (selectedDate key1 key2 : jsstring) (val1 val2 : Z) :
  key1 ≠ key2 →
  let once := setAssessment state selectedDate key1 val1 prev in
  let twice := setAssessment state selectedDate key2 val2 once in
  let both := setSeverity selectedDate key2 val2
                (setSeverity selectedDate key1 val1 prev) in
  dailyAssessments once !! selectedDate
  = Some (<[key1 := val1]> (todayAssessment state selectedDate))
  ∧ todayAssessment twice selectedDate !! key2 = Some val2
  ∧ todayAssessment twice selectedDate !! key1
    = todayAssessment state selectedDate !! key1
  ∧ severityOf both selectedDate key1 = Some val1
  ∧ severityOf both selectedDate key2 = Some val2.
Proof.
  intros Hne. cbv zeta. split; [apply setAssessment_entry |].
  unfold todayAssessment at 1 2, severityOf.
  rewrite !setAssessment_entry, !setSeverity_entry. cbn [mbind option_bind default
    from_option id].
  rewrite !lookup_insert_eq. rewrite !lookup_insert_ne by done.
  by rewrite lookup_insert_eq.
Qed.

Lemma setAssessment_uses_render_state_witness :
  let once := setAssessment DEFAULT_STATE (js "2026-06-01") (js "energy") 8 DEFAULT_STATE in
  let twice := setAssessment DEFAULT_STATE (js "2026-06-01") (js "sleep") 2 once in
  let both := setSeverity (js "2026-06-01") (js "sleep") 2
                (setSeverity (js "2026-06-01") (js "energy") 8 DEFAULT_STATE) in
  dailyAssessments once !! js "2026-06-01"
  = Some (<[js "energy" := 8%Z]> (todayAssessment DEFAULT_STATE (js "2026-06-01")))
  ∧ todayAssessment twice (js "2026-06-01") !! js "sleep" = Some 2%Z
  ∧ todayAssessment twice (js "2026-06-01") !! js "energy"
    = todayAssessment DEFAULT_STATE (js "2026-06-01") !! js "energy"
  ∧ severityOf both (js "2026-06-01") (js "energy") = Some 8%Z
  ∧ severityOf both (js "2026-06-01") (js "sleep") = Some 2%Z.
Proof.
  apply (setAssessment_uses_render_state DEFAULT_STATE DEFAULT_STATE (js "2026-06-01")
           (js "energy") (js "sleep") 8 2).
  apply (bool_decide_eq_false_1 (js "energy" = js "sleep")). reflexivity.
Defined.
